(** * pdf-craft-sdk: the completion poller and the chunked uploader

    A shallow embedding of [pdf_craft_sdk/client.py]
    ([PDFCraftClient.get_conversion_result] and
    [PDFCraftClient.wait_for_completion]) together with the properties the
    specification states about them.

    The poller talks to three collaborators: the wall clock ([time.time]),
    the sleeper ([time.sleep]) and the HTTP transport ([requests.get]).  They
    are modelled as a [World] of oracles; the code is written in a small
    reader/state/error monad over it that records every transport call and
    every suspension in a trace.  The [while] loop need not terminate, so it
    is driven by a fuel argument counting loop iterations.

    The uploader ([upload_file], [UploadProgress]) is not part of the sources
    at hand; its model follows the specification and is marked as such.

    The other methods of [PDFCraftClient] (the constructor,
    [submit_conversion], [convert] and the batch API) send their requests
    through a transport of their own, a second small monad that logs what
    is sent; their embedding follows the uploader, and the properties of
    the code beyond those the specification states are in the last parts
    of the file. *)

From stdpp Require Import gmap strings list pretty.
From Stdlib Require Import ZArith QArith Qpower Floats Uint63 Ascii Lia Lqa.

Set Warnings "-register-all".
Set Default Proof Using "Type".

Local Open Scope string_scope.
Local Open Scope Z_scope.
Local Open Scope list_scope.

(** ** Seconds: the arithmetic of Python floats

    [wait_for_completion] computes on Python floats (IEEE binary64).  The
    code is embedded once, over an interface with the five operations it
    uses, and instantiated twice: with Rocq's primitive binary64 floats,
    which compute what CPython computes, and with exact rationals, where
    order reasoning is available. *)

Class PyFloat (num : Type) := {
  (** conversion of a Python [int] operand; [None] is [OverflowError] *)
  of_int : Z -> option num;
  (** [x / 1000.0] *)
  div1000 : num -> num;
  (** [x * y] *)
  fmul : num -> num -> num;
  (** [x - y] *)
  fsub : num -> num -> num;
  (** [x < y] *)
  fltb : num -> num -> bool;
}.

(** Python's built-in [min(a, b)]: the first argument is kept unless the
    second is strictly smaller. *)
Definition py_min {num : Type} `{!PyFloat num} (a b : num) : num :=
  if fltb b a then b else a.

(** IEEE binary64.  An [int] is rounded to the nearest float (ties to
    even); one too large to be represented raises [OverflowError]. *)
Definition float_of_int (z : Z) : option float :=
  let f := SF2Prim (binary_normalize prec emax z 0 false) in
  if PrimFloat.is_infinity f then None else Some f.

#[export] Instance Float64 : PyFloat float := {|
  of_int := float_of_int;
  div1000 := fun x => PrimFloat.div x 1000%float;
  fmul := PrimFloat.mul;
  fsub := PrimFloat.sub;
  fltb := PrimFloat.ltb;
|}.

(** The integers that round to an infinite binary64 float: those from
    [2^1024 - 2^970], half-way between the largest float and [2^1024],
    on. *)
Definition int_overflows (z : Z) : bool :=
  2 ^ 1024 - 2 ^ 970 <=? Z.abs z.

(** Exact rationals: binary64 without rounding.  An [int] converts when it
    converts to a binary64 float; the results are kept in lowest terms, so
    that equal numbers are equal terms. *)
#[export] Instance Rational : PyFloat Q := {|
  of_int := fun z => if int_overflows z then None else Some (inject_Z z);
  div1000 := fun x => Qred (x / 1000)%Q;
  fmul := fun x y => Qred (x * y)%Q;
  fsub := fun x y => Qred (x - y)%Q;
  fltb := fun x y => negb (Qle_bool y x);
|}.

(** ** Signs of binary64 values *)

(** A float that is not below zero: a zero of either sign, a positive
    number, [+inf], or NaN (which is below nothing). *)
Definition not_negative (x : spec_float) : Prop :=
  match x with
  | S754_finite s _ _ | S754_infinity s => s = false
  | S754_zero _ | S754_nan => True
  end.

(** A float that is not above zero. *)
Definition not_positive (x : spec_float) : Prop :=
  match x with
  | S754_finite s _ _ | S754_infinity s => s = true
  | S754_zero _ | S754_nan => True
  end.

(** A float with the sign [s], or NaN. *)
Definition signed (s : bool) (x : spec_float) : Prop :=
  match x with
  | S754_finite s' _ _ | S754_infinity s' | S754_zero s' => s' = s
  | S754_nan => True
  end.

(** ** JSON values and the Python operations applied to them *)

Inductive json :=
| JNull
| JBool (b : bool)
| JInt (n : Z)
| JFloat (f : float)
| JStr (s : string)
| JArr (l : list json)
| JObj (m : gmap string json).

(** ** Exceptions

    [APIError] and [TimeoutError] are the two classes [client.py] imports
    from [.exceptions]; the others are Python built-ins the embedded code can
    raise, and [RequestException] stands for whatever [requests.get] itself
    raises. *)

(** Modelled from the spec: [pdf_craft_sdk/exceptions.py] is not among the
    sources; [APIError] and [TimeoutError] are two different classes
    (the error taxonomy keeps a time-out distinguishable from the API
    errors). *)
Inductive exn_class :=
| APIError
| TimeoutError
| ValueError
| TypeError
| AttributeError
| KeyError
| OverflowError
| FileNotFoundError
| RequestException.

#[export] Instance exn_class_eq_dec : EqDecision exn_class.
Proof. solve_decision. Defined.

(** An exception: its class and its message.  A message the code builds by
    interpolating a decoded value, [f"...: {v}"], is kept as the literal text
    [exn_msg] and the interpolated value [exn_arg]. *)
Record exn := mk_exn {
  exn_class_of : exn_class;
  exn_msg : string;
  exn_arg : option json;
}.

(** Python truthiness ([if data ...]) of a decoded JSON value. *)
Definition truthy (v : json) : bool :=
  match v with
  | JNull => false
  | JBool b => b
  | JInt n => negb (Z.eqb n 0)
  | JFloat f => negb (PrimFloat.eqb f 0%float)
  | JStr s => negb (String.eqb s "")
  | JArr l => match l with [] => false | _ => true end
  | JObj m => negb (bool_decide (m = ∅))
  end.

(** [v == s] for a string literal [s]. *)
Definition eq_str (v : json) (s : string) : bool :=
  match v with
  | JStr s' => String.eqb s' s
  | _ => false
  end.

(** [p in s] on two strings: substring test. *)
Fixpoint str_contains (p s : string) : bool :=
  if String.prefix p s then true
  else match s with
       | EmptyString => false
       | String _ s' => str_contains p s'
       end.

(** [key in v] for a string literal [key]. *)
Definition py_in (key : string) (v : json) : exn + bool :=
  match v with
  | JObj m => inr (bool_decide (is_Some (m !! key)))
  | JArr l => inr (existsb (fun x => eq_str x key) l)
  | JStr s => inr (str_contains key s)
  | _ => inl (mk_exn TypeError "argument is not iterable" None)
  end.

(** [v[key]] for a string literal [key]. *)
Definition py_getitem (v : json) (key : string) : exn + json :=
  match v with
  | JObj m =>
      match m !! key with
      | Some x => inr x
      | None => inl (mk_exn KeyError key None)
      end
  | _ => inl (mk_exn TypeError "indices must be integers" None)
  end.

(** [v.get(key, default)]; only a [dict] has the method. *)
Definition py_get (v : json) (key : string) (dflt : json) : exn + json :=
  match v with
  | JObj m => inr (default dflt (m !! key))
  | _ => inl (mk_exn AttributeError "object has no attribute 'get'" None)
  end.

(** ** The enumerations of [pdf_craft_sdk/enums.py] *)

(** Modelled from the spec: [enums.py] is not among the sources.  The
    docstrings of [client.py] give the two format values, ['markdown'] and
    ['epub']; the examples name the three polling strategies. *)
Inductive FormatType := MARKDOWN | EPUB.

Definition FormatType_value (t : FormatType) : string :=
  match t with
  | MARKDOWN => "markdown"
  | EPUB => "epub"
  end.

Inductive PollingStrategy := FIXED | EXPONENTIAL | AGGRESSIVE.

(** The multiplier a [PollingStrategy] member carries ([.value]) is not
    visible in the sources: it is a parameter of the development. *)
Class Enums (num : Type) := {
  PollingStrategy_value : PollingStrategy -> num;
}.

(** An argument annotated [Union[str, FormatType]]. *)
Inductive format_arg :=
| FormatEnum (t : FormatType)
| FormatStr (s : string).

(** An argument annotated [Union[float, PollingStrategy]]; an [int] is
    accepted where a [float] is expected. *)
Inductive backoff_arg (num : Type) :=
| BackoffFloat (f : num)
| BackoffInt (n : Z)
| BackoffStrategy (s : PollingStrategy).
Arguments BackoffFloat {num} f.
Arguments BackoffInt {num} n.
Arguments BackoffStrategy {num} s.

(** ** [PDFCraftClient] *)

Record PDFCraftClient := {
  api_key : string;
  base_url : string;
}.

(** ** The collaborators and the monad of client code *)

(** What [requests.get] hands back: the fields of [requests.Response] the
    client reads.  [json_body] is the decoded body, [None] when
    [response.json()] raises [ValueError]. *)
Record Response := {
  status_code : Z;
  text : string;
  json_body : option json;
}.

(** [response.ok]: the status is not a 4xx or 5xx one. *)
Definition ok (r : Response) : bool :=
  negb ((400 <=? status_code r) && (status_code r <? 600)).

Inductive outcome (A : Type) :=
| Return (a : A)
| Raise (e : exn)
| OutOfFuel.
Arguments Return {A} a.
Arguments Raise {A} e.
Arguments OutOfFuel {A}.

Section Client.
Context {num : Type} `{!PyFloat num} `{!Enums num}.

Inductive event :=
| EGet (url : string)       (* a status query: [requests.get(url, ...)] *)
| ESleep (d : num).         (* a suspension: [time.sleep(d)] *)

Record World := {
  (** the successive readings of [time.time()] *)
  time_time : nat -> num;
  (** [time.sleep(d)]: [None] when it returns, [Some e] when it raises *)
  time_sleep : num -> option exn;
  (** the outcome of the [i]-th [requests.get]: an exception of the
      transport, or a response *)
  requests_get : nat -> string -> exn + Response;
}.

Record Machine := {
  clock_reads : nat;
  requests_made : nat;
  trace : list event;
}.

Definition M (A : Type) : Type :=
  World -> Machine -> Machine * outcome A.

Definition ret {A} (a : A) : M A :=
  fun _ s => (s, Return a).

Definition raise {A} (e : exn) : M A :=
  fun _ s => (s, Raise e).

Definition bind {A B} (m : M A) (k : A -> M B) : M B :=
  fun w s =>
    match m w s with
    | (s', Return a) => k a w s'
    | (s', Raise e) => (s', Raise e)
    | (s', OutOfFuel) => (s', OutOfFuel)
    end.

Notation "'do' x <- m ; k" := (bind m (fun x => k))
  (at level 10, x name, m at level 100, k at level 200).
Notation "'exec' m ; k" := (bind m (fun _ => k))
  (at level 10, m at level 100, k at level 200).

(** An operation that returns or raises without touching a collaborator. *)
Definition lift {A} (r : exn + A) : M A :=
  match r with
  | inl e => raise e
  | inr a => ret a
  end.

Definition now : M num :=
  fun w s =>
    ({| clock_reads := S (clock_reads s);
        requests_made := requests_made s;
        trace := trace s |},
     Return (time_time w (clock_reads s))).

Definition sleep (d : num) : M unit :=
  fun w s =>
    ({| clock_reads := clock_reads s;
        requests_made := requests_made s;
        trace := trace s ++ [ESleep d] |},
     match time_sleep w d with
     | None => Return tt
     | Some e => Raise e
     end).

Definition http_get (url : string) : M Response :=
  fun w s =>
    ({| clock_reads := clock_reads s;
        requests_made := S (requests_made s);
        trace := trace s ++ [EGet url] |},
     match requests_get w (requests_made s) url with
     | inl e => Raise e
     | inr r => Return r
     end).

Definition initial : Machine :=
  {| clock_reads := 0; requests_made := 0; trace := [] |}.

(** ** The client code *)

(** [PDFCraftClient._ensure_format_type] *)
Definition _ensure_format_type (format_type : format_arg) : exn + string :=
  match format_type with
  | FormatEnum t => inr (FormatType_value t)
  | FormatStr s =>
      if negb (bool_decide (s ∈ map FormatType_value [MARKDOWN; EPUB]))
      then inl (mk_exn ValueError
                  "format_type must be one of ['markdown', 'epub']" None)
      else inr s
  end.

(** [PDFCraftClient.get_conversion_result] *)
Definition get_conversion_result (self : PDFCraftClient) (task_id : string)
    (format_type : format_arg) : M json :=
  do format_type_str <- lift (_ensure_format_type format_type);
  let endpoint :=
    base_url self +:+ "/pdf-transform-" +:+ format_type_str
      +:+ "/result/" +:+ task_id in
  do response <- http_get endpoint;
  do result <-
    match json_body response with
    | Some r => ret r
    | None =>
        raise (mk_exn APIError
                 ("Invalid JSON response: " +:+ text response) None)
    end;
  if negb (ok response)
  then raise (mk_exn APIError
                ("HTTP " +:+ pretty (status_code response) +:+ ": "
                   +:+ text response) None)
  else ret result.

(** [n / 1000.0] for an [int] [n] *)
Definition ms_to_sec (n : Z) : M num :=
  match of_int n with
  | Some x => ret (div1000 x)
  | None => raise (mk_exn OverflowError "int too large to convert to float" None)
  end.

(** The [if]/[else] that settles [factor] *)
Definition backoff_value (backoff_factor : backoff_arg num) : M num :=
  match backoff_factor with
  | BackoffStrategy s => ret (PollingStrategy_value s)
  | BackoffFloat f => ret f
  | BackoffInt n =>
      match of_int n with
      | Some x => ret x
      | None => raise (mk_exn OverflowError "int too large to convert to float" None)
      end
  end.

(** The [while] loop of [wait_for_completion]; [fuel] bounds the number of
    times its condition is evaluated. *)
Fixpoint poll_loop (fuel : nat) (self : PDFCraftClient) (task_id : string)
    (format_type : format_arg)
    (start_time timeout_sec factor max_interval_sec current_interval_sec : num)
    : M json :=
  match fuel with
  | O => fun _ s => (s, OutOfFuel)
  | S fuel' =>
      do t <- now;
      if fltb (fsub t start_time) timeout_sec then
        do result <- get_conversion_result self task_id format_type;
        do state <- lift (py_get result "state" JNull);
        if eq_str state "completed" then
          do data <- lift (py_get result "data" JNull);
          do present <-
            (if truthy data then lift (py_in "downloadURL" data)
             else ret false);
          if present then lift (py_getitem data "downloadURL")
          else raise (mk_exn APIError
                 "Task completed but downloadURL missing in response: "
                 (Some result))
        else if eq_str state "failed" then
          do reason <- lift (py_get result "error" (JStr "Unknown error"));
          raise (mk_exn APIError "Conversion failed: " (Some reason))
        else
          exec sleep current_interval_sec;
          poll_loop fuel' self task_id format_type
            start_time timeout_sec factor max_interval_sec
            (py_min (fmul current_interval_sec factor) max_interval_sec)
      else raise (mk_exn TimeoutError "Conversion timeout" None)
  end.

(** [PDFCraftClient.wait_for_completion] *)
Definition wait_for_completion (fuel : nat) (self : PDFCraftClient)
    (task_id : string) (format_type : format_arg)
    (max_wait_ms check_interval_ms max_check_interval_ms : Z)
    (backoff_factor : backoff_arg num) : M json :=
  do start_time <- now;
  do timeout_sec <- ms_to_sec max_wait_ms;
  do factor <- backoff_value backoff_factor;
  do current_interval_sec <- ms_to_sec check_interval_ms;
  do max_interval_sec <- ms_to_sec max_check_interval_ms;
  poll_loop fuel self task_id format_type
    start_time timeout_sec factor max_interval_sec current_interval_sec.

(** ** Vocabulary of the statements about the poller *)

(** The arguments of [wait_for_completion] resolved to seconds, in the
    order the code resolves them: [(timeout_sec, factor,
    current_interval_sec, max_interval_sec)]; [None] when a conversion
    raises [OverflowError]. *)
Definition settings (max_wait_ms check_interval_ms max_check_interval_ms : Z)
    (backoff_factor : backoff_arg num) : option (num * num * num * num) :=
  timeout_sec ← div1000 <$> of_int max_wait_ms;
  factor ← match backoff_factor with
            | BackoffStrategy s => Some (PollingStrategy_value s)
            | BackoffFloat f => Some f
            | BackoffInt n => of_int n
            end;
  current_interval_sec ← div1000 <$> of_int check_interval_ms;
  max_interval_sec ← div1000 <$> of_int max_check_interval_ms;
  Some (timeout_sec, factor, current_interval_sec, max_interval_sec).

(** The interval the loop holds when it begins its [i]-th iteration
    (counted from 0): the initial one, then
    [min(previous * factor, max_interval_sec)]. *)
Fixpoint interval_at (initial factor max_interval_sec : num) (i : nat) : num :=
  match i with
  | O => initial
  | S j =>
      py_min (fmul (interval_at initial factor max_interval_sec j) factor)
        max_interval_sec
  end.

(** The suspensions and the number of status queries of a trace. *)
Definition sleeps_of (tr : list event) : list num :=
  omap (fun e => match e with ESleep d => Some d | EGet _ => None end) tr.

Definition queries_of (tr : list event) : list string :=
  omap (fun e => match e with EGet u => Some u | ESleep _ => None end) tr.

(** The URL of the status endpoint. *)
Definition result_url (self : PDFCraftClient) (task_id : string)
    (format_type : format_arg) : string :=
  match _ensure_format_type format_type with
  | inr format_type_str =>
      base_url self +:+ "/pdf-transform-" +:+ format_type_str
        +:+ "/result/" +:+ task_id
  | inl _ => ""
  end.

(** What the [i]-th call of [get_conversion_result] yields in world [w]. *)
Definition poll_result (w : World) (self : PDFCraftClient) (task_id : string)
    (format_type : format_arg) (i : nat) : outcome json :=
  snd (get_conversion_result self task_id format_type w
         {| clock_reads := 0; requests_made := i; trace := [] |}).

(** A status the loop neither returns nor raises on: a dictionary whose
    ["state"] is neither ["completed"] nor ["failed"]. *)
Definition pending (r : json) : bool :=
  match r with
  | JObj m =>
      negb (eq_str (default JNull (m !! "state")) "completed")
      && negb (eq_str (default JNull (m !! "state")) "failed")
  | _ => false
  end.

(** A terminal status: a dictionary whose ["state"] is ["completed"] or
    ["failed"]. *)
Definition terminal (r : json) : bool :=
  match r with
  | JObj m =>
      eq_str (default JNull (m !! "state")) "completed"
      || eq_str (default JNull (m !! "state")) "failed"
  | _ => false
  end.

(** The loop condition when it is evaluated for the [i]-th time: the clock
    has been read [S i] times, the first reading being [start_time]. *)
Definition within_deadline (w : World) (timeout_sec : num) (i : nat) : bool :=
  fltb (fsub (time_time w (S i)) (time_time w 0%nat)) timeout_sec.

(** The first [k] iterations all go round the loop: each finds the deadline
    ahead, observes a pending status, and its suspension returns. *)
Definition pending_prefix (w : World) (self : PDFCraftClient)
    (task_id : string) (format_type : format_arg)
    (timeout_sec factor initial max_interval_sec : num) (k : nat) : Prop :=
  ∀ i, (i < k)%nat →
    within_deadline w timeout_sec i = true
    ∧ (∃ r, poll_result w self task_id format_type i = Return r
            ∧ pending r = true)
    ∧ time_sleep w (interval_at initial factor max_interval_sec i) = None.

(** The same three conditions on iteration [i], as a test. *)
Definition goes_round (w : World) (self : PDFCraftClient) (task_id : string)
    (format_type : format_arg)
    (timeout_sec factor initial max_interval_sec : num) (i : nat) : bool :=
  within_deadline w timeout_sec i
  && match poll_result w self task_id format_type i with
     | Return r => pending r
     | _ => false
     end
  && match time_sleep w (interval_at initial factor max_interval_sec i) with
     | None => true
     | Some _ => false
     end.

(** The events of [k] full iterations. *)
Definition cycles (url : string) (initial factor max_interval_sec : num)
    (k : nat) : list event :=
  flat_map
    (fun i => [EGet url; ESleep (interval_at initial factor max_interval_sec i)])
    (seq 0 k).

(** The machine when the loop condition is about to be evaluated for the
    [i]-th time, [i] full iterations after the call began. *)
Definition at_iteration (url : string) (initial factor max_interval_sec : num)
    (i : nat) : Machine :=
  {| clock_reads := S i;
     requests_made := i;
     trace := cycles url initial factor max_interval_sec i |}.

(** The machine once the [i]-th iteration has issued its query. *)
Definition after_query (url : string) (initial factor max_interval_sec : num)
    (i : nat) : Machine :=
  {| clock_reads := S (S i);
     requests_made := S i;
     trace := cycles url initial factor max_interval_sec i ++ [EGet url] |}.

(** A completed status without its result payload: its ["data"] is absent
    or falsy ([null], an empty dictionary, ...), or is a dictionary without
    ["downloadURL"]. *)
Definition lacks_payload (m : gmap string json) : Prop :=
  truthy (default JNull (m !! "data")) = false
  ∨ ∃ d, m !! "data" = Some (JObj d) ∧ d !! "downloadURL" = None.

(** The shape of the trace of the loop from its [i]-th iteration on,
    together with the way the call ends: nothing at all; or one last query,
    whose answer is not a pending status and ends the call; or a query
    answered by a pending status, one suspension, and the rest. *)
Inductive poll_run (obs : nat -> outcome json)
    : nat -> list event -> outcome json -> Prop :=
| run_stop i o :
    poll_run obs i [] o
| run_last i url o :
    (∀ r, obs i = Return r → pending r = false) →
    o ≠ OutOfFuel →
    poll_run obs i [EGet url] o
| run_cycle i url d r tr o :
    obs i = Return r → pending r = true →
    poll_run obs (S i) tr o →
    poll_run obs i (EGet url :: ESleep d :: tr) o.

End Client.

Arguments event : clear implicits.
Arguments World : clear implicits.
Arguments Machine : clear implicits.
Arguments M : clear implicits.

(** ** The chunked uploader *)

(** Modelled from the spec: [UploadProgress] is imported from the package by
    the tests, but its definition is not among the sources.  It is the
    immutable snapshot [{uploadedBytes, totalBytes, currentPart,
    totalParts}], with the field names [src/test_upload_unit.py] uses. *)
Record UploadProgress := {
  uploaded_bytes : Z;
  total_bytes : Z;
  current_part : Z;
  total_parts : Z;
}.

Definition clamp (lo hi x : Q) : Q :=
  if Qle_bool x lo then lo else if Qle_bool hi x then hi else x.

(** Modelled from the spec: "percentage = 100 * uploadedBytes / totalBytes,
    clamped to [0,100], undefined (report 0) when totalBytes = 0". *)
Definition percentage (p : UploadProgress) : Q :=
  if total_bytes p =? 0 then 0%Q
  else clamp 0 100 (100 * inject_Z (uploaded_bytes p) / inject_Z (total_bytes p))%Q.

(** A snapshot an upload can produce: between nothing and everything has
    been uploaded, and the part counter is within the part count. *)
Definition valid_progress (p : UploadProgress) : Prop :=
  0 <= uploaded_bytes p <= total_bytes p
  ∧ 0 <= current_part p <= total_parts p.

(** Modelled from the spec: the ephemeral state of one upload, "created when
    upload starts, mutated part-by-part". *)
Record UploadSession := {
  file_path : string;
  session_total_bytes : nat;
  part_size : nat;
  session_total_parts : nat;
  session_uploaded_bytes : nat;
  session_current_part : nat;
  acknowledged : list nat;
}.

Definition snapshot (s : UploadSession) : UploadProgress :=
  {| uploaded_bytes := Z.of_nat (session_uploaded_bytes s);
     total_bytes := Z.of_nat (session_total_bytes s);
     current_part := Z.of_nat (session_current_part s);
     total_parts := Z.of_nat (session_total_parts s) |}.

(** What the service answers when a session is opened: the part size, the
    part count, and the locator the finished upload is known by. *)
Record SessionGrant := {
  grant_part_size : nat;
  grant_total_parts : nat;
  grant_locator : string;
}.

(** Modelled from the spec: the collaborators of the uploader.  The file
    system yields the bytes of a path, or [None] when the path does not
    reference an existing, readable regular file; the three transport calls
    are the session request, the per-part target request and the transfer
    of one part. *)
Record UploadWorld := {
  read_file : string -> option (list Byte.byte);
  init_session : nat -> exn + SessionGrant;
  part_target : nat -> exn + string;
  put_part : string -> list Byte.byte -> option exn;
}.

Inductive upload_event :=
| UInit (size : nat)
| UTarget (part : nat)
| UPut (part : nat) (url : string) (chunk : list Byte.byte)
| UProgress (p : UploadProgress).

Definition transport_calls (tr : list upload_event) : list upload_event :=
  List.filter (fun e => match e with UProgress _ => false | _ => true end) tr.

Definition progress_of (tr : list upload_event) : list UploadProgress :=
  omap (fun e => match e with UProgress p => Some p | _ => None end) tr.

(** The bytes of part [i] (parts are numbered from 1). *)
Definition part_bytes (content : list Byte.byte) (size i : nat) : list Byte.byte :=
  take size (drop ((i - 1) * size) content).

(** Modelled from the spec: the per-part loop of [uploadFile] (step 3):
    fetch the target of the part, read its byte range, transfer it, add its
    length to [uploadedBytes] and report a fresh snapshot; a failed
    transfer fails the upload with an [APIError] carrying the part index,
    and an exception of the callback propagates. *)
Fixpoint upload_parts (w : UploadWorld)
    (progress_callback : option (UploadProgress -> option exn))
    (content : list Byte.byte) (parts : list nat) (s : UploadSession)
    (tr : list upload_event) : list upload_event * (exn + UploadSession) :=
  match parts with
  | [] => (tr, inr s)
  | i :: rest =>
      match part_target w i with
      | inl e => (tr ++ [UTarget i], inl e)
      | inr url =>
          let chunk := part_bytes content (part_size s) i in
          let tr := tr ++ [UTarget i; UPut i url chunk] in
          match put_part w url chunk with
          | Some _ =>
              (tr, inl (mk_exn APIError "Failed to upload part "
                          (Some (JInt (Z.of_nat i)))))
          | None =>
              let s' :=
                {| file_path := file_path s;
                   session_total_bytes := session_total_bytes s;
                   part_size := part_size s;
                   session_total_parts := session_total_parts s;
                   session_uploaded_bytes :=
                     (session_uploaded_bytes s + length chunk)%nat;
                   session_current_part := i;
                   acknowledged := acknowledged s ++ [i] |} in
              match progress_callback with
              | None => upload_parts w progress_callback content rest s' tr
              | Some callback =>
                  match callback (snapshot s') with
                  | Some e => (tr ++ [UProgress (snapshot s')], inl e)
                  | None =>
                      upload_parts w progress_callback content rest s'
                        (tr ++ [UProgress (snapshot s')])
                  end
              end
          end
      end
  end.

(** Modelled from the spec: [uploadFile(path, progressCallback?)]
    (section 4.2): the precondition check, the session, the per-part loop
    over parts [1..totalParts] as the service declares them, and the
    locator. *)
Definition upload_file (w : UploadWorld) (path : string)
    (progress_callback : option (UploadProgress -> option exn))
    : list upload_event * (exn + string) :=
  match read_file w path with
  | None => ([], inl (mk_exn FileNotFoundError path None))
  | Some content =>
      match init_session w (length content) with
      | inl e => ([UInit (length content)], inl e)
      | inr grant =>
          let s :=
            {| file_path := path;
               session_total_bytes := length content;
               part_size := grant_part_size grant;
               session_total_parts := grant_total_parts grant;
               session_uploaded_bytes := 0;
               session_current_part := 0;
               acknowledged := [] |} in
          match upload_parts w progress_callback content
                  (seq 1 (grant_total_parts grant)) s [UInit (length content)] with
          | (tr, inl e) => (tr, inl e)
          | (tr, inr _) => (tr, inr (grant_locator grant))
          end
      end
  end.

(** [ceil(total / size)] *)
Definition ceil_div (total size : nat) : nat :=
  ((total + size - 1) / size)%nat.

(** ** Scripted worlds, after [src/test_polling.py]

    The test replaces [get_conversion_result] by a script of answers and
    [time.sleep] by a recorder.  Here the script is served over HTTP with
    status 200, the sleeper returns at once, and the clock is given. *)

Definition processing : json :=
  JObj {[ "state" := JStr "processing" ]}.

Definition completed (url : string) : json :=
  JObj {[ "state" := JStr "completed";
          "data" := JObj {[ "downloadURL" := JStr url ]} ]}.

Definition completed_without_payload : json :=
  JObj {[ "state" := JStr "completed" ]}.

Definition failed (reason : string) : json :=
  JObj {[ "state" := JStr "failed"; "error" := JStr reason ]}.

Definition queued : json :=
  JObj {[ "state" := JStr "queued" ]}.

Definition served (status : Z) (body : json) : Response :=
  {| status_code := status; text := ""; json_body := Some body |}.

Definition scripted {num : Type} (clock : nat -> num) (script : list Response)
    : World num :=
  {| time_time := clock;
     time_sleep := fun _ => None;
     requests_get := fun i _ =>
       match script !! i with
       | Some r => inr r
       | None => inl (mk_exn RequestException "StopIteration" None)
       end |}.

Definition client : PDFCraftClient :=
  {| api_key := "fake_key"; base_url := "https://fusion-api.oomol.com/v1" |}.

(** A clock that advances by a millisecond per reading. *)
Definition ticking (i : nat) : Q := (inject_Z (Z.of_nat i) / 1000)%Q.

(** Strategy multipliers for the examples (any would do). *)
Definition example_strategies_float : Enums float :=
  {| PollingStrategy_value := fun s =>
       match s with
       | FIXED => 1%float
       | EXPONENTIAL => 2%float
       | AGGRESSIVE => 3%float
       end |}.

Definition example_strategies_Q : Enums Q :=
  {| PollingStrategy_value := fun s =>
       match s with
       | FIXED => 1%Q
       | EXPONENTIAL => 2%Q
       | AGGRESSIVE => 3%Q
       end |}.

(** The status endpoint of task ["task123"] for the example client. *)
Definition status_url : string :=
  "https://fusion-api.oomol.com/v1/pdf-transform-markdown/result/task123".

(** [test_exponential_polling]: four times processing, then completed. *)
Definition test_exponential : World float :=
  scripted (fun _ => 1700000000%float)
    [served 200 processing; served 200 processing; served 200 processing;
     served 200 processing;
     served 200 (completed "http://example.com/result.md")].

(** [test_fixed_polling]: twice processing, then completed. *)
Definition test_fixed : World float :=
  scripted (fun _ => 1700000000%float)
    [served 200 processing; served 200 processing;
     served 200 (completed "http://example.com/result.md")].

(** A job that stays in processing while the clock advances by one second
    per reading. *)
Definition slow_job : World Q :=
  scripted (fun i => inject_Z (Z.of_nat i))
    (replicate 8 (served 200 processing)).

(** A service that reports completion without the result payload. *)
Definition contract_broken : World float :=
  scripted (fun _ => 1700000000%float)
    [served 200 processing; served 200 completed_without_payload].

(** A service that answers the status query with a server error. *)
Definition server_error : World float :=
  scripted (fun _ => 1700000000%float)
    [served 500 (JObj ∅)].

(** A job that fails after one poll. *)
Definition job_failed : World Q :=
  scripted ticking
    [served 200 processing; served 200 (failed "out of memory")].

(** A service that answers with an unknown state, then with no state at
    all, then with completion. *)
Definition job_queued : World Q :=
  scripted ticking
    [served 200 queued; served 200 (JObj ∅);
     served 200 (completed "http://example.com/result.md")].

(** An upload world without any file. *)
Definition no_files : UploadWorld :=
  {| read_file := fun _ => None;
     init_session := fun _ => inl (mk_exn RequestException "unreachable" None);
     part_target := fun _ => inl (mk_exn RequestException "unreachable" None);
     put_part := fun _ _ => None |}.

(** An upload world with one file of five bytes, served in parts of two. *)
Definition five_bytes : UploadWorld :=
  {| read_file := fun path =>
       if String.eqb path "document.pdf"
       then Some [Byte.x25; Byte.x50; Byte.x44; Byte.x46; Byte.x0a]
       else None;
     init_session := fun size =>
       inr {| grant_part_size := 2;
              grant_total_parts := ceil_div size 2;
              grant_locator := "cache://document.pdf" |};
     part_target := fun i => inr ("https://upload.example.com/part/" +:+ pretty i);
     put_part := fun _ _ => None |}.

(** The snapshot of [test_upload_types]. *)
Definition half_way : UploadProgress :=
  {| uploaded_bytes := 5000; total_bytes := 10000;
     current_part := 1; total_parts := 2 |}.

(** The snapshot of an empty file. *)
Definition empty_upload : UploadProgress :=
  {| uploaded_bytes := 0; total_bytes := 0;
     current_part := 0; total_parts := 0 |}.

(** ** Vocabulary of the further statements about the poller *)

(** What a status that is not pending ends the call with: the branches of
    the loop body that return or raise. *)
Definition settle (r : json) : outcome json :=
  match r with
  | JObj m =>
      if eq_str (default JNull (m !! "state")) "completed" then
        let data := default JNull (m !! "data") in
        match (if truthy data then py_in "downloadURL" data else inr false) with
        | inl e => Raise e
        | inr true =>
            match py_getitem data "downloadURL" with
            | inl e => Raise e
            | inr v => Return v
            end
        | inr false =>
            Raise (mk_exn APIError
                     "Task completed but downloadURL missing in response: "
                     (Some r))
        end
      else
        Raise (mk_exn APIError "Conversion failed: "
                 (Some (default (JStr "Unknown error") (m !! "error"))))
  | _ => Raise (mk_exn AttributeError "object has no attribute 'get'" None)
  end.

(** ** The constructor *)

(** [s.rstrip(c)] for a one-character argument: [s] without its trailing
    run of [c]. *)
Fixpoint rstrip (c : Ascii.ascii) (s : string) : string :=
  match s with
  | EmptyString => EmptyString
  | String a s' =>
      match rstrip c s' with
      | EmptyString =>
          if Ascii.eqb a c then EmptyString else String a EmptyString
      | String b r => String a (String b r)
      end
  end.

(** [s.endswith(c)] *)
Fixpoint ends_with (c : Ascii.ascii) (s : string) : bool :=
  match s with
  | EmptyString => false
  | String a EmptyString => Ascii.eqb a c
  | String _ s' => ends_with c s'
  end.

(** [c * n] *)
Fixpoint run_of (c : Ascii.ascii) (n : nat) : string :=
  match n with
  | O => EmptyString
  | S n' => String c (run_of c n')
  end.

(** An instance as [__init__] leaves it: the two attributes the poller
    reads, and the two the other methods read besides.  [headers] is a
    dictionary literal, kept in the order it is written. *)
Record PDFCraftClientObject := {
  poller_view :> PDFCraftClient;
  batch_base_url : string;
  headers : list (string * string);
}.

(** The default of the parameter [base_url]. *)
Definition default_base_url : string := "https://fusion-api.oomol.com/v1".

(** [PDFCraftClient.__init__]; [batch_base_url] is [Optional[str]], and
    [batch_base_url or "..."] also replaces an empty string. *)
Definition __init__ (api_key : string) (base_url : string)
    (batch_base_url : option string) : PDFCraftClientObject :=
  {| poller_view :=
       {| api_key := api_key; base_url := rstrip "/"%char base_url |};
     batch_base_url :=
       rstrip "/"%char
         (match batch_base_url with
          | Some u =>
              if String.eqb u "" then
                "https://pdf-server.oomol.com/api/v1/conversion"
              else u
          | None => "https://pdf-server.oomol.com/api/v1/conversion"
          end);
     headers :=
       [("Content-Type", "application/json");
        ("Authorization", "Bearer " +:+ api_key)] |}.

(** ** [requests.post] and [requests.get] as the other methods use them *)

Inductive http_method := GET | POST.

(** One call of [requests.get(url, headers=...)] or
    [requests.post(url, json=..., headers=...)]. *)
Record request := {
  req_method : http_method;
  req_url : string;
  req_json : option json;
  req_headers : list (string * string);
}.

(** The transport: what the [i]-th request of a call is answered with, an
    exception of [requests] or a response. *)
Definition Transport : Type := nat -> request -> exn + Response.

(** Code that sends requests: it reads the transport, logs what it sends,
    and returns or raises. *)
Definition R (A : Type) : Type :=
  Transport -> list request -> list request * (exn + A).

Definition R_ret {A} (a : A) : R A :=
  fun _ sent => (sent, inr a).

Definition R_raise {A} (e : exn) : R A :=
  fun _ sent => (sent, inl e).

Definition R_bind {A B} (m : R A) (k : A -> R B) : R B :=
  fun requests sent =>
    match m requests sent with
    | (sent', inr a) => k a requests sent'
    | (sent', inl e) => (sent', inl e)
    end.

Definition R_lift {A} (r : exn + A) : R A :=
  fun _ sent => (sent, r).

Definition send (rq : request) : R Response :=
  fun requests sent => (sent ++ [rq], requests (length sent) rq).

Definition requests_post (url : string) (json : option json)
    (headers : list (string * string)) : R Response :=
  send {| req_method := POST; req_url := url; req_json := json;
          req_headers := headers |}.

Definition requests_get_ (url : string) (headers : list (string * string))
    : R Response :=
  send {| req_method := GET; req_url := url; req_json := None;
          req_headers := headers |}.

Local Notation "'do' x <- m ; k" := (R_bind m (fun x => k))
  (at level 10, x name, m at level 100, k at level 200).

(** The statements every method repeats after its request:
    [try: result = response.json() except ValueError: raise APIError(...)]
    and then [if not response.ok: raise APIError(...)]. *)
Definition decoded (response : Response) : R json :=
  do result <-
    match json_body response with
    | Some r => R_ret r
    | None =>
        R_raise (mk_exn APIError
                   ("Invalid JSON response: " +:+ text response) None)
    end;
  if negb (ok response)
  then R_raise (mk_exn APIError
                  ("HTTP " +:+ pretty (status_code response) +:+ ": "
                     +:+ text response) None)
  else R_ret result.

(** [PDFCraftClient.submit_conversion] *)
Definition submit_conversion (self : PDFCraftClientObject) (pdf_url : string)
    (format_type : format_arg) (model : string)
    (includes_footnotes ignore_pdf_errors ignore_ocr_errors : bool) : R json :=
  do format_type_str <- R_lift (_ensure_format_type format_type);
  let endpoint :=
    base_url self +:+ "/pdf-transform-" +:+ format_type_str +:+ "/submit" in
  let data :=
    JObj {[ "pdfURL" := JStr pdf_url;
            "model" := JStr model;
            "includesFootnotes" := JBool includes_footnotes;
            "ignorePDFErrors" := JBool ignore_pdf_errors;
            "ignoreOCRErrors" := JBool ignore_ocr_errors ]} in
  do response <- requests_post endpoint (Some data) (headers self);
  do result <- decoded response;
  do success <- R_lift (py_get result "success" JNull);
  if truthy success then R_lift (py_getitem result "sessionID")
  else
    do reason <- R_lift (py_get result "error" (JStr "Unknown error"));
    R_raise (mk_exn APIError "Failed to submit task: " (Some reason)).

(** A value interpolated into an f-string: a [str] is itself; any other
    value goes through [str()], which is left open ([py_str]). *)
Definition interpolate (py_str : json -> string) (v : json) : string :=
  match v with
  | JStr s => s
  | _ => py_str v
  end.

(** [PDFCraftClient.convert].  The submission goes through [requests.post],
    the wait through the collaborators of the poller; the result is what
    was sent, what the poller did, and how the call ended. *)
Definition convert {num : Type} `{!PyFloat num} `{!Enums num}
    (py_str : json -> string) (fuel : nat)
    (self : PDFCraftClientObject) (pdf_url : string)
    (format_type : format_arg) (model : string)
    (includes_footnotes ignore_pdf_errors ignore_ocr_errors wait : bool)
    (max_wait_ms check_interval_ms max_check_interval_ms : Z)
    (backoff_factor : backoff_arg num)
    (requests : Transport) (w : World num)
    : list request * Machine num * outcome json :=
  match submit_conversion self pdf_url format_type model includes_footnotes
          ignore_pdf_errors ignore_ocr_errors requests [] with
  | (sent, inl e) => (sent, initial, Raise e)
  | (sent, inr task_id) =>
      if wait then
        let '(s, o) :=
          wait_for_completion fuel self (interpolate py_str task_id)
            format_type max_wait_ms check_interval_ms max_check_interval_ms
            backoff_factor w initial in
        (sent, s, o)
      else (sent, initial, Return task_id)
  end.

(** ** The batch API

    [batch_types.py] is not among the sources.  Each of its classes is
    represented by the keyword arguments [client.py] builds it with, every
    attribute holding a decoded JSON value. *)

Module BatchFile.
Record t := {
  url : json;
  file_name : json;
  file_size : json;
}.
End BatchFile.

Module CreateBatchResponse.
Record t := {
  batch_id : json;
  total_files : json;
  status : json;
  output_format : json;
  created_at : json;
}.
End CreateBatchResponse.

(** [OperationResponse] is built with different keyword arguments by
    different methods: an attribute is [None] here when the argument is not
    passed. *)
Module OperationResponse.
Record t := {
  batch_id : option json;
  queued_jobs : option json;
  cancelled_jobs : option json;
  paused_jobs : option json;
  resumed_jobs : option json;
  retried_jobs : option json;
  job_id : option json;
  status : option json;
}.
End OperationResponse.

Module BatchDetail.
Record t := {
  id : json;
  user_id : json;
  status : json;
  output_format : json;
  includes_footnotes : json;
  total_files : json;
  completed_files : json;
  failed_files : json;
  progress : json;
  created_at : json;
  updated_at : json;
}.
End BatchDetail.

Module Pagination.
Record t := {
  page : json;
  page_size : json;
  total : json;
  total_pages : json;
}.
End Pagination.

Module GetBatchesResponse.
Record t := {
  batches : json;
  pagination : Pagination.t;
}.
End GetBatchesResponse.

Module JobDetail.
Record t := {
  id : json;
  batch_id : json;
  user_id : json;
  output_format : json;
  source_url : json;
  file_name : json;
  file_size : json;
  status : json;
  result_url : json;
  error_message : json;
  progress : json;
  retry_count : json;
  task_id : json;
  started_at : json;
  completed_at : json;
  created_at : json;
  updated_at : json;
}.
End JobDetail.

Module GetJobsResponse.
Record t := {
  jobs : list JobDetail.t;
  pagination : Pagination.t;
}.
End GetJobsResponse.

Module ConcurrentStatus.
Record t := {
  max_concurrent_jobs : json;
  current_running_jobs : json;
  can_submit_new_job : json;
  available_slots : json;
  queued_jobs : json;
}.
End ConcurrentStatus.

(** An element of the [files] argument of [create_batch]. *)
Inductive file_arg :=
| FileObject (file : BatchFile.t)        (* [isinstance(file, BatchFile)] *)
| FileDict (file : gmap string json)     (* [isinstance(file, dict)] *)
| FileOther.                             (* anything else *)

(** The [for] loop of [create_batch] that builds [files_data]. *)
Fixpoint files_data_of (files : list file_arg) : exn + list json :=
  match files with
  | [] => inr []
  | file :: rest =>
      match
        match file with
        | FileObject file =>
            let file_dict : gmap string json :=
              {[ "url" := BatchFile.url file;
                 "fileName" := BatchFile.file_name file ]} in
            inr (JObj (match BatchFile.file_size file with
                       | JNull => file_dict
                       | size => <[ "fileSize" := size ]> file_dict
                       end))
        | FileDict file => inr (JObj file)
        | FileOther =>
            inl (mk_exn ValueError
                   "Each file must be a BatchFile object or a dictionary" None)
        end
      with
      | inl e => inl e
      | inr file_dict =>
          match files_data_of rest with
          | inl e => inl e
          | inr files_data => inr (file_dict :: files_data)
          end
      end
  end.

(** Code that returns or raises without sending anything: [x ← r; k] runs
    [k] on what [r] returns and passes on what [r] raises. *)
#[export] Instance exn_bind : MBind (sum exn) :=
  fun A B f r =>
    match r with
    | inl e => inl e
    | inr a => f a
    end.

(** [v[k1][k2]] *)
Definition py_getitem2 (v : json) (k1 k2 : string) : exn + json :=
  match py_getitem v k1 with
  | inl e => inl e
  | inr x => py_getitem x k2
  end.

(** [PDFCraftClient.create_batch] *)
Definition create_batch (self : PDFCraftClientObject) (files : list file_arg)
    (output_format : format_arg) (includes_footnotes : bool)
    : R CreateBatchResponse.t :=
  do format_type_str <- R_lift (_ensure_format_type output_format);
  do files_data <- R_lift (files_data_of files);
  let endpoint := batch_base_url self +:+ "/batches" in
  let data :=
    JObj {[ "files" := JArr files_data;
            "outputFormat" := JStr format_type_str;
            "includesFootnotes" := JBool includes_footnotes ]} in
  do response <- requests_post endpoint (Some data) (headers self);
  do result <- decoded response;
  do data_result <- R_lift (py_get result "data" result);
  do batch_id <- R_lift (py_getitem data_result "batchId");
  do total_files <- R_lift (py_getitem data_result "totalFiles");
  do status <- R_lift (py_getitem data_result "status");
  do output_format <- R_lift (py_getitem data_result "outputFormat");
  do created_at <- R_lift (py_getitem data_result "createdAt");
  R_ret {| CreateBatchResponse.batch_id := batch_id;
           CreateBatchResponse.total_files := total_files;
           CreateBatchResponse.status := status;
           CreateBatchResponse.output_format := output_format;
           CreateBatchResponse.created_at := created_at |}.

(** [PDFCraftClient.start_batch] *)
Definition start_batch (self : PDFCraftClientObject) (batch_id : string)
    : R OperationResponse.t :=
  let endpoint :=
    batch_base_url self +:+ "/batches/" +:+ batch_id +:+ "/start" in
  do response <- requests_post endpoint None (headers self);
  do result <- decoded response;
  do data_result <- R_lift (py_get result "data" result);
  do batch_id <- R_lift (py_get data_result "batchId" JNull);
  do queued_jobs <- R_lift (py_get data_result "queuedJobs" JNull);
  R_ret {| OperationResponse.batch_id := Some batch_id;
           OperationResponse.queued_jobs := Some queued_jobs;
           OperationResponse.cancelled_jobs := None;
           OperationResponse.paused_jobs := None;
           OperationResponse.resumed_jobs := None;
           OperationResponse.retried_jobs := None;
           OperationResponse.job_id := None;
           OperationResponse.status := None |}.

(** [PDFCraftClient.get_batch] *)
Definition get_batch (self : PDFCraftClientObject) (batch_id : string)
    : R BatchDetail.t :=
  let endpoint := batch_base_url self +:+ "/batches/" +:+ batch_id in
  do response <- requests_get_ endpoint (headers self);
  do result <- decoded response;
  do data_result <- R_lift (py_get result "data" result);
  do id <- R_lift (py_getitem data_result "id");
  do user_id <- R_lift (py_getitem data_result "userId");
  do status <- R_lift (py_getitem data_result "status");
  do output_format <- R_lift (py_getitem data_result "outputFormat");
  do includes_footnotes <- R_lift (py_getitem data_result "includesFootnotes");
  do total_files <- R_lift (py_getitem data_result "totalFiles");
  do completed_files <- R_lift (py_getitem data_result "completedFiles");
  do failed_files <- R_lift (py_getitem data_result "failedFiles");
  do progress <- R_lift (py_getitem data_result "progress");
  do created_at <- R_lift (py_getitem data_result "createdAt");
  do updated_at <- R_lift (py_getitem data_result "updatedAt");
  R_ret {| BatchDetail.id := id;
           BatchDetail.user_id := user_id;
           BatchDetail.status := status;
           BatchDetail.output_format := output_format;
           BatchDetail.includes_footnotes := includes_footnotes;
           BatchDetail.total_files := total_files;
           BatchDetail.completed_files := completed_files;
           BatchDetail.failed_files := failed_files;
           BatchDetail.progress := progress;
           BatchDetail.created_at := created_at;
           BatchDetail.updated_at := updated_at |}.

(** ["&".join(f"{k}={v}" for k, v in params.items() if v is not None)] *)
Definition query_string (params : list (string * option string)) : string :=
  String.concat "&"
    (omap (fun kv => (fun v => fst kv +:+ "=" +:+ v) <$> snd kv) params).

(** The [Pagination(...)] both listing methods build. *)
Definition pagination_of (data_result : json) : R Pagination.t :=
  do page <- R_lift (py_getitem2 data_result "pagination" "page");
  do page_size <- R_lift (py_getitem2 data_result "pagination" "pageSize");
  do total <- R_lift (py_getitem2 data_result "pagination" "total");
  do total_pages <- R_lift (py_getitem2 data_result "pagination" "totalPages");
  R_ret {| Pagination.page := page;
           Pagination.page_size := page_size;
           Pagination.total := total;
           Pagination.total_pages := total_pages |}.

(** [PDFCraftClient.get_batches]; [status] is [Optional[str]]. *)
Definition get_batches (self : PDFCraftClientObject) (page page_size : Z)
    (status : option string) (sort_by sort_order : string)
    : R GetBatchesResponse.t :=
  let params :=
    [("page", Some (pretty page));
     ("pageSize", Some (pretty page_size));
     ("status", status);
     ("sortBy", Some sort_by);
     ("sortOrder", Some sort_order)] in
  let endpoint :=
    batch_base_url self +:+ "/batches?" +:+ query_string params in
  do response <- requests_get_ endpoint (headers self);
  do result <- decoded response;
  do data_result <- R_lift (py_get result "data" result);
  do pagination <- pagination_of data_result;
  do batches <- R_lift (py_getitem data_result "batches");
  R_ret {| GetBatchesResponse.batches := batches;
           GetBatchesResponse.pagination := pagination |}.

(** Iteration over a decoded JSON value ([for job in v]).  A dictionary
    yields its keys; their order is not kept by the model of dictionaries,
    and the code below raises the same exception on each of them. *)
Definition py_iter (v : json) : exn + list json :=
  match v with
  | JArr l => inr l
  | JObj m => inr (JStr <$> (map_to_list m).*1)
  | JStr s =>
      inr ((fun a => JStr (String a EmptyString))
             <$> String.list_ascii_of_string s)
  | _ => inl (mk_exn TypeError "object is not iterable" None)
  end.

(** The [JobDetail(...)] built from one element of ["jobs"]. *)
Definition job_detail (job : json) : exn + JobDetail.t :=
  id ← py_getitem job "id";
  batch_id ← py_getitem job "batchId";
  user_id ← py_getitem job "userId";
  output_format ← py_getitem job "outputFormat";
  source_url ← py_getitem job "sourceUrl";
  file_name ← py_getitem job "fileName";
  file_size ← py_get job "fileSize" JNull;
  status ← py_getitem job "status";
  result_url ← py_get job "resultUrl" JNull;
  error_message ← py_get job "errorMessage" JNull;
  progress ← py_get job "progress" JNull;
  retry_count ← py_get job "retryCount" JNull;
  task_id ← py_get job "taskId" JNull;
  started_at ← py_get job "startedAt" JNull;
  completed_at ← py_get job "completedAt" JNull;
  created_at ← py_getitem job "createdAt";
  updated_at ← py_getitem job "updatedAt";
  inr {| JobDetail.id := id;
         JobDetail.batch_id := batch_id;
         JobDetail.user_id := user_id;
         JobDetail.output_format := output_format;
         JobDetail.source_url := source_url;
         JobDetail.file_name := file_name;
         JobDetail.file_size := file_size;
         JobDetail.status := status;
         JobDetail.result_url := result_url;
         JobDetail.error_message := error_message;
         JobDetail.progress := progress;
         JobDetail.retry_count := retry_count;
         JobDetail.task_id := task_id;
         JobDetail.started_at := started_at;
         JobDetail.completed_at := completed_at;
         JobDetail.created_at := created_at;
         JobDetail.updated_at := updated_at |}.

(** The list comprehension [[JobDetail(...) for job in ...]]: the first
    element that raises ends it. *)
Fixpoint job_details (l : list json) : exn + list JobDetail.t :=
  match l with
  | [] => inr []
  | job :: rest =>
      match job_detail job with
      | inl e => inl e
      | inr d =>
          match job_details rest with
          | inl e => inl e
          | inr ds => inr (d :: ds)
          end
      end
  end.

(** [PDFCraftClient.get_batch_jobs]; [if status:] also skips an empty
    string. *)
Definition get_batch_jobs (self : PDFCraftClientObject) (batch_id : string)
    (page page_size : Z) (status : option string) : R GetJobsResponse.t :=
  let params :=
    [("page", Some (pretty page)); ("pageSize", Some (pretty page_size))]
    ++ match status with
       | Some s => if String.eqb s "" then [] else [("status", Some s)]
       | None => []
       end in
  let endpoint :=
    batch_base_url self +:+ "/batches/" +:+ batch_id +:+ "/jobs?"
      +:+ query_string params in
  do response <- requests_get_ endpoint (headers self);
  do result <- decoded response;
  do data_result <- R_lift (py_get result "data" result);
  do listed <- R_lift (py_getitem data_result "jobs");
  do elements <- R_lift (py_iter listed);
  do jobs <- R_lift (job_details elements);
  do pagination <- pagination_of data_result;
  R_ret {| GetJobsResponse.jobs := jobs;
           GetJobsResponse.pagination := pagination |}.

(** [PDFCraftClient.cancel_batch] *)
Definition cancel_batch (self : PDFCraftClientObject) (batch_id : string)
    : R OperationResponse.t :=
  let endpoint :=
    batch_base_url self +:+ "/batches/" +:+ batch_id +:+ "/cancel" in
  do response <- requests_post endpoint None (headers self);
  do result <- decoded response;
  do data_result <- R_lift (py_get result "data" result);
  do batch_id <- R_lift (py_get data_result "batchId" JNull);
  do cancelled_jobs <- R_lift (py_get data_result "cancelledJobs" JNull);
  R_ret {| OperationResponse.batch_id := Some batch_id;
           OperationResponse.queued_jobs := None;
           OperationResponse.cancelled_jobs := Some cancelled_jobs;
           OperationResponse.paused_jobs := None;
           OperationResponse.resumed_jobs := None;
           OperationResponse.retried_jobs := None;
           OperationResponse.job_id := None;
           OperationResponse.status := None |}.

(** [PDFCraftClient.pause_batch] *)
Definition pause_batch (self : PDFCraftClientObject) (batch_id : string)
    : R OperationResponse.t :=
  let endpoint :=
    batch_base_url self +:+ "/batches/" +:+ batch_id +:+ "/pause" in
  do response <- requests_post endpoint None (headers self);
  do result <- decoded response;
  do data_result <- R_lift (py_get result "data" result);
  do batch_id <- R_lift (py_get data_result "batchId" JNull);
  do paused_jobs <- R_lift (py_get data_result "pausedJobs" JNull);
  R_ret {| OperationResponse.batch_id := Some batch_id;
           OperationResponse.queued_jobs := None;
           OperationResponse.cancelled_jobs := None;
           OperationResponse.paused_jobs := Some paused_jobs;
           OperationResponse.resumed_jobs := None;
           OperationResponse.retried_jobs := None;
           OperationResponse.job_id := None;
           OperationResponse.status := None |}.

(** [PDFCraftClient.resume_batch] *)
Definition resume_batch (self : PDFCraftClientObject) (batch_id : string)
    : R OperationResponse.t :=
  let endpoint :=
    batch_base_url self +:+ "/batches/" +:+ batch_id +:+ "/resume" in
  do response <- requests_post endpoint None (headers self);
  do result <- decoded response;
  do data_result <- R_lift (py_get result "data" result);
  do batch_id <- R_lift (py_get data_result "batchId" JNull);
  do resumed_jobs <- R_lift (py_get data_result "resumedJobs" JNull);
  R_ret {| OperationResponse.batch_id := Some batch_id;
           OperationResponse.queued_jobs := None;
           OperationResponse.cancelled_jobs := None;
           OperationResponse.paused_jobs := None;
           OperationResponse.resumed_jobs := Some resumed_jobs;
           OperationResponse.retried_jobs := None;
           OperationResponse.job_id := None;
           OperationResponse.status := None |}.

(** [PDFCraftClient.retry_job] *)
Definition retry_job (self : PDFCraftClientObject) (job_id : string)
    : R OperationResponse.t :=
  let endpoint :=
    batch_base_url self +:+ "/jobs/" +:+ job_id +:+ "/retry?force=true" in
  do response <- requests_post endpoint None (headers self);
  do result <- decoded response;
  do data_result <- R_lift (py_get result "data" result);
  do job_id <- R_lift (py_get data_result "jobId" JNull);
  do status <- R_lift (py_get data_result "status" JNull);
  R_ret {| OperationResponse.batch_id := None;
           OperationResponse.queued_jobs := None;
           OperationResponse.cancelled_jobs := None;
           OperationResponse.paused_jobs := None;
           OperationResponse.resumed_jobs := None;
           OperationResponse.retried_jobs := None;
           OperationResponse.job_id := Some job_id;
           OperationResponse.status := Some status |}.

(** [PDFCraftClient.retry_failed_jobs] *)
Definition retry_failed_jobs (self : PDFCraftClientObject) (batch_id : string)
    : R OperationResponse.t :=
  let endpoint :=
    batch_base_url self +:+ "/batches/" +:+ batch_id
      +:+ "/retry-failed?force=true" in
  do response <- requests_post endpoint None (headers self);
  do result <- decoded response;
  do data_result <- R_lift (py_get result "data" result);
  do batch_id <- R_lift (py_get data_result "batchId" JNull);
  do retried_jobs <- R_lift (py_get data_result "retriedJobs" JNull);
  R_ret {| OperationResponse.batch_id := Some batch_id;
           OperationResponse.queued_jobs := None;
           OperationResponse.cancelled_jobs := None;
           OperationResponse.paused_jobs := None;
           OperationResponse.resumed_jobs := None;
           OperationResponse.retried_jobs := Some retried_jobs;
           OperationResponse.job_id := None;
           OperationResponse.status := None |}.

(** [PDFCraftClient.cancel_job] *)
Definition cancel_job (self : PDFCraftClientObject) (job_id : string)
    : R OperationResponse.t :=
  let endpoint := batch_base_url self +:+ "/jobs/" +:+ job_id +:+ "/cancel" in
  do response <- requests_post endpoint None (headers self);
  do result <- decoded response;
  do data_result <- R_lift (py_get result "data" result);
  do job_id <- R_lift (py_get data_result "jobId" JNull);
  do status <- R_lift (py_get data_result "status" JNull);
  R_ret {| OperationResponse.batch_id := None;
           OperationResponse.queued_jobs := None;
           OperationResponse.cancelled_jobs := None;
           OperationResponse.paused_jobs := None;
           OperationResponse.resumed_jobs := None;
           OperationResponse.retried_jobs := None;
           OperationResponse.job_id := Some job_id;
           OperationResponse.status := Some status |}.

(** [PDFCraftClient.get_concurrent_status] *)
Definition get_concurrent_status (self : PDFCraftClientObject)
    : R ConcurrentStatus.t :=
  let endpoint := batch_base_url self +:+ "/concurrent-status" in
  do response <- requests_get_ endpoint (headers self);
  do result <- decoded response;
  do data_result <- R_lift (py_get result "data" result);
  do max_concurrent_jobs <- R_lift (py_getitem data_result "maxConcurrentJobs");
  do current_running_jobs <-
    R_lift (py_getitem data_result "currentRunningJobs");
  do fallback <- R_lift (py_get data_result "canSubmitNewJob" (JBool false));
  do can_submit_new_job <- R_lift (py_get data_result "canStartNew" fallback);
  do available_slots <- R_lift (py_get data_result "availableSlots" JNull);
  do queued_jobs <- R_lift (py_get data_result "queuedJobs" JNull);
  R_ret {| ConcurrentStatus.max_concurrent_jobs := max_concurrent_jobs;
           ConcurrentStatus.current_running_jobs := current_running_jobs;
           ConcurrentStatus.can_submit_new_job := can_submit_new_job;
           ConcurrentStatus.available_slots := available_slots;
           ConcurrentStatus.queued_jobs := queued_jobs |}.

(** ** Vocabulary of the statements about the batch API *)

(** A method sends exactly the request [rq], whatever it is answered, and
    passes on every failure of the exchange: an exception of the transport
    as it is; a body that is not JSON as an [APIError] quoting the body; a
    4xx or 5xx status as an [APIError] with the status code. *)
Definition one_request {A : Type} (method : R A) (rq : request) : Prop :=
  ∀ requests : Transport,
    fst (method requests []) = [rq]
    ∧ (∀ e, requests 0%nat rq = inl e → snd (method requests []) = inl e)
    ∧ (∀ resp, requests 0%nat rq = inr resp → json_body resp = None →
         snd (method requests []) =
         inl (mk_exn APIError ("Invalid JSON response: " +:+ text resp) None))
    ∧ (∀ resp r, requests 0%nat rq = inr resp → json_body resp = Some r →
         ok resp = false →
         snd (method requests []) =
         inl (mk_exn APIError
                ("HTTP " +:+ pretty (status_code resp) +:+ ": " +:+ text resp)
                None)).

(** A transport that answers every request with a response of status
    [status] whose body decodes to [body]. *)
Definition answering (status : Z) (body : json) : Transport :=
  fun _ _ => inr (served status body).

(** A method reads a payload the same way whether the service sends it
    bare or wrapped in a ["data"] entry (next to any other entries). *)
Definition reads_wrapped_as_bare {A : Type} (method : R A) : Prop :=
  ∀ (status : Z) (d others : gmap string json),
    d !! "data" = None →
    method (answering status (JObj (<[ "data" := JObj d ]> others))) []
    = method (answering status (JObj d)) [].

(** Whether a dictionary lacks a key. *)
Definition lacks (d : gmap string json) (k : string) : bool :=
  match d !! k with
  | None => true
  | Some _ => false
  end.

(** Code that sends nothing: it only returns or raises. *)
Definition sends_nothing {A : Type} (m : R A) : Prop :=
  ∃ r : exn + A, ∀ (requests : Transport) (sent : list request),
    m requests sent = (sent, r).

(** The attributes of an [OperationResponse], in the order the class is
    written about in [client.py]. *)
Definition attributes (r : OperationResponse.t) : list (option json) :=
  [OperationResponse.batch_id r; OperationResponse.queued_jobs r;
   OperationResponse.cancelled_jobs r; OperationResponse.paused_jobs r;
   OperationResponse.resumed_jobs r; OperationResponse.retried_jobs r;
   OperationResponse.job_id r; OperationResponse.status r].

(** A method that builds its [OperationResponse] from two entries of the
    payload, read with [.get]: for every answer that is a JSON object with
    a status other than 4xx and 5xx, it returns; the two attributes hold
    the entries, [None] where the payload has none; no other attribute is
    passed; and a payload that is [null] raises [AttributeError]. *)
Definition tolerant_operation (method : R OperationResponse.t)
    (key1 : string) (attr1 : OperationResponse.t -> option json)
    (key2 : string) (attr2 : OperationResponse.t -> option json) : Prop :=
  ∀ (status : Z) (d : gmap string json),
    (400 <=? status) && (status <? 600) = false →
    (d !! "data" = None →
     ∃ r, snd (method (answering status (JObj d)) []) = inr r
          ∧ attr1 r = Some (default JNull (d !! key1))
          ∧ attr2 r = Some (default JNull (d !! key2))
          ∧ length (omap id (attributes r)) = 2%nat)
    ∧ (d !! "data" = Some JNull →
       snd (method (answering status (JObj d)) []) =
       inl (mk_exn AttributeError "object has no attribute 'get'" None)).

(** The keys [get_batch] subscripts the payload with, in the order it does;
    and those [get_batch_jobs] subscripts each job with. *)
Definition batch_keys : list string :=
  ["id"; "userId"; "status"; "outputFormat"; "includesFootnotes";
   "totalFiles"; "completedFiles"; "failedFiles"; "progress"; "createdAt";
   "updatedAt"].

Definition job_keys : list string :=
  ["id"; "batchId"; "userId"; "outputFormat"; "sourceUrl"; "fileName";
   "status"; "createdAt"; "updatedAt"].

(** ** Scripted services for the further statements *)

(** A service that answers the status query with a JSON list. *)
Definition odd_status : World float :=
  scripted (fun _ => 1700000000%float) [served 200 (JArr [])].

(** A service that reports completion with a text in place of the
    payload. *)
Definition odd_payload : World float :=
  scripted (fun _ => 1700000000%float)
    [served 200 (JObj {[ "state" := JStr "completed";
                         "data" := JStr "see downloadURL" ]})].

(** A service that accepts every submission under the id [task_id]. *)
Definition accepting (task_id : string) : Transport :=
  answering 200 (JObj {[ "success" := JBool true;
                         "sessionID" := JStr task_id ]}).

(** The client of the tests, as its constructor builds it. *)
Definition example_client : PDFCraftClientObject :=
  __init__ "fake_key" default_base_url None.

(** The payload of a concurrency status that carries both flags. *)
Definition both_flags : gmap string json :=
  {[ "maxConcurrentJobs" := JInt 3;
     "currentRunningJobs" := JInt 1;
     "canStartNew" := JNull;
     "canSubmitNewJob" := JBool true ]}.

(** A payload without any field. *)
Definition no_fields : gmap string json := ∅.


(** * Properties of the completion poller *)

Section PollerFacts.
Context {num : Type} `{!PyFloat num} `{!Enums num}.

Implicit Types (w : World num) (s : Machine num) (self : PDFCraftClient).
Implicit Types (task_id : string) (format_type : format_arg) (r : json).

(** ** One call of [get_conversion_result] *)

Lemma get_conversion_result_run w self task_id format_type s :
  get_conversion_result self task_id format_type w s =
  match _ensure_format_type format_type with
  | inl e => (s, Raise e)
  | inr _ =>
      ({| clock_reads := clock_reads s;
          requests_made := S (requests_made s);
          trace := trace s ++ [EGet (result_url self task_id format_type)] |},
       poll_result w self task_id format_type (requests_made s))
  end.
Proof.
  unfold poll_result, get_conversion_result, result_url.
  destruct (_ensure_format_type format_type) as [e|fs]; [reflexivity|].
  unfold bind, lift, ret, raise, http_get; cbn.
  destruct (requests_get w (requests_made s) _) as [e|resp]; [reflexivity|].
  destruct (json_body resp); [|reflexivity].
  destruct (ok resp); reflexivity.
Qed.

Lemma poll_result_format w self task_id format_type i r :
  poll_result w self task_id format_type i = Return r →
  ∃ fs, _ensure_format_type format_type = inr fs.
Proof.
  unfold poll_result, get_conversion_result.
  destruct (_ensure_format_type format_type) as [e|fs]; [discriminate|eauto].
Qed.

Lemma poll_result_never_out_of_fuel w self task_id format_type i :
  poll_result w self task_id format_type i ≠ OutOfFuel.
Proof.
  unfold poll_result, get_conversion_result.
  destruct (_ensure_format_type format_type) as [e|fs]; [discriminate|].
  unfold bind, lift, ret, raise, http_get; cbn.
  destruct (requests_get w i _) as [e|resp]; [discriminate|].
  destruct (json_body resp); [|discriminate].
  destruct (ok resp); discriminate.
Qed.

(** ** Reading a status *)

Lemma pending_spec (m : gmap string json) :
  pending (JObj m) = true ↔
  m !! "state" ≠ Some (JStr "completed") ∧ m !! "state" ≠ Some (JStr "failed").
Proof.
  unfold pending, eq_str.
  destruct (m !! "state") as [[]|] eqn:E; cbn; try (split; [split; congruence|reflexivity]).
  destruct (String.eqb_spec s "completed") as [->|n1]; cbn.
  { split; [discriminate|]. intros [? _]; congruence. }
  destruct (String.eqb_spec s "failed") as [->|n2]; cbn.
  { split; [discriminate|]. intros [_ ?]; congruence. }
  split; [|reflexivity]. intros _; split; congruence.
Qed.

Lemma pending_not_terminal r : pending r = true → terminal r = false.
Proof.
  destruct r; cbn; try discriminate.
  destruct (eq_str _ "completed"), (eq_str _ "failed"); cbn; congruence.
Qed.

Lemma terminal_not_pending r : terminal r = true → pending r = false.
Proof.
  destruct (pending r) eqn:E; [|reflexivity].
  apply pending_not_terminal in E. congruence.
Qed.

(** ** One iteration of the loop *)

Lemma pending_inv r :
  pending r = true →
  ∃ m, r = JObj m
       ∧ eq_str (default JNull (m !! "state")) "completed" = false
       ∧ eq_str (default JNull (m !! "state")) "failed" = false.
Proof.
  destruct r; cbn; try discriminate.
  intros [Hc%negb_true_iff Hx%negb_true_iff]%andb_prop.
  exists m. auto.
Qed.

Section Iteration.
Variables (w : World num) (self : PDFCraftClient) (task_id : string).
Variables (format_type : format_arg).
Variables (start_time timeout_sec factor max_interval_sec : num).

Local Abbreviation url := (result_url self task_id format_type).
Local Abbreviation obs := (poll_result w self task_id format_type).
Local Abbreviation loop fuel :=
  (poll_loop fuel self task_id format_type
     start_time timeout_sec factor max_interval_sec).
Local Abbreviation queried s :=
  {| clock_reads := S (clock_reads s);
     requests_made := S (requests_made s);
     trace := trace s ++ [EGet url] |}.

Lemma loop_timeout fuel cur s :
  fltb (fsub (time_time w (clock_reads s)) start_time) timeout_sec = false →
  loop (S fuel) cur w s =
  ({| clock_reads := S (clock_reads s);
      requests_made := requests_made s;
      trace := trace s |},
   Raise (mk_exn TimeoutError "Conversion timeout" None)).
Proof.
  intros Hd. cbn [poll_loop].
  unfold bind at 1, now; cbn. rewrite Hd. reflexivity.
Qed.

Lemma loop_bad_format fuel cur s e :
  fltb (fsub (time_time w (clock_reads s)) start_time) timeout_sec = true →
  _ensure_format_type format_type = inl e →
  loop (S fuel) cur w s =
  ({| clock_reads := S (clock_reads s);
      requests_made := requests_made s;
      trace := trace s |},
   Raise e).
Proof.
  intros Hd He. cbn [poll_loop].
  unfold bind at 1, now; cbn. rewrite Hd.
  unfold bind at 1. rewrite get_conversion_result_run, He. reflexivity.
Qed.

Lemma loop_raise fuel cur s fs e :
  fltb (fsub (time_time w (clock_reads s)) start_time) timeout_sec = true →
  _ensure_format_type format_type = inr fs →
  obs (requests_made s) = Raise e →
  loop (S fuel) cur w s = (queried s, Raise e).
Proof.
  intros Hd Hf He. cbn [poll_loop].
  unfold bind at 1, now; cbn. rewrite Hd.
  unfold bind at 1. rewrite get_conversion_result_run, Hf. cbn.
  rewrite He. reflexivity.
Qed.

Lemma loop_pending fuel cur s r :
  fltb (fsub (time_time w (clock_reads s)) start_time) timeout_sec = true →
  obs (requests_made s) = Return r →
  pending r = true →
  loop (S fuel) cur w s =
  match time_sleep w cur with
  | None =>
      loop fuel (py_min (fmul cur factor) max_interval_sec) w
        {| clock_reads := S (clock_reads s);
           requests_made := S (requests_made s);
           trace := (trace s ++ [EGet url]) ++ [ESleep cur] |}
  | Some e =>
      ({| clock_reads := S (clock_reads s);
          requests_made := S (requests_made s);
          trace := (trace s ++ [EGet url]) ++ [ESleep cur] |},
       Raise e)
  end.
Proof.
  intros Hd Hr Hp.
  destruct (poll_result_format _ _ _ _ _ _ Hr) as [fs Hf].
  destruct (pending_inv _ Hp) as (m & -> & Hc & Hx).
  cbn [poll_loop].
  unfold bind at 1, now; cbn. rewrite Hd.
  unfold bind at 1. rewrite get_conversion_result_run, Hf. cbn.
  rewrite Hr.
  unfold bind at 1; cbn. rewrite Hc, Hx.
  unfold bind at 1, sleep; cbn.
  destruct (time_sleep w cur); reflexivity.
Qed.

Lemma loop_settled fuel cur s r :
  fltb (fsub (time_time w (clock_reads s)) start_time) timeout_sec = true →
  obs (requests_made s) = Return r →
  pending r = false →
  ∃ o, o ≠ OutOfFuel ∧ loop (S fuel) cur w s = (queried s, o).
Proof.
  intros Hd Hr Hp.
  destruct (poll_result_format _ _ _ _ _ _ Hr) as [fs Hf].
  cbn [poll_loop].
  unfold bind at 1, now; cbn. rewrite Hd.
  unfold bind at 1. rewrite get_conversion_result_run, Hf. cbn.
  rewrite Hr.
  unfold bind at 1.
  destruct r as [| | | | | |m]; cbn;
    try (eexists; split; [|reflexivity]; discriminate).
  cbn in Hp.
  destruct (eq_str (default JNull (m !! "state")) "completed") eqn:Hc.
  - unfold bind at 1; cbn. unfold bind at 1.
    destruct (truthy (default JNull (m !! "data"))); cbn.
    + destruct (py_in "downloadURL" (default JNull (m !! "data"))) as [e|[]]; cbn;
        try (eexists; split; [|reflexivity]; discriminate).
      destruct (py_getitem _ _); cbn; eexists; (split; [|reflexivity]); discriminate.
    + eexists; split; [|reflexivity]; discriminate.
  - destruct (eq_str (default JNull (m !! "state")) "failed") eqn:Hx;
      [|discriminate].
    unfold bind at 1; cbn. eexists; split; [|reflexivity]; discriminate.
Qed.

Lemma loop_completed fuel cur s m d v :
  fltb (fsub (time_time w (clock_reads s)) start_time) timeout_sec = true →
  obs (requests_made s) = Return (JObj m) →
  m !! "state" = Some (JStr "completed") →
  m !! "data" = Some (JObj d) →
  d !! "downloadURL" = Some v →
  loop (S fuel) cur w s = (queried s, Return v).
Proof.
  intros Hd Hr Hst Hdata Hurl.
  destruct (poll_result_format _ _ _ _ _ _ Hr) as [fs Hf].
  cbn [poll_loop].
  unfold bind at 1, now; cbn. rewrite Hd.
  unfold bind at 1. rewrite get_conversion_result_run, Hf. cbn.
  rewrite Hr.
  unfold bind at 1; cbn. rewrite Hst; cbn.
  unfold bind at 1; cbn. rewrite Hdata; cbn.
  assert (d ≠ ∅) as Hne by (intros ->; rewrite lookup_empty in Hurl; discriminate).
  rewrite bool_decide_eq_false_2 by assumption. cbn.
  rewrite bool_decide_eq_true_2 by (rewrite Hurl; eauto).
  rewrite Hurl. reflexivity.
Qed.

Lemma loop_completed_missing fuel cur s m :
  fltb (fsub (time_time w (clock_reads s)) start_time) timeout_sec = true →
  obs (requests_made s) = Return (JObj m) →
  m !! "state" = Some (JStr "completed") →
  lacks_payload m →
  loop (S fuel) cur w s =
  (queried s,
   Raise (mk_exn APIError
            "Task completed but downloadURL missing in response: "
            (Some (JObj m)))).
Proof.
  intros Hd Hr Hst Hlack.
  destruct (poll_result_format _ _ _ _ _ _ Hr) as [fs Hf].
  cbn [poll_loop].
  unfold bind at 1, now; cbn. rewrite Hd.
  unfold bind at 1. rewrite get_conversion_result_run, Hf. cbn.
  rewrite Hr.
  unfold bind at 1; cbn. rewrite Hst; cbn.
  unfold bind at 1; cbn.
  destruct Hlack as [Hfalsy|(d & Hdata & Hnone)].
  - rewrite Hfalsy. reflexivity.
  - rewrite Hdata. cbn.
    destruct (bool_decide (d = ∅)); cbn; [reflexivity|].
    rewrite bool_decide_eq_false_2; [reflexivity|].
    rewrite Hnone. intros [? ?]; discriminate.
Qed.

Lemma loop_failed fuel cur s m :
  fltb (fsub (time_time w (clock_reads s)) start_time) timeout_sec = true →
  obs (requests_made s) = Return (JObj m) →
  m !! "state" = Some (JStr "failed") →
  loop (S fuel) cur w s =
  (queried s,
   Raise (mk_exn APIError "Conversion failed: "
            (Some (default (JStr "Unknown error") (m !! "error"))))).
Proof.
  intros Hd Hr Hst.
  destruct (poll_result_format _ _ _ _ _ _ Hr) as [fs Hf].
  cbn [poll_loop].
  unfold bind at 1, now; cbn. rewrite Hd.
  unfold bind at 1. rewrite get_conversion_result_run, Hf. cbn.
  rewrite Hr.
  unfold bind at 1; cbn. rewrite Hst; cbn.
  reflexivity.
Qed.

(** What one evaluation of the loop condition leads to: the call ends
    without a query (deadline passed, or the format refused); or it issues
    its last query; or it issues a query, finds the status pending and
    suspends. *)
Lemma loop_cases fuel cur s :
  (∃ o, o ≠ OutOfFuel ∧
     loop (S fuel) cur w s =
     ({| clock_reads := S (clock_reads s);
         requests_made := requests_made s;
         trace := trace s |}, o))
  ∨ (∃ o, o ≠ OutOfFuel
       ∧ (∀ r, obs (requests_made s) = Return r → pending r = false)
       ∧ fltb (fsub (time_time w (clock_reads s)) start_time) timeout_sec = true
       ∧ loop (S fuel) cur w s = (queried s, o))
  ∨ (∃ r, fltb (fsub (time_time w (clock_reads s)) start_time) timeout_sec = true
       ∧ obs (requests_made s) = Return r
       ∧ pending r = true
       ∧ loop (S fuel) cur w s =
         match time_sleep w cur with
         | None =>
             loop fuel (py_min (fmul cur factor) max_interval_sec) w
               {| clock_reads := S (clock_reads s);
                  requests_made := S (requests_made s);
                  trace := (trace s ++ [EGet url]) ++ [ESleep cur] |}
         | Some e =>
             ({| clock_reads := S (clock_reads s);
                 requests_made := S (requests_made s);
                 trace := (trace s ++ [EGet url]) ++ [ESleep cur] |},
              Raise e)
         end).
Proof.
  destruct (fltb (fsub (time_time w (clock_reads s)) start_time) timeout_sec)
    eqn:Hd.
  2:{ left. eexists. split; [|apply loop_timeout, Hd]. discriminate. }
  destruct (_ensure_format_type format_type) as [e|fs] eqn:Hf.
  { left. eexists. split; [|apply (loop_bad_format _ _ _ e Hd Hf)]. discriminate. }
  destruct (obs (requests_made s)) as [r|e|] eqn:Hr.
  - destruct (pending r) eqn:Hp.
    + right; right. exists r. repeat split; try assumption.
      apply (loop_pending _ _ _ r); assumption.
    + right; left. destruct (loop_settled fuel cur s r Hd Hr Hp) as (o & Ho & Heq).
      exists o. repeat split; try assumption. congruence.
  - right; left. exists (Raise e). repeat split; try discriminate.
    apply (loop_raise _ _ _ fs); assumption.
  - exfalso. eapply poll_result_never_out_of_fuel, Hr.
Qed.

(** Every run of the loop has the shape [poll_run]. *)
Lemma loop_shape fuel :
  ∀ cur s, ∃ tr,
    trace (fst (loop fuel cur w s)) = trace s ++ tr
    ∧ poll_run obs (requests_made s) tr (snd (loop fuel cur w s)).
Proof.
  induction fuel as [|fuel IH]; intros cur s.
  { exists []. cbn. rewrite app_nil_r. split; [reflexivity|constructor]. }
  destruct (loop_cases fuel cur s)
    as [(o & _ & Heq) | [(o & Hne & Hnp & _ & Heq) | (r & _ & Hr & Hp & Heq)]];
    rewrite Heq; clear Heq.
  - exists []. cbn [fst snd trace]. rewrite app_nil_r.
    split; [reflexivity|constructor].
  - exists [EGet url]. cbn [fst snd trace]. split; [reflexivity|].
    constructor; assumption.
  - destruct (time_sleep w cur) as [e|].
    + exists [EGet url; ESleep cur]. cbn [fst snd trace]. rewrite <- app_assoc.
      split; [reflexivity|].
      exact (run_cycle _ _ _ _ r _ _ Hr Hp (run_stop _ _ _)).
    + edestruct IH as (tr & Ht & Hrun).
      exists (EGet url :: ESleep cur :: tr). split.
      * rewrite Ht. cbn [trace]. rewrite <- !app_assoc. reflexivity.
      * exact (run_cycle _ _ _ _ r _ _ Hr Hp Hrun).
Qed.

(** Every status query of a run was issued right after a reading of the
    clock that passed the loop condition. *)
Lemma loop_queries_checked fuel :
  ∀ cur s, clock_reads s = S (requests_made s) →
    ∀ i, (requests_made s ≤ i < requests_made (fst (loop fuel cur w s)))%nat →
      fltb (fsub (time_time w (S i)) start_time) timeout_sec = true.
Proof.
  induction fuel as [|fuel IH]; intros cur s Hc i.
  { cbn. lia. }
  destruct (loop_cases fuel cur s)
    as [(o & _ & Heq) | [(o & _ & _ & Hd & Heq) | (r & Hd & _ & _ & Heq)]];
    rewrite Heq; clear Heq.
  - cbn. lia.
  - cbn. intros Hi. replace i with (requests_made s) by lia.
    rewrite <- Hc. exact Hd.
  - rewrite Hc in Hd.
    destruct (time_sleep w cur) as [e|].
    + cbn. intros Hi. replace i with (requests_made s) by lia. exact Hd.
    + intros Hi. destruct (decide (i = requests_made s)) as [->|Hne]; [exact Hd|].
      eapply IH; [|split; [|exact (proj2 Hi)]]; cbn; lia.
Qed.

Lemma interval_at_shift c i :
  interval_at c factor max_interval_sec (S i) =
  interval_at (py_min (fmul c factor) max_interval_sec) factor max_interval_sec i.
Proof.
  induction i as [|i IH]; [reflexivity|].
  cbn [interval_at] in *. rewrite IH. reflexivity.
Qed.

(** The suspensions of every run follow the schedule [interval_at]. *)
Lemma loop_sleeps fuel :
  ∀ cur s, ∃ tr n,
    trace (fst (loop fuel cur w s)) = trace s ++ tr
    ∧ sleeps_of tr = map (interval_at cur factor max_interval_sec) (seq 0 n).
Proof.
  induction fuel as [|fuel IH]; intros cur s.
  { exists [], 0%nat. cbn. rewrite app_nil_r. split; reflexivity. }
  destruct (loop_cases fuel cur s)
    as [(o & _ & Heq) | [(o & _ & _ & _ & Heq) | (r & _ & _ & _ & Heq)]];
    rewrite Heq; clear Heq.
  - exists [], 0%nat. cbn. rewrite app_nil_r. split; reflexivity.
  - exists [EGet url], 0%nat. cbn. split; reflexivity.
  - destruct (time_sleep w cur) as [e|].
    + exists [EGet url; ESleep cur], 1%nat. cbn. rewrite <- app_assoc.
      split; reflexivity.
    + edestruct IH as (tr & n & Ht & Hs). rewrite Ht.
      exists (EGet url :: ESleep cur :: tr), (S n). cbn [trace].
      rewrite <- !app_assoc. split; [reflexivity|].
      change (sleeps_of (EGet url :: ESleep cur :: tr)) with (cur :: sleeps_of tr).
      rewrite Hs. cbn [seq map interval_at]. f_equal.
      rewrite <- seq_shift, map_map.
      apply map_ext. intros j. symmetry. apply interval_at_shift.
Qed.

(** A query that is not the last one of a run was answered by a pending
    status, within the deadline, and the suspension after it returned. *)
Lemma loop_went_round fuel :
  ∀ n cur s, clock_reads s = S n → requests_made s = n →
    ∀ i, (n ≤ i)%nat →
      (S i < requests_made (fst (loop fuel cur w s)))%nat →
      fltb (fsub (time_time w (S i)) start_time) timeout_sec = true
      ∧ (∃ r, obs i = Return r ∧ pending r = true)
      ∧ time_sleep w (interval_at cur factor max_interval_sec (i - n)) = None.
Proof.
  induction fuel as [|fuel IH]; intros n cur s Hc Hn i Hi.
  { cbn. lia. }
  destruct (loop_cases fuel cur s)
    as [(o & _ & Heq) | [(o & _ & _ & _ & Heq) | (r & Hd & Hr & Hp & Heq)]];
    rewrite Heq; clear Heq; cbn [fst requests_made]; try lia.
  destruct (time_sleep w cur) as [e|] eqn:Hs; cbn [fst requests_made]; [lia|].
  rewrite Hc in Hd. rewrite Hn in Hr.
  destruct (decide (i = n)) as [->|Hne].
  - intros _. rewrite Nat.sub_diag. cbn [interval_at]. eauto.
  - intros Hlt.
    replace (i - n)%nat with (S (i - S n)) by lia.
    rewrite interval_at_shift.
    eapply (IH (S n)); [| |lia|exact Hlt]; cbn; lia.
Qed.

End Iteration.

(** ** The whole call *)

Lemma cycles_S url c f mx k :
  cycles url c f mx (S k) =
  cycles url c f mx k ++ [EGet url; ESleep (interval_at c f mx k)].
Proof.
  unfold cycles. rewrite seq_S, flat_map_app. reflexivity.
Qed.

Lemma sleeps_of_cycles url c f mx k :
  sleeps_of (cycles url c f mx k) = map (interval_at c f mx) (seq 0 k).
Proof.
  induction k as [|k IH]; [reflexivity|].
  rewrite cycles_S, seq_S, map_app. unfold sleeps_of in *.
  rewrite omap_app, IH. reflexivity.
Qed.

Lemma queries_of_cycles url c f mx k :
  queries_of (cycles url c f mx k) = replicate k url.
Proof.
  induction k as [|k IH]; [reflexivity|].
  rewrite cycles_S. unfold queries_of in *.
  rewrite omap_app, IH, replicate_S_end. reflexivity.
Qed.

Lemma wait_for_completion_settings fuel self task_id format_type
    max_wait_ms check_interval_ms max_check_interval_ms backoff_factor w :
  wait_for_completion fuel self task_id format_type max_wait_ms
    check_interval_ms max_check_interval_ms backoff_factor w initial =
  match settings max_wait_ms check_interval_ms max_check_interval_ms
          backoff_factor with
  | Some (timeout_sec, factor, current_interval_sec, max_interval_sec) =>
      poll_loop fuel self task_id format_type (time_time w 0%nat)
        timeout_sec factor max_interval_sec current_interval_sec w
        (at_iteration (result_url self task_id format_type)
           current_interval_sec factor max_interval_sec 0)
  | None =>
      ({| clock_reads := 1; requests_made := 0; trace := [] |},
       Raise (mk_exn OverflowError "int too large to convert to float" None))
  end.
Proof.
  unfold wait_for_completion, settings, ms_to_sec, backoff_value.
  unfold bind at 1, now; cbn.
  destruct (of_int max_wait_ms) as [x|]; cbn; [|reflexivity].
  unfold bind at 1; cbn.
  destruct backoff_factor as [f|n|st]; cbn.
  - unfold bind at 1; cbn.
    destruct (of_int check_interval_ms); cbn; [|reflexivity].
    unfold bind at 1; cbn.
    destruct (of_int max_check_interval_ms); cbn; reflexivity.
  - destruct (of_int n); cbn; [|reflexivity].
    unfold bind at 1; cbn.
    destruct (of_int check_interval_ms); cbn; [|reflexivity].
    unfold bind at 1; cbn.
    destruct (of_int max_check_interval_ms); cbn; reflexivity.
  - unfold bind at 1; cbn.
    destruct (of_int check_interval_ms); cbn; [|reflexivity].
    unfold bind at 1; cbn.
    destruct (of_int max_check_interval_ms); cbn; reflexivity.
Qed.

Lemma pending_prefix_run w self task_id format_type T f c mx k :
  pending_prefix w self task_id format_type T f c mx k →
  ∀ fuel,
    poll_loop (k + fuel) self task_id format_type (time_time w 0%nat) T f mx c w
      (at_iteration (result_url self task_id format_type) c f mx 0) =
    poll_loop fuel self task_id format_type (time_time w 0%nat) T f mx
      (interval_at c f mx k) w
      (at_iteration (result_url self task_id format_type) c f mx k).
Proof.
  induction k as [|k IH]; intros Hp fuel; [reflexivity|].
  replace (S k + fuel)%nat with (k + S fuel)%nat by lia.
  rewrite IH by (intros i Hi; apply Hp; lia).
  destruct (Hp k ltac:(lia)) as (Hd & (r & Hr & Hpend) & Hs).
  rewrite (loop_pending _ _ _ _ _ _ _ _ _ _ _ r); [|exact Hd|exact Hr|exact Hpend].
  rewrite Hs. cbn [interval_at]. f_equal.
  unfold at_iteration; cbn [clock_reads requests_made trace].
  rewrite cycles_S, <- app_assoc. reflexivity.
Qed.

(** The call, once its first [k] iterations have all gone round the loop,
    stands at the [k]-th evaluation of the loop condition. *)
Lemma wait_for_completion_reaches fuel self task_id format_type
    max_wait_ms check_interval_ms max_check_interval_ms backoff_factor w
    T f c mx k :
  settings max_wait_ms check_interval_ms max_check_interval_ms backoff_factor
    = Some (T, f, c, mx) →
  pending_prefix w self task_id format_type T f c mx k →
  wait_for_completion (k + fuel) self task_id format_type max_wait_ms
    check_interval_ms max_check_interval_ms backoff_factor w initial =
  poll_loop fuel self task_id format_type (time_time w 0%nat) T f mx
    (interval_at c f mx k) w
    (at_iteration (result_url self task_id format_type) c f mx k).
Proof.
  intros Hset Hp. rewrite wait_for_completion_settings, Hset.
  apply pending_prefix_run, Hp.
Qed.

Lemma pending_prefix_check w self task_id format_type T f c mx k :
  forallb (goes_round w self task_id format_type T f c mx) (seq 0 k) = true →
  pending_prefix w self task_id format_type T f c mx k.
Proof.
  intros Hall i Hi.
  rewrite forallb_forall in Hall.
  specialize (Hall i ltac:(apply in_seq; lia)).
  unfold goes_round in Hall.
  apply andb_prop in Hall as [[Hd Hr]%andb_prop Hs].
  split; [exact Hd|split].
  - destruct (poll_result w self task_id format_type i) as [r| |];
      try discriminate. eauto.
  - destruct (time_sleep w _); [discriminate|reflexivity].
Qed.

(** A call whose [k]-th iteration is within the deadline and observes a
    status that is not pending ends right after that query. *)
Lemma wait_for_completion_settled fuel self task_id format_type
    max_wait_ms check_interval_ms max_check_interval_ms backoff_factor w
    T f c mx k r :
  settings max_wait_ms check_interval_ms max_check_interval_ms backoff_factor
    = Some (T, f, c, mx) →
  pending_prefix w self task_id format_type T f c mx k →
  within_deadline w T k = true →
  poll_result w self task_id format_type k = Return r →
  pending r = false →
  (k < fuel)%nat →
  ∃ o, o ≠ OutOfFuel
       ∧ wait_for_completion fuel self task_id format_type max_wait_ms
           check_interval_ms max_check_interval_ms backoff_factor w initial
         = (after_query (result_url self task_id format_type) c f mx k, o).
Proof.
  intros Hset Hp Hd Hr Hnp Hk.
  replace fuel with (k + S (fuel - S k))%nat by lia.
  rewrite (wait_for_completion_reaches _ _ _ _ _ _ _ _ _ _ _ _ _ _ Hset Hp).
  eapply loop_settled; eassumption.
Qed.

(** In a trace of shape [poll_run], a query answered by a terminal status
    is the last event. *)
Lemma poll_run_terminal obs i (tr : list (event num)) o :
  poll_run obs i tr o →
  ∀ j r, (j < length (queries_of tr))%nat →
    obs (i + j)%nat = Return r → terminal r = true →
    length (queries_of tr) = S j
    ∧ length (sleeps_of tr) = j
    ∧ o ≠ OutOfFuel.
Proof.
  induction 1 as [i o|i u o Hnp Ho|i u d r' tr o Hr' Hp' Hrun IH];
    intros j r Hj Hr Ht.
  - cbn in Hj. lia.
  - cbn in *. assert (j = 0)%nat as -> by lia. auto.
  - change (queries_of (EGet u :: ESleep d :: tr)) with (u :: queries_of tr) in *.
    change (sleeps_of (EGet u :: ESleep d :: tr)) with (d :: sleeps_of tr).
    cbn [length] in *.
    destruct j as [|j].
    + rewrite Nat.add_0_r in Hr. rewrite Hr in Hr'. injection Hr' as ->.
      apply terminal_not_pending in Ht. congruence.
    + destruct (IH j r) as (H1 & H2 & H3); [lia| |assumption|].
      * rewrite <- Hr. f_equal. lia.
      * repeat split; [lia|lia|assumption].
Qed.

Lemma poll_run_no_sleep_first obs i (tr : list (event num)) o d rest :
  poll_run obs i tr o → tr ≠ ESleep d :: rest.
Proof. intros Hrun ->. inversion Hrun. Qed.

(** An iteration within the deadline, with an accepted format, issues a
    query. *)
Lemma loop_queries w self task_id format_type start_time T f mx fuel cur s fs :
  fltb (fsub (time_time w (clock_reads s)) start_time) T = true →
  _ensure_format_type format_type = inr fs →
  ∃ rest,
    trace (fst (poll_loop (S fuel) self task_id format_type start_time T f mx
                  cur w s))
    = trace s ++ EGet (result_url self task_id format_type) :: rest.
Proof.
  intros Hd Hf.
  destruct (poll_result w self task_id format_type (requests_made s))
    as [r|e|] eqn:Hr.
  - destruct (pending r) eqn:Hp.
    + rewrite (loop_pending _ _ _ _ _ _ _ _ _ _ _ r Hd Hr Hp).
      destruct (time_sleep w cur) as [e|].
      * eexists. cbn [fst trace]. rewrite <- app_assoc. reflexivity.
      * edestruct loop_shape as (tr & -> & _). cbn [trace].
        eexists. rewrite <- !app_assoc. reflexivity.
    + destruct (loop_settled w self task_id format_type start_time T f mx
                  fuel cur s r Hd Hr Hp) as (o & _ & ->).
      exists []. reflexivity.
  - rewrite (loop_raise _ _ _ _ _ _ _ _ _ _ _ fs e Hd Hf Hr).
    exists []. reflexivity.
  - exfalso. eapply poll_result_never_out_of_fuel, Hr.
Qed.

Lemma settings_inv max_wait_ms check_interval_ms max_check_interval_ms
    (backoff_factor : backoff_arg num) T f c mx :
  settings max_wait_ms check_interval_ms max_check_interval_ms backoff_factor
    = Some (T, f, c, mx) →
  div1000 <$> of_int max_wait_ms = Some T
  ∧ div1000 <$> of_int check_interval_ms = Some c
  ∧ div1000 <$> of_int max_check_interval_ms = Some mx.
Proof.
  unfold settings.
  destruct (of_int max_wait_ms); cbn; [|discriminate].
  destruct backoff_factor as [f'|z|st]; cbn;
    try (destruct (of_int z); cbn; [|discriminate]);
    (destruct (of_int check_interval_ms); cbn; [|discriminate]);
    (destruct (of_int max_check_interval_ms); cbn; [|discriminate]);
    intros [= <- <- <- <-]; auto.
Qed.

(** The suspensions of every call follow the schedule. *)
Lemma wait_for_completion_sleeps fuel self task_id format_type
    max_wait_ms check_interval_ms max_check_interval_ms backoff_factor w
    T f c mx :
  settings max_wait_ms check_interval_ms max_check_interval_ms backoff_factor
    = Some (T, f, c, mx) →
  ∃ n,
    sleeps_of
      (trace (fst (wait_for_completion fuel self task_id format_type
                     max_wait_ms check_interval_ms max_check_interval_ms
                     backoff_factor w initial)))
    = map (interval_at c f mx) (seq 0 n).
Proof.
  intros Hset. rewrite wait_for_completion_settings, Hset.
  destruct (loop_sleeps w self task_id format_type (time_time w 0%nat) T f mx
              fuel c (at_iteration (result_url self task_id format_type)
                        c f mx 0)) as (tr & n & -> & Hs).
  exists n. exact Hs.
Qed.

Lemma sleeps_of_after_query url c f mx k :
  sleeps_of (trace (after_query url c f mx k))
  = map (interval_at c f mx) (seq 0 k).
Proof.
  unfold after_query, sleeps_of; cbn [trace]. rewrite omap_app.
  fold (sleeps_of (cycles url c f mx k)). rewrite sleeps_of_cycles.
  apply app_nil_r.
Qed.

(** A call whose [k]-th poll is answered by a completed status with its
    payload returns the locator. *)
Lemma wait_for_completion_returns fuel self task_id format_type
    max_wait_ms check_interval_ms max_check_interval_ms backoff_factor w
    T f c mx k m d v :
  settings max_wait_ms check_interval_ms max_check_interval_ms backoff_factor
    = Some (T, f, c, mx) →
  pending_prefix w self task_id format_type T f c mx k →
  within_deadline w T k = true →
  poll_result w self task_id format_type k = Return (JObj m) →
  m !! "state" = Some (JStr "completed") →
  m !! "data" = Some (JObj d) →
  d !! "downloadURL" = Some v →
  (k < fuel)%nat →
  wait_for_completion fuel self task_id format_type max_wait_ms
    check_interval_ms max_check_interval_ms backoff_factor w initial
  = (after_query (result_url self task_id format_type) c f mx k, Return v).
Proof.
  intros Hset Hp Hd Hr Hst Hdata Hv Hk.
  replace fuel with (k + S (fuel - S k))%nat by lia.
  rewrite (wait_for_completion_reaches _ _ _ _ _ _ _ _ _ _ _ _ _ _ Hset Hp).
  exact (loop_completed w self task_id format_type (time_time w 0%nat) T f mx
           _ _ (at_iteration _ c f mx k) m d v Hd Hr Hst Hdata Hv).
Qed.

(** The schedule read position by position. *)
Lemma schedule_lookup c f mx n :
  (∀ d, map (interval_at c f mx) (seq 0 n) !! 0%nat = Some d → d = c)
  ∧ (∀ i prev next,
       map (interval_at c f mx) (seq 0 n) !! i = Some prev →
       map (interval_at c f mx) (seq 0 n) !! S i = Some next →
       next = py_min (fmul prev f) mx).
Proof.
  split.
  - intros d. rewrite list_lookup_fmap.
    destruct (seq 0 n !! 0%nat) as [j|] eqn:Hj; [|discriminate].
    apply lookup_seq in Hj as [-> _]. cbn. congruence.
  - intros i prev next. rewrite !list_lookup_fmap.
    destruct (seq 0 n !! i) as [j|] eqn:Hj; [|discriminate].
    destruct (seq 0 n !! S i) as [j'|] eqn:Hj'; [|discriminate].
    apply lookup_seq in Hj as [-> _]. apply lookup_seq in Hj' as [-> _].
    cbn. intros [= <-] [= <-]. reflexivity.
Qed.

(** The [k]-th query of a run is issued only when the first [k] iterations
    have all gone round the loop and the deadline is still ahead. *)
Lemma issued_query_prefix fuel self task_id format_type
    max_wait_ms check_interval_ms max_check_interval_ms backoff_factor w
    T f c mx k :
  settings max_wait_ms check_interval_ms max_check_interval_ms backoff_factor
    = Some (T, f, c, mx) →
  (k < requests_made
         (fst (wait_for_completion fuel self task_id format_type max_wait_ms
                 check_interval_ms max_check_interval_ms backoff_factor w
                 initial)))%nat →
  pending_prefix w self task_id format_type T f c mx k
  ∧ within_deadline w T k = true.
Proof.
  intros Hset. rewrite wait_for_completion_settings, Hset. intros Hk. split.
  - intros i Hi.
    destruct (loop_went_round w self task_id format_type (time_time w 0%nat)
                T f mx fuel 0 c
                (at_iteration (result_url self task_id format_type) c f mx 0)
                eq_refl eq_refl i ltac:(lia) ltac:(lia)) as (Hd & Hr & Hs).
    rewrite Nat.sub_0_r in Hs. auto.
  - apply (loop_queries_checked w self task_id format_type (time_time w 0%nat)
             T f mx fuel c
             (at_iteration (result_url self task_id format_type) c f mx 0));
      [reflexivity|]. split; [cbn; lia|exact Hk].
Qed.

End PollerFacts.

(** * The claims about the completion poller *)

Section PollerClaims.
Context {num : Type} `{!PyFloat num} `{!Enums num}.

Variables (w : World num) (self : PDFCraftClient) (task_id : string).
Variables (format_type : format_arg).
Variables (max_wait_ms check_interval_ms max_check_interval_ms : Z).
Variable (backoff_factor : backoff_arg num).

Local Abbreviation url := (result_url self task_id format_type).
Local Abbreviation obs := (poll_result w self task_id format_type).
Local Abbreviation run fuel :=
  (wait_for_completion fuel self task_id format_type max_wait_ms
     check_interval_ms max_check_interval_ms backoff_factor w initial).

(** C3.  The trace of every call of [wait_for_completion] has the shape
    [poll_run]: it is empty or begins with a status query, never with a
    suspension; a query answered by a pending status is followed by exactly
    one suspension; and a query answered by anything else is the last event
    of the trace.  In particular, once a query is answered by a completed
    or failed status, that query is the last one, there have been as many
    suspensions as earlier queries, and the call has returned or raised. *)
Theorem C3_query_first_one_sleep_per_pending fuel :
  poll_run obs 0 (trace (fst (run fuel))) (snd (run fuel))
  ∧ (∀ d rest, trace (fst (run fuel)) ≠ ESleep d :: rest)
  ∧ (∀ k r, (k < length (queries_of (trace (fst (run fuel)))))%nat →
       obs k = Return r → terminal r = true →
       length (queries_of (trace (fst (run fuel)))) = S k
       ∧ length (sleeps_of (trace (fst (run fuel)))) = k
       ∧ snd (run fuel) ≠ OutOfFuel).
Proof.
  assert (poll_run obs 0 (trace (fst (run fuel))) (snd (run fuel))) as Hrun.
  { rewrite wait_for_completion_settings.
    destruct (settings _ _ _ _) as [[[[T f] c] mx]|]; [|constructor].
    destruct (loop_shape w self task_id format_type (time_time w 0%nat) T f mx
                fuel c (at_iteration url c f mx 0)) as (tr & Ht & Hr).
    cbn in Ht. rewrite Ht. exact Hr. }
  split; [exact Hrun|]. split.
  - intros d rest. eapply poll_run_no_sleep_first, Hrun.
  - intros k r Hk Hr Ht.
    eapply (poll_run_terminal _ _ _ _ Hrun k r); assumption.
Qed.

(** C2.  With the arguments resolved to seconds: (a) in every call, every
    status query was issued right after a reading of the clock at which the
    time elapsed since the first reading was below [max_wait_ms]: the
    deadline is the same for all iterations and never moves; (b) when,
    after [k] pending polls, the loop condition finds the elapsed time not
    below [max_wait_ms], the call raises [TimeoutError] with no query
    beyond those [k]; (c) the exception a failed job ends the call with is
    of another class. *)
Theorem C2_deadline_from_first_reading T f c mx :
  settings max_wait_ms check_interval_ms max_check_interval_ms backoff_factor
    = Some (T, f, c, mx) →
  (∀ fuel i, (i < requests_made (fst (run fuel)))%nat →
     within_deadline w T i = true)
  ∧ (∀ fuel k,
       pending_prefix w self task_id format_type T f c mx k →
       within_deadline w T k = false →
       (k < fuel)%nat →
       run fuel =
       ({| clock_reads := S (S k);
           requests_made := k;
           trace := cycles url c f mx k |},
        Raise (mk_exn TimeoutError "Conversion timeout" None)))
  ∧ (∀ fuel k m,
       pending_prefix w self task_id format_type T f c mx k →
       within_deadline w T k = true →
       obs k = Return (JObj m) →
       m !! "state" = Some (JStr "failed") →
       (k < fuel)%nat →
       ∃ e, snd (run fuel) = Raise e ∧ exn_class_of e ≠ TimeoutError).
Proof.
  intros Hset. split; [|split].
  - intros fuel i. rewrite wait_for_completion_settings, Hset.
    intros Hi.
    apply (loop_queries_checked w self task_id format_type (time_time w 0%nat)
             T f mx fuel c (at_iteration url c f mx 0)); [reflexivity|].
    split; [cbn; lia|exact Hi].
  - intros fuel k Hp Hd Hk.
    replace fuel with (k + S (fuel - S k))%nat by lia.
    rewrite (wait_for_completion_reaches _ _ _ _ _ _ _ _ _ _ _ _ _ _ Hset Hp).
    apply loop_timeout. exact Hd.
  - intros fuel k m Hp Hd Hr Hst Hk.
    replace fuel with (k + S (fuel - S k))%nat by lia.
    rewrite (wait_for_completion_reaches _ _ _ _ _ _ _ _ _ _ _ _ _ _ Hset Hp).
    rewrite (loop_failed w self task_id format_type (time_time w 0%nat) T f mx
               _ _ (at_iteration url c f mx k) m Hd Hr Hst).
    eexists. split; [reflexivity|]. discriminate.
Qed.

(** C4, as the code has it.  When the [k]-th poll, within the deadline, is
    answered by a dictionary whose state is ["completed"]: if its ["data"]
    is a dictionary with a ["downloadURL"], the call returns that value;
    if the payload is lacking, the call raises an [APIError] whose message
    quotes the response.  Either way that query is the last event: nothing
    is retried.  [APIError] is also the class of the exception raised when
    the status query itself fails (a body that is not JSON, or a 4xx/5xx
    status): the code has no separate class for the broken contract. *)
Theorem C4_completed_returns_or_raises_api_error T f c mx k m fuel :
  settings max_wait_ms check_interval_ms max_check_interval_ms backoff_factor
    = Some (T, f, c, mx) →
  pending_prefix w self task_id format_type T f c mx k →
  within_deadline w T k = true →
  obs k = Return (JObj m) →
  m !! "state" = Some (JStr "completed") →
  (k < fuel)%nat →
  (∀ d v, m !! "data" = Some (JObj d) → d !! "downloadURL" = Some v →
     run fuel = (after_query url c f mx k, Return v))
  ∧ (lacks_payload m →
     run fuel =
     (after_query url c f mx k,
      Raise (mk_exn APIError
               "Task completed but downloadURL missing in response: "
               (Some (JObj m)))))
  ∧ (∀ i resp, requests_get w i url = inr resp →
       json_body resp = None ∨ ok resp = false →
       ∃ e, obs i = Raise e ∧ exn_class_of e = APIError).
Proof.
  intros Hset Hp Hd Hr Hst Hk. split; [|split].
  - intros d v Hdata Hv.
    replace fuel with (k + S (fuel - S k))%nat by lia.
    rewrite (wait_for_completion_reaches _ _ _ _ _ _ _ _ _ _ _ _ _ _ Hset Hp).
    exact (loop_completed w self task_id format_type (time_time w 0%nat) T f mx
             _ _ (at_iteration url c f mx k) m d v Hd Hr Hst Hdata Hv).
  - intros Hlack.
    replace fuel with (k + S (fuel - S k))%nat by lia.
    rewrite (wait_for_completion_reaches _ _ _ _ _ _ _ _ _ _ _ _ _ _ Hset Hp).
    exact (loop_completed_missing w self task_id format_type (time_time w 0%nat)
             T f mx _ _ (at_iteration url c f mx k) m Hd Hr Hst Hlack).
  - intros i resp Hget Hbad.
    destruct (poll_result_format _ _ _ _ _ _ Hr) as [fs Hf].
    unfold poll_result, get_conversion_result.
    unfold result_url in Hget. rewrite Hf in *.
    unfold bind, lift, ret, raise, http_get; cbn. rewrite Hget.
    destruct (json_body resp) eqn:Hb.
    + destruct Hbad as [?|Hok]; [discriminate|]. rewrite Hok. cbn. eauto.
    + eauto.
Qed.

(** C5.  When the [k]-th poll, within the deadline, is answered by a
    dictionary whose state is ["failed"], the call raises at once: that
    query is its last event.  The exception is an [APIError] carrying the
    reason the service gave (its ["error"], or ['Unknown error'] when there
    is none), and its class is not that of a time-out. *)
Theorem C5_failed_raises_with_reason T f c mx k m fuel :
  settings max_wait_ms check_interval_ms max_check_interval_ms backoff_factor
    = Some (T, f, c, mx) →
  pending_prefix w self task_id format_type T f c mx k →
  within_deadline w T k = true →
  obs k = Return (JObj m) →
  m !! "state" = Some (JStr "failed") →
  (k < fuel)%nat →
  ∃ e,
    run fuel = (after_query url c f mx k, Raise e)
    ∧ exn_msg e = "Conversion failed: "
    ∧ exn_arg e = Some (default (JStr "Unknown error") (m !! "error"))
    ∧ exn_class_of e = APIError
    ∧ exn_class_of e ≠ TimeoutError.
Proof.
  intros Hset Hp Hd Hr Hst Hk.
  replace fuel with (k + S (fuel - S k))%nat by lia.
  rewrite (wait_for_completion_reaches _ _ _ _ _ _ _ _ _ _ _ _ _ _ Hset Hp).
  rewrite (loop_failed w self task_id format_type (time_time w 0%nat) T f mx
             _ _ (at_iteration url c f mx k) m Hd Hr Hst).
  eexists. split; [reflexivity|]. cbn. repeat split. discriminate.
Qed.

(** C9.  When the [k]-th poll, within the deadline, is answered by a
    dictionary whose ["state"] is neither ["completed"] nor ["failed"]
    (absent, or any other value), and the suspension returns, the call goes
    round the loop: it has suspended for the current interval and stands at
    the loop condition again, with the interval grown; and if the deadline
    is still ahead there, it polls again. *)
Theorem C9_unrecognised_state_is_pending T f c mx k m :
  settings max_wait_ms check_interval_ms max_check_interval_ms backoff_factor
    = Some (T, f, c, mx) →
  pending_prefix w self task_id format_type T f c mx k →
  within_deadline w T k = true →
  obs k = Return (JObj m) →
  m !! "state" ≠ Some (JStr "completed") →
  m !! "state" ≠ Some (JStr "failed") →
  time_sleep w (interval_at c f mx k) = None →
  (∀ fuel,
     run (S k + fuel) =
     poll_loop fuel self task_id format_type (time_time w 0%nat) T f mx
       (py_min (fmul (interval_at c f mx k) f) mx) w
       {| clock_reads := S (S k);
          requests_made := S k;
          trace := cycles url c f mx k ++ [EGet url; ESleep (interval_at c f mx k)] |})
  ∧ (within_deadline w T (S k) = true →
     ∀ fuel, (S k < fuel)%nat →
       ∃ rest,
         trace (fst (run fuel)) =
         cycles url c f mx k
           ++ [EGet url; ESleep (interval_at c f mx k); EGet url] ++ rest).
Proof.
  intros Hset Hp Hd Hr Hc Hx Hs.
  assert (pending_prefix w self task_id format_type T f c mx (S k)) as Hp'.
  { intros i Hi. destruct (decide (i = k)) as [->|Hne]; [|apply Hp; lia].
    split; [exact Hd|]. split; [|exact Hs].
    exists (JObj m). split; [exact Hr|]. apply pending_spec. auto. }
  assert (∀ fuel,
     run (S k + fuel) =
     poll_loop fuel self task_id format_type (time_time w 0%nat) T f mx
       (py_min (fmul (interval_at c f mx k) f) mx) w
       {| clock_reads := S (S k);
          requests_made := S k;
          trace := cycles url c f mx k ++ [EGet url; ESleep (interval_at c f mx k)] |})
    as Hround.
  { intros fuel.
    rewrite (wait_for_completion_reaches _ _ _ _ _ _ _ _ _ _ _ _ _ _ Hset Hp').
    unfold at_iteration. rewrite cycles_S. reflexivity. }
  split; [exact Hround|].
  intros Hd' fuel Hk.
  replace fuel with (S k + S (fuel - S (S k)))%nat by lia.
  rewrite Hround.
  destruct (poll_result_format _ _ _ _ _ _ Hr) as [fs Hf].
  edestruct (loop_queries w self task_id format_type (time_time w 0%nat)
               T f mx) as [rest ->]; [exact Hd'|exact Hf|].
  exists rest. cbn [trace]. rewrite <- app_assoc. reflexivity.
Qed.

End PollerClaims.

(** * Claims that depend on the arithmetic *)

(** C1.  (a) In every call, whatever the collaborators do, the first
    suspension (if any) lasts [check_interval_ms / 1000.0] seconds and
    every later one lasts [min(previous * factor, max_interval_sec)].
    (b) A call that observes [k] pending statuses and then a terminal one
    suspends exactly [k] times.  (c) On binary64 floats, with an initial
    interval of 1 s, a factor of 2 and a maximum of 5 s, four processing
    statuses and then a completed one give the suspensions [1, 2, 4, 5];
    (d) with an initial interval of 3 s, a factor of 1 and a maximum not
    below 3 s, two processing statuses and then a completed one give
    [3, 3]. *)
Theorem C1_suspension_schedule :
  (∀ (num : Type) (F : PyFloat num) (E : Enums num) (w : World num)
     self task_id format_type max_wait_ms check_interval_ms
     max_check_interval_ms backoff_factor T f c mx fuel,
     settings max_wait_ms check_interval_ms max_check_interval_ms
       backoff_factor = Some (T, f, c, mx) →
     let ds :=
       sleeps_of
         (trace (fst (wait_for_completion fuel self task_id format_type
                        max_wait_ms check_interval_ms max_check_interval_ms
                        backoff_factor w initial))) in
     (∀ d, ds !! 0%nat = Some d →
           Some d = div1000 <$> of_int check_interval_ms)
     ∧ (∀ i prev next, ds !! i = Some prev → ds !! S i = Some next →
          next = py_min (fmul prev f) mx))
  ∧ (∀ (num : Type) (F : PyFloat num) (E : Enums num) (w : World num)
       self task_id format_type max_wait_ms check_interval_ms
       max_check_interval_ms backoff_factor T f c mx k r fuel,
       settings max_wait_ms check_interval_ms max_check_interval_ms
         backoff_factor = Some (T, f, c, mx) →
       pending_prefix w self task_id format_type T f c mx k →
       within_deadline w T k = true →
       poll_result w self task_id format_type k = Return r →
       terminal r = true →
       (k < fuel)%nat →
       length
         (sleeps_of
            (trace (fst (wait_for_completion fuel self task_id format_type
                           max_wait_ms check_interval_ms max_check_interval_ms
                           backoff_factor w initial)))) = k)
  ∧ (∀ (E : Enums float) (w : World float) self task_id format_type
       max_wait_ms T location fuel,
       float_of_int max_wait_ms = Some T →
       (∀ i, (i < 4)%nat →
          @poll_result float w self task_id format_type i = Return processing) →
       @poll_result float w self task_id format_type 4 = Return (completed location) →
       (∀ i, (i ≤ 4)%nat →
          @within_deadline float Float64 w (T / 1000)%float i = true) →
       (∀ d, d ∈ [1; 2; 4; 5]%float → time_sleep w d = None) →
       (4 < fuel)%nat →
       ∃ s,
         @wait_for_completion float Float64 E fuel self task_id format_type
           max_wait_ms 1000 5000 (BackoffFloat 2%float) w initial
         = (s, Return (JStr location))
         ∧ sleeps_of (trace s) = [1; 2; 4; 5]%float)
  ∧ (∀ (E : Enums float) (w : World float) self task_id format_type
       max_wait_ms T max_check_interval_ms mx location fuel,
       float_of_int max_wait_ms = Some T →
       float_of_int max_check_interval_ms = Some mx →
       PrimFloat.ltb (mx / 1000) 3 = false →
       (∀ i, (i < 2)%nat →
          @poll_result float w self task_id format_type i = Return processing) →
       @poll_result float w self task_id format_type 2 = Return (completed location) →
       (∀ i, (i ≤ 2)%nat →
          @within_deadline float Float64 w (T / 1000)%float i = true) →
       time_sleep w 3%float = None →
       (2 < fuel)%nat →
       ∃ s,
         @wait_for_completion float Float64 E fuel self task_id format_type
           max_wait_ms 3000 max_check_interval_ms (BackoffFloat 1%float) w initial
         = (s, Return (JStr location))
         ∧ sleeps_of (trace s) = [3; 3]%float).
Proof.
  split; [|split; [|split]].
  - intros num F E w self task_id format_type mw ci mci bf T f c mx fuel Hset ds.
    destruct (wait_for_completion_sleeps fuel self task_id format_type
                mw ci mci bf w T f c mx Hset) as [n Hn].
    destruct (settings_inv _ _ _ _ _ _ _ _ Hset) as (_ & Hc & _).
    subst ds. rewrite Hn, Hc.
    destruct (schedule_lookup c f mx n) as [H0 HS].
    split; [intros d Hd; f_equal; exact (H0 d Hd)|exact HS].
  - intros num F E w self task_id format_type mw ci mci bf T f c mx k r fuel
      Hset Hp Hd Hr Ht Hk.
    destruct (wait_for_completion_settled fuel self task_id format_type
                mw ci mci bf w T f c mx k r Hset Hp Hd Hr
                (terminal_not_pending r Ht) Hk) as (o & _ & ->).
    cbn [fst]. rewrite sleeps_of_after_query, length_map, length_seq.
    reflexivity.
  - intros E w self task_id format_type mw T location fuel HT Hproc Hdone
      Hdead Hsleep Hk.
    eexists. split.
    + eapply (wait_for_completion_returns (PyFloat0 := Float64) fuel self
                task_id format_type mw 1000 5000 (BackoffFloat 2%float) w
                (T / 1000)%float 2%float 1%float 5%float 4).
      * unfold settings. change (@of_int float Float64) with float_of_int.
        rewrite HT. reflexivity.
      * intros i Hi. split; [apply Hdead; lia|]. split.
        { exists processing. split; [apply Hproc, Hi|reflexivity]. }
        apply Hsleep.
        destruct i as [|[|[|[|?]]]]; [| | | |lia];
          set (x := interval_at _ _ _ _); vm_compute in x; subst x;
          set_solver.
      * apply Hdead. lia.
      * exact Hdone.
      * reflexivity.
      * reflexivity.
      * reflexivity.
      * exact Hk.
    + rewrite sleeps_of_after_query. vm_compute. reflexivity.
  - intros E w self task_id format_type mw T mci mx location fuel HT Hmx Hle
      Hproc Hdone Hdead Hsleep Hk.
    assert (∀ i, @interval_at float Float64 3%float 1%float (mx / 1000)%float i
                 = 3%float) as Hconst.
    { induction i as [|i IH]; [reflexivity|].
      cbn [interval_at]. rewrite IH. unfold py_min. cbn.
      change (PrimFloat.mul 3 1) with 3%float. rewrite Hle. reflexivity. }
    eexists. split.
    + eapply (wait_for_completion_returns (PyFloat0 := Float64) fuel self
                task_id format_type mw 3000 mci (BackoffFloat 1%float) w
                (T / 1000)%float 1%float 3%float (mx / 1000)%float 2).
      * unfold settings. change (@of_int float Float64) with float_of_int.
        rewrite HT, Hmx. reflexivity.
      * intros i Hi. split; [apply Hdead; lia|]. split.
        { exists processing. split; [apply Hproc, Hi|reflexivity]. }
        rewrite Hconst. exact Hsleep.
      * apply Hdead. lia.
      * exact Hdone.
      * reflexivity.
      * reflexivity.
      * reflexivity.
      * exact Hk.
    + rewrite sleeps_of_after_query. cbn [seq map]. rewrite !Hconst. reflexivity.
Qed.

(** ** Order facts of binary64 arithmetic

    From the specification of the primitive operations: the difference of
    two ordered floats is not negative, and an [int] that is not positive,
    converted and divided by 1000, is not positive. *)

Lemma signed_false x : signed false x → not_negative x.
Proof. destruct x; cbn; auto. Qed.

Lemma signed_true x : signed true x → not_positive x.
Proof. destruct x; cbn; auto. Qed.

Lemma binary_round_aux_signed s m e l :
  signed s (binary_round_aux prec emax s m e l).
Proof.
  unfold binary_round_aux.
  destruct (shr_fexp prec emax m e l) as [mrs e'].
  destruct (shr_fexp prec emax _ e' loc_Exact) as [mrs' e''].
  destruct (shr_m mrs'); [reflexivity| |exact I].
  destruct (e'' <=? emax - prec); reflexivity.
Qed.

Lemma binary_round_signed s m e :
  signed s (binary_round prec emax s m e).
Proof.
  unfold binary_round. destruct (shl_align _ _ _). apply binary_round_aux_signed.
Qed.

Lemma binary_normalize_not_negative m e :
  0 <= m → not_negative (binary_normalize prec emax m e false).
Proof.
  destruct m; cbn; [auto| |lia]. intros _.
  apply signed_false, binary_round_signed.
Qed.

Lemma SFltb_not_negative_not_positive x c :
  not_negative x → not_positive c → SFltb x c = false.
Proof.
  destruct x as [sx|sx| |sx mx ex], c as [sc|sc| |sc mc ec]; cbn;
    intros Hx Hc; subst; try reflexivity; try (destruct sx; reflexivity);
    try (destruct sc; reflexivity).
Qed.

Lemma SFdiv_not_positive x my ey :
  not_positive x →
  not_positive (SFdiv prec emax x (S754_finite false my ey)).
Proof.
  destruct x as [sx|sx| |sx mx ex]; cbn; intros Hx; subst; try exact I.
  - reflexivity.
  - destruct (SFdiv_core_binary _ _ _ _ _ _) as [[mz ez] lz].
    apply signed_true, binary_round_aux_signed.
Qed.

(** The float an [int] that is not positive converts to is not positive. *)
Lemma SF2Prim_not_positive s :
  signed true s → not_positive (Prim2SF (SF2Prim s)).
Proof.
  destruct s as [[]|[]| |[] m e]; intros Hs; try discriminate Hs;
    try (vm_compute; auto; fail).
  unfold SF2Prim.
  rewrite FloatAxioms.opp_spec, Z_ldexp_spec, FloatAxioms.of_uint63_spec.
  pose proof (to_Z_bounded (of_Z (Z.pos m))) as [Hn _].
  pose proof (binary_normalize_not_negative _ 0 Hn) as Hnn.
  destruct (binary_normalize prec emax _ 0 false) as [sx|sx| |sx mx ex];
    cbn in *; subst; try exact I; try reflexivity.
  pose proof (binary_round_signed false mx (ex + e)) as Hs'.
  destruct (binary_round prec emax false mx (ex + e)); cbn in *; subst;
    try exact I; reflexivity.
Qed.

(** ** The difference of two ordered floats *)

Lemma digits2_pos_bounds m :
  2 ^ (Z.pos (digits2_pos m) - 1) <= Z.pos m < 2 ^ Z.pos (digits2_pos m).
Proof.
  induction m as [m IH|m IH|]; cbn [digits2_pos].
  - rewrite Pos2Z.inj_succ.
    replace (Z.succ (Z.pos (digits2_pos m)) - 1)
      with (Z.succ (Z.pos (digits2_pos m) - 1)) by lia.
    rewrite !Z.pow_succ_r by lia. lia.
  - rewrite Pos2Z.inj_succ.
    replace (Z.succ (Z.pos (digits2_pos m)) - 1)
      with (Z.succ (Z.pos (digits2_pos m) - 1)) by lia.
    rewrite !Z.pow_succ_r by lia. lia.
  - cbn. lia.
Qed.

(** The mantissa of a valid finite float has at most 53 bits, and exactly 53
    above the smallest exponent. *)
Lemma bounded_inv m e :
  bounded prec emax m e = true →
  -1074 <= e
  ∧ Z.pos m < 2 ^ 53
  ∧ (-1074 < e → 2 ^ 52 <= Z.pos m).
Proof.
  unfold bounded, canonical_mantissa, fexp, SpecFloat.emin, prec, emax.
  intros [Hc _]%andb_prop. apply Z.eqb_eq in Hc.
  pose proof (digits2_pos_bounds m) as [Hlo Hhi].
  repeat split.
  - lia.
  - eapply Z.lt_le_trans; [exact Hhi|]. apply Z.pow_le_mono_r; lia.
  - intros He. replace 52 with (Z.pos (digits2_pos m) - 1) by lia. exact Hlo.
Qed.

Lemma shl_align_value mx ex ez :
  ez <= ex → Z.pos (fst (shl_align mx ex ez)) = Z.pos mx * 2 ^ (ex - ez).
Proof.
  intros Hle. unfold shl_align.
  destruct (ez - ex) as [|d|d] eqn:Hd; [|lia|].
  - replace (ex - ez) with 0 by lia. cbn [fst]. lia.
  - replace (ex - ez) with (Z.pos d) by lia. cbn [fst].
    change (Pos.iter xO mx d) with (shift_pos d mx).
    rewrite shift_pos_correct. change (Z.pow_pos 2 d) with (2 ^ Z.pos d). lia.
Qed.

Lemma pow2_ge_2 k : 0 < k → 2 <= 2 ^ k.
Proof.
  intros Hk. change 2 with (2 ^ 1) at 1. apply Z.pow_le_mono_r; lia.
Qed.

(** [x - y] is not negative when [y <= x]. *)
Lemma SFsub_not_negative x y :
  valid_binary x = true →
  valid_binary y = true →
  SFleb y x = true →
  not_negative (SFsub prec emax x y).
Proof.
  destruct x as [sx|sx| |sx mx ex], y as [sy|sy| |sy my ey];
    cbn [SpecFloat.valid_binary]; intros Hx Hy Hle;
    try solve [ repeat match goal with s : bool |- _ => destruct s end;
                cbn in *; first [discriminate | reflexivity | exact I] ].
  unfold SFsub. apply binary_normalize_not_negative.
  rewrite !shl_align_value by lia.
  destruct (bounded_inv _ _ Hx) as (Hex & Hmx & Hnx).
  destruct (bounded_inv _ _ Hy) as (Hey & Hmy & Hny).
  pose proof (Z.pow_pos_nonneg 2 (ex - Z.min ex ey) ltac:(lia) ltac:(lia)).
  pose proof (Z.pow_pos_nonneg 2 (ey - Z.min ex ey) ltac:(lia) ltac:(lia)).
  unfold SFleb, SFcompare in Hle.
  change (Pos.compare_cont Eq my mx) with (Pos.compare my mx) in Hle.
  revert Hle.
  destruct sx, sy; cbn [cond_Zopp]; try discriminate; [| intros _; nia |].
  - (* both negative: |x| <= |y| *)
    destruct (Z.compare_spec ey ex) as [->|Hlt|Hgt]; try discriminate.
    + rewrite Z.min_id, Z.sub_diag, Z.pow_0_r.
      destruct (Pos.compare_spec my mx); cbn [CompOpp]; try discriminate; lia.
    + intros _. rewrite Z.min_l by lia. rewrite Z.sub_diag, Z.pow_0_r.
      pose proof (pow2_ge_2 (ey - ex) ltac:(lia)).
      specialize (Hny ltac:(lia)). nia.
  - (* both positive: y <= x *)
    destruct (Z.compare_spec ey ex) as [->|Hlt|Hgt]; try discriminate.
    + rewrite Z.min_id, Z.sub_diag, Z.pow_0_r.
      destruct (Pos.compare_spec my mx); cbn [CompOpp]; try discriminate; lia.
    + intros _. rewrite Z.min_r by lia. rewrite Z.sub_diag, Z.pow_0_r.
      pose proof (pow2_ge_2 (ex - ey) ltac:(lia)).
      specialize (Hnx ltac:(lia)). nia.
Qed.

(** On binary64 floats: when the clock has not run backwards and the time
    allowed is not positive, the elapsed time is not below it. *)
Lemma elapsed_not_below (t0 t1 x : float) :
  (t0 <=? t1)%float = true →
  not_positive (Prim2SF x) →
  (t1 - t0 <? x / 1000)%float = false.
Proof.
  intros Hle Hx.
  rewrite FloatAxioms.ltb_spec, FloatAxioms.sub_spec, FloatAxioms.div_spec.
  rewrite FloatAxioms.leb_spec in Hle.
  apply SFltb_not_negative_not_positive.
  - apply SFsub_not_negative; [apply Prim2SF_valid..|exact Hle].
  - change (Prim2SF 1000) with (S754_finite false 8796093022208000 (-43)).
    apply SFdiv_not_positive, Hx.
Qed.

(** The float an [int] that is not positive converts to is not positive. *)
Lemma float_of_int_not_positive z x :
  z <= 0 → float_of_int z = Some x → not_positive (Prim2SF x).
Proof.
  unfold float_of_int. intros Hz.
  destruct (is_infinity _); [discriminate|]. intros [= <-].
  destruct z as [|p|p]; [vm_compute; exact I|lia|].
  apply SF2Prim_not_positive, binary_round_signed.
Qed.

Lemma SFcompare_antisym x y :
  SFcompare y x = option_map CompOpp (SFcompare x y).
Proof.
  destruct x as [sx|sx| |sx mx ex], y as [sy|sy| |sy my ey]; cbn;
    try reflexivity;
    try solve [ repeat match goal with s : bool |- _ => destruct s end;
                reflexivity ].
  change (Pos.compare_cont Eq my mx) with (Pos.compare my mx).
  change (Pos.compare_cont Eq mx my) with (Pos.compare mx my).
  rewrite (Z.compare_antisym ex ey), (Pos.compare_antisym mx my).
  destruct sx, sy, (ex ?= ey), (mx ?= my)%positive; reflexivity.
Qed.

(** On floats, an elapsed time above the time allowed is not below it. *)
Lemma deadline_exceeded_float (w : World float) (T : float) (k : nat) :
  (T <? time_time w (S k) - time_time w 0%nat)%float = true →
  within_deadline w T k = false.
Proof.
  unfold within_deadline; cbn.
  rewrite !FloatAxioms.ltb_spec. unfold SFltb.
  rewrite (SFcompare_antisym (Prim2SF T)).
  destruct (SFcompare (Prim2SF T) _) as [[]|]; cbn; congruence.
Qed.

(** The same on rationals. *)
Lemma deadline_exceeded_Q (w : World Q) (T : Q) (k : nat) :
  (T < time_time w (S k) - time_time w 0%nat)%Q →
  within_deadline w T k = false.
Proof.
  intros Hlt. unfold within_deadline; cbn.
  apply negb_false_iff, Qle_bool_iff. rewrite Qred_correct.
  apply Qlt_le_weak, Hlt.
Qed.

(** On rationals the loop condition is the comparison it is written as. *)
Lemma within_deadline_Q (w : World Q) (T : Q) (i : nat) :
  within_deadline w T i = true
  ↔ (time_time w (S i) - time_time w 0%nat < T)%Q.
Proof.
  unfold within_deadline; cbn.
  rewrite negb_true_iff, <- not_true_iff_false, Qle_bool_iff, Qred_correct.
  split; [apply Qnot_le_lt|apply Qlt_not_le].
Qed.

(** The conversions of floats and of rationals fail on the same integers,
    checked at the two thresholds. *)
Example of_int_thresholds :
  float_of_int (2 ^ 1024 - 2 ^ 970) = None
  ∧ float_of_int (- (2 ^ 1024 - 2 ^ 970)) = None
  ∧ float_of_int (2 ^ 1024 - 2 ^ 970 - 1) = Some 0x1.fffffffffffffp+1023%float
  ∧ float_of_int (- (2 ^ 1024 - 2 ^ 970 - 1))
    = Some (-0x1.fffffffffffffp+1023)%float
  ∧ int_overflows (2 ^ 1024 - 2 ^ 970) = true
  ∧ int_overflows (- (2 ^ 1024 - 2 ^ 970)) = true
  ∧ int_overflows (2 ^ 1024 - 2 ^ 970 - 1) = false
  ∧ int_overflows (- (2 ^ 1024 - 2 ^ 970 - 1)) = false.
Proof. vm_compute. repeat split. Qed.

(** C10.  For arguments that convert to floats and a clock that does not
    run backwards between its first two readings, a call with
    [max_wait_ms <= 0] raises [TimeoutError] as soon as it evaluates the
    loop condition, without a single status query or suspension: on
    binary64 floats, and on exact rationals. *)
Theorem C10_non_positive_wait_raises_timeout :
  (∀ (E : Enums float) (w : World float) self task_id format_type
     max_wait_ms check_interval_ms max_check_interval_ms backoff_factor
     T f c mx fuel,
     max_wait_ms <= 0 →
     settings max_wait_ms check_interval_ms max_check_interval_ms
       backoff_factor = Some (T, f, c, mx) →
     (time_time w 0%nat <=? time_time w 1%nat)%float = true →
     (0 < fuel)%nat →
     wait_for_completion fuel self task_id format_type max_wait_ms
       check_interval_ms max_check_interval_ms backoff_factor w initial
     = ({| clock_reads := 2; requests_made := 0; trace := [] |},
        Raise (mk_exn TimeoutError "Conversion timeout" None)))
  ∧ (∀ (E : Enums Q) (w : World Q) self task_id format_type
       max_wait_ms check_interval_ms max_check_interval_ms backoff_factor
       T f c mx fuel,
       max_wait_ms <= 0 →
       settings max_wait_ms check_interval_ms max_check_interval_ms
         backoff_factor = Some (T, f, c, mx) →
       (time_time w 0%nat <= time_time w 1%nat)%Q →
       (0 < fuel)%nat →
       wait_for_completion fuel self task_id format_type max_wait_ms
         check_interval_ms max_check_interval_ms backoff_factor w initial
       = ({| clock_reads := 2; requests_made := 0; trace := [] |},
          Raise (mk_exn TimeoutError "Conversion timeout" None))).
Proof.
  split.
  - intros E w self task_id format_type mw ci mci bf T f c mx fuel
      Hmw Hset Hclock Hfuel.
    rewrite wait_for_completion_settings, Hset.
    destruct (settings_inv _ _ _ _ _ _ _ _ Hset) as (HT & _ & _).
    change (@of_int float Float64) with float_of_int in HT.
    destruct (float_of_int mw) as [x|] eqn:Hx; [|discriminate].
    cbn in HT. injection HT as <-.
    destruct fuel as [|fuel]; [lia|].
    apply (loop_timeout (PyFloat0 := Float64)).
    apply elapsed_not_below; [exact Hclock|].
    eapply float_of_int_not_positive; eassumption.
  - intros E w self task_id format_type mw ci mci bf T f c mx fuel
      Hmw Hset Hclock Hfuel.
    rewrite wait_for_completion_settings, Hset.
    destruct (settings_inv _ _ _ _ _ _ _ _ Hset) as (HT & _ & _).
    cbn in HT. destruct (int_overflows mw); [discriminate|].
    cbn in HT. injection HT as <-.
    destruct fuel as [|fuel]; [lia|].
    apply (loop_timeout (PyFloat0 := Rational)).
    apply not_true_iff_false. intros Hin.
    apply (within_deadline_Q w _ 0) in Hin.
    rewrite Qred_correct in Hin.
    apply (Qlt_not_le _ _ Hin).
    apply Qle_trans with 0%Q.
    + unfold Qle, Qdiv, Qmult, Qinv; cbn. lia.
    + apply -> Qle_minus_iff in Hclock. exact Hclock.
Qed.

(** On binary64 floats, at three waits that are not positive. *)
Example non_positive_wait_on_floats :
  Forall
    (fun max_wait_ms =>
       wait_for_completion (Enums0 := example_strategies_float) 9 client
         "task123" (FormatEnum MARKDOWN) max_wait_ms 1000 5000
         (BackoffStrategy EXPONENTIAL) test_exponential initial
       = ({| clock_reads := 2; requests_made := 0; trace := [] |},
          Raise (mk_exn TimeoutError "Conversion timeout" None)))
    [0; -1; -7200000].
Proof. repeat constructor. Qed.

(** * Properties of the chunked uploader *)

Lemma ceil_div_bounds total size :
  (0 < size)%nat →
  (total ≤ ceil_div total size * size)%nat
  ∧ (∀ j, (j < ceil_div total size)%nat → (j * size < total)%nat).
Proof.
  intros Hs. unfold ceil_div.
  pose proof (Nat.div_mod_eq (total + size - 1) size) as Hdm.
  pose proof (Nat.mod_upper_bound (total + size - 1) size ltac:(lia)) as Hm.
  split; [nia|]. intros j Hj. nia.
Qed.

Lemma part_bytes_length content size i :
  length (part_bytes content size i)
  = Nat.min size (length content - (i - 1) * size).
Proof.
  unfold part_bytes. rewrite length_take, length_drop. reflexivity.
Qed.

Lemma progress_of_app tr1 tr2 :
  progress_of (tr1 ++ tr2) = progress_of tr1 ++ progress_of tr2.
Proof. apply omap_app. Qed.

(** The snapshots reported by the per-part loop. *)
Lemma upload_parts_progress w cb content size total_parts_ path :
  ∀ n i s tr tr' s',
    (1 ≤ i)%nat →
    file_path s = path →
    part_size s = size →
    session_total_bytes s = length content →
    session_total_parts s = total_parts_ →
    session_uploaded_bytes s = Nat.min (length content) ((i - 1) * size) →
    upload_parts w cb content (seq i n) s tr = (tr', inr s') →
    progress_of tr' =
    progress_of tr ++
      match cb with
      | None => []
      | Some _ =>
          map (fun j =>
                 {| uploaded_bytes :=
                      Z.of_nat (Nat.min (length content) (j * size));
                    total_bytes := Z.of_nat (length content);
                    current_part := Z.of_nat j;
                    total_parts := Z.of_nat total_parts_ |})
            (seq i n)
      end.
Proof.
  induction n as [|n IH]; intros i s tr tr' s' Hi Hpath Hsize Htot Hparts Hup.
  { cbn. intros [= <- <-]. destruct cb; rewrite app_nil_r; reflexivity. }
  cbn [seq upload_parts].
  destruct (part_target w i) as [e|target]; [discriminate|].
  destruct (put_part w target _) as [e|]; [discriminate|].
  set (s1 := {| file_path := file_path s;
                session_total_bytes := session_total_bytes s;
                part_size := part_size s;
                session_total_parts := session_total_parts s;
                session_uploaded_bytes := _;
                session_current_part := i;
                acknowledged := _ |}).
  assert (session_uploaded_bytes s1 = Nat.min (length content) (i * size))
    as Hup1.
  { subst s1. cbn. rewrite Hup, part_bytes_length, Hsize.
    assert (i * size = (i - 1) * size + size)%nat as -> by nia. lia. }
  assert (snapshot s1 =
          {| uploaded_bytes := Z.of_nat (Nat.min (length content) (i * size));
             total_bytes := Z.of_nat (length content);
             current_part := Z.of_nat i;
             total_parts := Z.of_nat total_parts_ |}) as Hsnap.
  { unfold snapshot. rewrite Hup1. subst s1; cbn. rewrite Htot, Hparts.
    reflexivity. }
  destruct cb as [callback|].
  - rewrite Hsnap. destruct (callback _) as [e|]; [discriminate|].
    intros Hrun.
    eapply (IH (S i)) in Hrun; try (subst s1; cbn; auto; lia).
    2:{ rewrite Hup1. f_equal. lia. }
    rewrite Hrun, !progress_of_app. cbn.
    rewrite app_nil_r, <- app_assoc. reflexivity.
  - intros Hrun.
    eapply (IH (S i)) in Hrun; try (subst s1; cbn; auto; lia).
    2:{ rewrite Hup1. f_equal. lia. }
    rewrite Hrun, !progress_of_app. cbn.
    rewrite !app_nil_r. reflexivity.
Qed.

(** C6.  When the path does not reference an existing, readable regular
    file, [upload_file] raises [FileNotFoundError] and its trace is empty:
    no transport call was made. *)
Theorem C6_missing_file_fails_before_transport w path progress_callback :
  read_file w path = None →
  ∃ e,
    upload_file w path progress_callback = ([], inl e)
    ∧ exn_class_of e = FileNotFoundError
    ∧ transport_calls (fst (upload_file w path progress_callback)) = [].
Proof.
  intros Hnone. unfold upload_file. rewrite Hnone.
  eexists. repeat split.
Qed.

(** C7.  In a successful upload of a file the service has split into
    [ceil(totalBytes / partSize)] parts of positive size (or, for an empty
    file, into a single empty part), the snapshots seen by the callback
    have strictly increasing [uploaded_bytes] and strictly increasing
    [current_part], the last one has [uploaded_bytes = total_bytes], which
    is the size of the file, and there is one snapshot per part. *)
Theorem C7_progress_increases_to_total w path callback content grant
    locator tr :
  read_file w path = Some content →
  init_session w (length content) = inr grant →
  (0 < grant_part_size grant)%nat →
  grant_total_parts grant = ceil_div (length content) (grant_part_size grant)
  ∨ (length content = 0%nat ∧ grant_total_parts grant = 1%nat) →
  upload_file w path (Some callback) = (tr, inr locator) →
  (∀ i a b, progress_of tr !! i = Some a → progress_of tr !! S i = Some b →
     uploaded_bytes a < uploaded_bytes b ∧ current_part a < current_part b)
  ∧ (∀ p, last (progress_of tr) = Some p →
       uploaded_bytes p = total_bytes p
       ∧ total_bytes p = Z.of_nat (length content))
  ∧ length (progress_of tr) = grant_total_parts grant.
Proof.
  intros Hfile Hinit Hsize Hparts. unfold upload_file.
  rewrite Hfile, Hinit.
  destruct (upload_parts _ _ _ _ _ _) as [tr' [e|s']] eqn:Hrun; [discriminate|].
  intros [= <- _].
  eapply (upload_parts_progress _ _ _ (grant_part_size grant)
            (grant_total_parts grant) path) in Hrun;
    try reflexivity; try lia; try (cbn; lia).
  cbn in Hrun. rewrite Hrun. clear Hrun.
  set (N := grant_total_parts grant) in *.
  set (size := grant_part_size grant) in *.
  assert ((∀ j, (1 ≤ j < N)%nat → (j * size < length content)%nat)
          ∧ ((1 ≤ N)%nat → (length content ≤ N * size)%nat))
    as [Hneeded Hcover].
  { destruct Hparts as [Hceil|[Hempty Hone]].
    - destruct (ceil_div_bounds (length content) size Hsize) as [Hc Hn].
      rewrite <- Hceil in Hc, Hn. split; [|intros _; exact Hc].
      intros j [_ Hj]. apply Hn, Hj.
    - split; [lia|]. lia. }
  split; [|split].
  - intros i a b. rewrite !list_lookup_fmap.
    destruct (seq 1 N !! i) as [j|] eqn:Hj; [|discriminate].
    destruct (seq 1 N !! S i) as [j'|] eqn:Hj'; [|discriminate].
    apply lookup_seq in Hj as [-> _]. apply lookup_seq in Hj' as [-> Hlt].
    cbn. intros [= <-] [= <-]. cbn.
    pose proof (Hneeded (S i) ltac:(lia)).
    split; [|lia].
    apply inj_lt. nia.
  - intros p. rewrite fmap_last.
    destruct (last (seq 1 N)) as [j|] eqn:Hlast; [|discriminate].
    cbn. intros [= <-]. cbn. split; [|reflexivity].
    f_equal. destruct N as [|N'].
    { discriminate. }
    rewrite seq_S, last_snoc in Hlast. injection Hlast as <-.
    specialize (Hcover ltac:(lia)). lia.
  - rewrite length_map, length_seq. reflexivity.
Qed.

Lemma clamp_idle lo hi x :
  (lo <= x <= hi)%Q → (clamp lo hi x == x)%Q.
Proof.
  intros [Hlo Hhi]. unfold clamp.
  destruct (Qle_bool x lo) eqn:E1.
  { apply Qle_bool_iff in E1. apply Qle_antisym; assumption. }
  destruct (Qle_bool hi x) eqn:E2.
  { apply Qle_bool_iff in E2. apply Qle_antisym; assumption. }
  reflexivity.
Qed.

Lemma ratio_bounds u t :
  0 <= u <= t → 0 < t →
  (0 <= 100 * inject_Z u / inject_Z t <= 100)%Q
  ∧ ((100 * inject_Z u / inject_Z t == 100)%Q ↔ u = t).
Proof.
  intros Hu Ht.
  destruct t as [|t|t]; try lia.
  unfold Qle, Qeq, Qdiv, Qmult, Qinv, inject_Z; cbn.
  repeat split; try lia.
Qed.

(** C8, as the model has it.  For every valid snapshot the percentage lies
    between 0 and 100; when [total_bytes] is not zero it is
    [100 * uploaded_bytes / total_bytes] (the clamp is idle), and it is 100
    exactly when everything has been uploaded; when [total_bytes] is zero
    it is 0.  The snapshot of the unit test is at 50. *)
Theorem C8_percentage_of_valid_progress p :
  valid_progress p →
  (0 <= percentage p <= 100)%Q
  ∧ (total_bytes p ≠ 0 →
     (percentage p ==
      100 * inject_Z (uploaded_bytes p) / inject_Z (total_bytes p))%Q)
  ∧ (total_bytes p ≠ 0 →
     ((percentage p == 100)%Q ↔ uploaded_bytes p = total_bytes p))
  ∧ (total_bytes p = 0 → (percentage p == 0)%Q)
  ∧ (percentage {| uploaded_bytes := 5000; total_bytes := 10000;
                   current_part := 1; total_parts := 2 |} == 50)%Q.
Proof.
  intros [Hu _].
  assert (percentage {| uploaded_bytes := 5000; total_bytes := 10000;
                        current_part := 1; total_parts := 2 |} == 50)%Q
    as Htest by reflexivity.
  unfold percentage at 1 2 3 4 5.
  destruct (Z.eqb_spec (total_bytes p) 0) as [H0|Hne].
  - split; [split; discriminate|].
    split; [intros; contradiction|].
    split; [intros; contradiction|].
    split; [reflexivity|exact Htest].
  - destruct (ratio_bounds (uploaded_bytes p) (total_bytes p) Hu ltac:(lia))
      as [Hb Hiff].
    pose proof (clamp_idle 0 100 _ Hb) as Hidle.
    split; [rewrite Hidle; exact Hb|].
    split; [intros _; exact Hidle|].
    split; [intros _; rewrite Hidle; exact Hiff|].
    split; [intros; contradiction|exact Htest].
Qed.

(** * The claims at concrete inputs *)

(** The test of the exponential strategy and the test of the fixed one, run
    through the four parts of C1. *)
Lemma C1_witness :
  (∃ s,
     @wait_for_completion float Float64 example_strategies_float 9 client
       "task123" (FormatEnum MARKDOWN) 7200000 1000 5000
       (BackoffFloat 2%float) test_exponential initial
     = (s, Return (JStr "http://example.com/result.md"))
     ∧ sleeps_of (trace s) = [1; 2; 4; 5]%float)
  ∧ (∃ s,
       @wait_for_completion float Float64 example_strategies_float 9 client
         "task123" (FormatEnum MARKDOWN) 7200000 3000 5000
         (BackoffFloat 1%float) test_fixed initial
       = (s, Return (JStr "http://example.com/result.md"))
       ∧ sleeps_of (trace s) = [3; 3]%float)
  ∧ length
      (sleeps_of
         (trace (fst (@wait_for_completion float Float64
                        example_strategies_float 9 client "task123"
                        (FormatEnum MARKDOWN) 7200000 1000 5000
                        (BackoffStrategy EXPONENTIAL) test_exponential
                        initial)))) = 4%nat
  ∧ (∀ i prev next,
       sleeps_of
         (trace (fst (@wait_for_completion float Float64
                        example_strategies_float 9 client "task123"
                        (FormatEnum MARKDOWN) 7200000 1000 5000
                        (BackoffStrategy EXPONENTIAL) test_exponential
                        initial))) !! i = Some prev →
       sleeps_of
         (trace (fst (@wait_for_completion float Float64
                        example_strategies_float 9 client "task123"
                        (FormatEnum MARKDOWN) 7200000 1000 5000
                        (BackoffStrategy EXPONENTIAL) test_exponential
                        initial))) !! S i = Some next →
       next = py_min (PyFloat0 := Float64) (prev * 2)%float 5%float).
Proof.
  destruct C1_suspension_schedule as (Ha & Hb & Hc & Hd).
  split; [|split; [|split]].
  - apply (Hc example_strategies_float test_exponential client "task123"
             (FormatEnum MARKDOWN) 7200000 7200000%float
             "http://example.com/result.md" 9%nat).
    + vm_compute. reflexivity.
    + intros i Hi. destruct i as [|[|[|[|?]]]]; try lia; reflexivity.
    + reflexivity.
    + intros i Hi. destruct i as [|[|[|[|[|?]]]]]; try lia; reflexivity.
    + intros d _. reflexivity.
    + lia.
  - apply (Hd example_strategies_float test_fixed client "task123"
             (FormatEnum MARKDOWN) 7200000 7200000%float 5000 5000%float
             "http://example.com/result.md" 9%nat).
    + vm_compute. reflexivity.
    + vm_compute. reflexivity.
    + vm_compute. reflexivity.
    + intros i Hi. destruct i as [|[|?]]; try lia; reflexivity.
    + reflexivity.
    + intros i Hi. destruct i as [|[|[|?]]]; try lia; reflexivity.
    + reflexivity.
    + lia.
  - apply (Hb float Float64 example_strategies_float test_exponential client
             "task123" (FormatEnum MARKDOWN) 7200000 1000 5000
             (BackoffStrategy EXPONENTIAL) 7200%float 2%float 1%float 5%float
             4%nat (completed "http://example.com/result.md") 9%nat).
    + vm_compute. reflexivity.
    + apply pending_prefix_check. vm_compute. reflexivity.
    + vm_compute. reflexivity.
    + reflexivity.
    + reflexivity.
    + lia.
  - apply (Ha float Float64 example_strategies_float test_exponential client
             "task123" (FormatEnum MARKDOWN) 7200000 1000 5000
             (BackoffStrategy EXPONENTIAL) 7200%float 2%float 1%float 5%float
             9%nat).
    vm_compute. reflexivity.
Defined.

(** A job still processing when 2.5 s of waiting are over: the third
    reading of the clock ends the call. *)
Lemma C2_witness :
  @wait_for_completion Q Rational example_strategies_Q 10 client "task123"
    (FormatEnum MARKDOWN) 2500 1000 5000 (BackoffInt 2) slow_job initial
  = ({| clock_reads := 4;
        requests_made := 2;
        trace := [EGet status_url; ESleep 1%Q; EGet status_url; ESleep 2%Q] |},
     Raise (mk_exn TimeoutError "Conversion timeout" None)).
Proof.
  apply (proj1 (proj2 (C2_deadline_from_first_reading (PyFloat0 := Rational)
                         (Enums0 := example_strategies_Q)
                         slow_job client "task123" (FormatEnum MARKDOWN)
                         2500 1000 5000 (BackoffInt 2)
                         (5 # 2)%Q 2%Q 1%Q 5%Q eq_refl))
           10%nat 2%nat).
  - apply pending_prefix_check. vm_compute. reflexivity.
  - vm_compute. reflexivity.
  - lia.
Defined.

(** In the test of the exponential strategy the fifth query is answered by
    a completed status: it is the last query, after four suspensions. *)
Lemma C3_witness :
  length
    (queries_of
       (trace (fst (@wait_for_completion float Float64
                      example_strategies_float 9 client "task123"
                      (FormatEnum MARKDOWN) 7200000 1000 5000
                      (BackoffStrategy EXPONENTIAL) test_exponential
                      initial)))) = 5%nat
  ∧ length
      (sleeps_of
         (trace (fst (@wait_for_completion float Float64
                        example_strategies_float 9 client "task123"
                        (FormatEnum MARKDOWN) 7200000 1000 5000
                        (BackoffStrategy EXPONENTIAL) test_exponential
                        initial)))) = 4%nat
  ∧ snd (@wait_for_completion float Float64 example_strategies_float 9
           client "task123" (FormatEnum MARKDOWN) 7200000 1000 5000
           (BackoffStrategy EXPONENTIAL) test_exponential initial)
    ≠ OutOfFuel.
Proof.
  apply (proj2 (proj2 (C3_query_first_one_sleep_per_pending
                         (PyFloat0 := Float64)
                         (Enums0 := example_strategies_float)
                         test_exponential client "task123"
                         (FormatEnum MARKDOWN) 7200000 1000 5000
                         (BackoffStrategy EXPONENTIAL) 9%nat))
           4%nat (completed "http://example.com/result.md")).
  - vm_compute. lia.
  - reflexivity.
  - reflexivity.
Defined.

(** A completed status with its payload, and one without. *)
Lemma C4_witness :
  @wait_for_completion float Float64 example_strategies_float 9 client
    "task123" (FormatEnum MARKDOWN) 7200000 1000 5000
    (BackoffStrategy EXPONENTIAL) test_exponential initial
  = (after_query status_url 1%float 2%float 5%float 4,
     Return (JStr "http://example.com/result.md"))
  ∧ @wait_for_completion float Float64 example_strategies_float 9 client
      "task123" (FormatEnum MARKDOWN) 7200000 1000 5000
      (BackoffStrategy EXPONENTIAL) contract_broken initial
    = (after_query status_url 1%float 2%float 5%float 1,
       Raise (mk_exn APIError
                "Task completed but downloadURL missing in response: "
                (Some completed_without_payload))).
Proof.
  split.
  - apply (proj1 (C4_completed_returns_or_raises_api_error
                    (PyFloat0 := Float64) (Enums0 := example_strategies_float)
                    test_exponential client "task123" (FormatEnum MARKDOWN)
                    7200000 1000 5000 (BackoffStrategy EXPONENTIAL)
                    7200%float 2%float 1%float 5%float 4%nat
                    {[ "state" := JStr "completed";
                       "data" := JObj {[ "downloadURL" :=
                                           JStr "http://example.com/result.md" ]} ]}
                    9%nat eq_refl
                    ltac:(apply pending_prefix_check; vm_compute; reflexivity)
                    eq_refl eq_refl eq_refl ltac:(lia))
             {[ "downloadURL" := JStr "http://example.com/result.md" ]}
             (JStr "http://example.com/result.md")); reflexivity.
  - apply (proj1 (proj2 (C4_completed_returns_or_raises_api_error
                    (PyFloat0 := Float64) (Enums0 := example_strategies_float)
                    contract_broken client "task123" (FormatEnum MARKDOWN)
                    7200000 1000 5000 (BackoffStrategy EXPONENTIAL)
                    7200%float 2%float 1%float 5%float 1%nat
                    {[ "state" := JStr "completed" ]}
                    9%nat eq_refl
                    ltac:(apply pending_prefix_check; vm_compute; reflexivity)
                    eq_refl eq_refl eq_refl ltac:(lia)))).
    left. reflexivity.
Defined.

(** The exception raised for the missing payload and the one raised for a
    server error are of one class, [APIError]: the first is not of a
    category distinct from the transport errors. *)
Lemma C4_counterexample :
  ∃ e e',
    snd (@wait_for_completion float Float64 example_strategies_float 9 client
           "task123" (FormatEnum MARKDOWN) 7200000 1000 5000
           (BackoffStrategy EXPONENTIAL) contract_broken initial) = Raise e
    ∧ snd (@wait_for_completion float Float64 example_strategies_float 9
             client "task123" (FormatEnum MARKDOWN) 7200000 1000 5000
             (BackoffStrategy EXPONENTIAL) server_error initial) = Raise e'
    ∧ exn_msg e' = "HTTP 500: "
    ∧ exn_class_of e = APIError
    ∧ exn_class_of e = exn_class_of e'.
Proof.
  eexists. eexists.
  split; [vm_compute; reflexivity|].
  split; [vm_compute; reflexivity|].
  repeat split.
Qed.

(** A job reported as failed at the second poll. *)
Lemma C5_witness :
  ∃ e,
    @wait_for_completion Q Rational example_strategies_Q 9 client "task123"
      (FormatEnum MARKDOWN) 7200000 1000 5000 (BackoffStrategy EXPONENTIAL)
      job_failed initial
    = (after_query status_url 1%Q 2%Q 5%Q 1, Raise e)
    ∧ exn_msg e = "Conversion failed: "
    ∧ exn_arg e = Some (JStr "out of memory")
    ∧ exn_class_of e = APIError
    ∧ exn_class_of e ≠ TimeoutError.
Proof.
  exact (C5_failed_raises_with_reason
           (PyFloat0 := Rational) (Enums0 := example_strategies_Q)
           job_failed client "task123" (FormatEnum MARKDOWN)
           7200000 1000 5000 (BackoffStrategy EXPONENTIAL)
           7200%Q 2%Q 1%Q 5%Q 1%nat
           {[ "state" := JStr "failed"; "error" := JStr "out of memory" ]}
           9%nat eq_refl
           ltac:(apply pending_prefix_check; vm_compute; reflexivity)
           ltac:(vm_compute; reflexivity)
           eq_refl eq_refl ltac:(lia)).
Defined.

(** A status with the state ["queued"], then one without any state: the
    call suspends after each and goes on to a third query. *)
Lemma C9_witness :
  ∃ rest,
    trace (fst (@wait_for_completion Q Rational example_strategies_Q 9 client
                  "task123" (FormatEnum MARKDOWN) 7200000 1000 5000
                  (BackoffStrategy FIXED) job_queued initial))
    = cycles status_url 1%Q 1%Q 5%Q 1
        ++ [EGet status_url; ESleep 1%Q; EGet status_url] ++ rest.
Proof.
  apply (proj2 (C9_unrecognised_state_is_pending
                  (PyFloat0 := Rational) (Enums0 := example_strategies_Q)
                  job_queued client "task123" (FormatEnum MARKDOWN)
                  7200000 1000 5000 (BackoffStrategy FIXED)
                  7200%Q 1%Q 1%Q 5%Q 1%nat ∅
                  eq_refl
                  ltac:(apply pending_prefix_check; vm_compute; reflexivity)
                  ltac:(vm_compute; reflexivity)
                  eq_refl
                  ltac:(vm_compute; discriminate)
                  ltac:(vm_compute; discriminate)
                  eq_refl)).
  - vm_compute. reflexivity.
  - lia.
Defined.

(** A call that is given no time at all, on floats and on rationals. *)
Lemma C10_witness :
  wait_for_completion (Enums0 := example_strategies_float) 9 client "task123"
    (FormatEnum MARKDOWN) 0 1000 5000 (BackoffStrategy EXPONENTIAL)
    test_exponential initial
  = ({| clock_reads := 2; requests_made := 0; trace := [] |},
     Raise (mk_exn TimeoutError "Conversion timeout" None))
  ∧ wait_for_completion (Enums0 := example_strategies_Q) 9 client "task123"
      (FormatEnum MARKDOWN) (-5) 1000 5000 (BackoffStrategy EXPONENTIAL)
      job_queued initial
    = ({| clock_reads := 2; requests_made := 0; trace := [] |},
       Raise (mk_exn TimeoutError "Conversion timeout" None)).
Proof.
  split.
  - apply (proj1 C10_non_positive_wait_raises_timeout
             example_strategies_float test_exponential client "task123"
             (FormatEnum MARKDOWN) 0 1000 5000 (BackoffStrategy EXPONENTIAL)
             0%float 2%float 1%float 5%float 9%nat).
    + lia.
    + vm_compute. reflexivity.
    + vm_compute. reflexivity.
    + lia.
  - apply (proj2 C10_non_positive_wait_raises_timeout
             example_strategies_Q job_queued client "task123"
             (FormatEnum MARKDOWN) (-5) 1000 5000 (BackoffStrategy EXPONENTIAL)
             (-1 # 200)%Q 2%Q 1%Q 5%Q 9%nat).
    + lia.
    + vm_compute. reflexivity.
    + vm_compute. discriminate.
    + lia.
Defined.

(** [test_file_not_found] *)
Lemma C6_witness :
  ∃ e,
    upload_file no_files "nonexistent_file.pdf" None = ([], inl e)
    ∧ exn_class_of e = FileNotFoundError
    ∧ transport_calls (fst (upload_file no_files "nonexistent_file.pdf" None))
      = [].
Proof.
  apply (C6_missing_file_fails_before_transport no_files
           "nonexistent_file.pdf" None).
  reflexivity.
Defined.

(** Five bytes in parts of two: three snapshots, at 2, 4 and 5 bytes. *)
Lemma C7_witness :
  (∀ i a b,
     progress_of (fst (upload_file five_bytes "document.pdf"
                         (Some (fun _ => None)))) !! i = Some a →
     progress_of (fst (upload_file five_bytes "document.pdf"
                         (Some (fun _ => None)))) !! S i = Some b →
     uploaded_bytes a < uploaded_bytes b ∧ current_part a < current_part b)
  ∧ (∀ p,
       last (progress_of (fst (upload_file five_bytes "document.pdf"
                                 (Some (fun _ => None))))) = Some p →
       uploaded_bytes p = total_bytes p ∧ total_bytes p = 5)
  ∧ length (progress_of (fst (upload_file five_bytes "document.pdf"
                                (Some (fun _ => None))))) = 3%nat.
Proof.
  apply (C7_progress_increases_to_total five_bytes "document.pdf"
           (fun _ => None)
           [Byte.x25; Byte.x50; Byte.x44; Byte.x46; Byte.x0a]
           {| grant_part_size := 2; grant_total_parts := 3;
              grant_locator := "cache://document.pdf" |}
           "cache://document.pdf").
  - reflexivity.
  - reflexivity.
  - cbn. lia.
  - left. reflexivity.
  - vm_compute. reflexivity.
Defined.

(** The snapshot of [test_upload_types] is at 50 percent. *)
Lemma C8_witness :
  (0 <= percentage half_way <= 100)%Q
  ∧ (total_bytes half_way ≠ 0 →
     (percentage half_way ==
      100 * inject_Z (uploaded_bytes half_way)
        / inject_Z (total_bytes half_way))%Q)
  ∧ (total_bytes half_way ≠ 0 →
     ((percentage half_way == 100)%Q
      ↔ uploaded_bytes half_way = total_bytes half_way))
  ∧ (total_bytes half_way = 0 → (percentage half_way == 0)%Q)
  ∧ (percentage {| uploaded_bytes := 5000; total_bytes := 10000;
                   current_part := 1; total_parts := 2 |} == 50)%Q.
Proof.
  apply (C8_percentage_of_valid_progress half_way).
  unfold valid_progress. cbn. lia.
Defined.

(** The snapshot of an empty file is valid and has everything uploaded,
    yet its percentage is 0, not 100. *)
Lemma C8_counterexample :
  valid_progress empty_upload
  ∧ uploaded_bytes empty_upload = total_bytes empty_upload
  ∧ (percentage empty_upload == 0)%Q
  ∧ ¬ (percentage empty_upload == 100)%Q.
Proof.
  unfold valid_progress. cbn.
  repeat split; try lia; try reflexivity.
  discriminate.
Qed.

(** * Further properties of the completion poller *)

Section PollerMore.
Context {num : Type} `{!PyFloat num} `{!Enums num}.

Section OneIteration.
Variables (w : World num) (self : PDFCraftClient) (task_id : string).
Variables (format_type : format_arg).
Variables (start_time timeout_sec factor max_interval_sec : num).

Local Abbreviation url := (result_url self task_id format_type).
Local Abbreviation obs := (poll_result w self task_id format_type).
Local Abbreviation loop fuel :=
  (poll_loop fuel self task_id format_type
     start_time timeout_sec factor max_interval_sec).
Local Abbreviation queried s :=
  {| clock_reads := S (clock_reads s);
     requests_made := S (requests_made s);
     trace := trace s ++ [EGet url] |}.

(** What [get_conversion_result] yields, read off the transport. *)
Lemma poll_result_transport i fs :
  _ensure_format_type format_type = inr fs →
  obs i =
  match requests_get w i url with
  | inl e => Raise e
  | inr resp =>
      match json_body resp with
      | None =>
          Raise (mk_exn APIError ("Invalid JSON response: " +:+ text resp) None)
      | Some r =>
          if ok resp then Return r
          else Raise (mk_exn APIError
                        ("HTTP " +:+ pretty (status_code resp) +:+ ": "
                           +:+ text resp) None)
      end
  end.
Proof.
  intros Hf. unfold poll_result, get_conversion_result, result_url.
  rewrite Hf. unfold bind, lift, ret, raise, http_get; cbn.
  destruct (requests_get w i _) as [e|resp]; [reflexivity|].
  destruct (json_body resp); [|reflexivity].
  destruct (ok resp); reflexivity.
Qed.

(** An iteration that observes a status that is not pending ends the call
    with [settle]. *)
Lemma loop_settle fuel cur s r :
  fltb (fsub (time_time w (clock_reads s)) start_time) timeout_sec = true →
  obs (requests_made s) = Return r →
  pending r = false →
  loop (S fuel) cur w s = (queried s, settle r).
Proof.
  intros Hd Hr Hp.
  destruct (poll_result_format _ _ _ _ _ _ Hr) as [fs Hf].
  cbn [poll_loop].
  unfold bind at 1, now; cbn. rewrite Hd.
  unfold bind at 1. rewrite get_conversion_result_run, Hf. cbn.
  rewrite Hr.
  unfold bind at 1.
  destruct r as [| | | | | |m]; cbn; try reflexivity.
  cbn in Hp.
  destruct (eq_str (default JNull (m !! "state")) "completed") eqn:Hc.
  - unfold bind at 1; cbn. unfold bind at 1.
    destruct (truthy (default JNull (m !! "data"))); cbn; [|reflexivity].
    destruct (py_in "downloadURL" (default JNull (m !! "data"))) as [e|[]]; cbn;
      try reflexivity.
    destruct (py_getitem _ _); reflexivity.
  - destruct (eq_str (default JNull (m !! "state")) "failed") eqn:Hx;
      [|discriminate].
    unfold bind at 1; cbn. reflexivity.
Qed.

End OneIteration.

(** ** A run, iteration by iteration *)

Section Run.
Variables (w : World num) (self : PDFCraftClient) (task_id : string).
Variables (format_type : format_arg).
Variables (T f c mx : num).

Local Abbreviation url := (result_url self task_id format_type).
Local Abbreviation obs := (poll_result w self task_id format_type).
Local Abbreviation loop_at fuel i :=
  (poll_loop fuel self task_id format_type (time_time w 0%nat) T f mx
     (interval_at c f mx i) w (at_iteration url c f mx i)).
Local Abbreviation checked i :=
  {| clock_reads := S (S i);
     requests_made := i;
     trace := cycles url c f mx i |}.

(** The loop, standing at its [i]-th iteration, unfolded once. *)
Lemma loop_at_S fuel i :
  loop_at (S fuel) i =
  if within_deadline w T i then
    match _ensure_format_type format_type with
    | inl e => (checked i, Raise e)
    | inr _ =>
        match obs i with
        | Return r =>
            if pending r then
              match time_sleep w (interval_at c f mx i) with
              | None => loop_at fuel (S i)
              | Some e => (at_iteration url c f mx (S i), Raise e)
              end
            else (after_query url c f mx i, settle r)
        | Raise e => (after_query url c f mx i, Raise e)
        | OutOfFuel => (after_query url c f mx i, OutOfFuel)
        end
    end
  else (checked i, Raise (mk_exn TimeoutError "Conversion timeout" None)).
Proof.
  destruct (within_deadline w T i) eqn:Hd.
  2:{ apply loop_timeout. exact Hd. }
  destruct (_ensure_format_type format_type) as [e|fs] eqn:Hf.
  { exact (loop_bad_format w self task_id format_type (time_time w 0%nat) T f
             mx fuel (interval_at c f mx i) (at_iteration url c f mx i) e
             Hd Hf). }
  destruct (obs i) as [r|e|] eqn:Hr.
  - destruct (pending r) eqn:Hp.
    + rewrite (loop_pending w self task_id format_type (time_time w 0%nat) T f
                 mx fuel (interval_at c f mx i) (at_iteration url c f mx i) r
                 Hd Hr Hp).
      cbn [clock_reads requests_made trace at_iteration].
      rewrite <- app_assoc. cbn [app]. rewrite <- cycles_S.
      destruct (time_sleep w _); reflexivity.
    + exact (loop_settle w self task_id format_type (time_time w 0%nat) T f mx
               fuel (interval_at c f mx i) (at_iteration url c f mx i) r
               Hd Hr Hp).
  - exact (loop_raise w self task_id format_type (time_time w 0%nat) T f mx
             fuel (interval_at c f mx i) (at_iteration url c f mx i) fs e
             Hd Hf Hr).
  - exfalso. eapply poll_result_never_out_of_fuel, Hr.
Qed.

(** The state a run ends in: at the loop condition, after a check that
    stopped it, or after its last query. *)
Lemma loop_at_final fuel :
  ∀ i, ∃ k, (i ≤ k ≤ i + fuel)%nat ∧
    (fst (loop_at fuel i) = at_iteration url c f mx k
     ∨ fst (loop_at fuel i) = checked k
     ∨ fst (loop_at fuel i) = after_query url c f mx k).
Proof.
  induction fuel as [|fuel IH]; intros i.
  { exists i. split; [lia|]. left. reflexivity. }
  rewrite loop_at_S.
  destruct (within_deadline w T i).
  2:{ exists i. split; [lia|]. right; left. reflexivity. }
  destruct (_ensure_format_type format_type) as [e|fs].
  { exists i. split; [lia|]. right; left. reflexivity. }
  destruct (obs i) as [r|e|].
  - destruct (pending r).
    + destruct (time_sleep w _).
      * exists (S i). split; [lia|]. left. reflexivity.
      * destruct (IH (S i)) as (k & Hk & Hcases).
        exists k. split; [lia|exact Hcases].
    + exists i. split; [lia|]. right; right. reflexivity.
  - exists i. split; [lia|]. right; right. reflexivity.
  - exists i. split; [lia|]. right; right. reflexivity.
Qed.

(** A run that returns has gone round the loop some [k] times and then
    observed a status that settles the call with that value. *)
Lemma loop_at_return fuel :
  ∀ i s' v, loop_at fuel i = (s', Return v) →
    ∃ k r, (i ≤ k)%nat
      ∧ s' = after_query url c f mx k
      ∧ (∀ j, (i ≤ j < k)%nat →
           within_deadline w T j = true
           ∧ (∃ r', obs j = Return r' ∧ pending r' = true)
           ∧ time_sleep w (interval_at c f mx j) = None)
      ∧ within_deadline w T k = true
      ∧ obs k = Return r
      ∧ settle r = Return v.
Proof.
  induction fuel as [|fuel IH]; intros i s' v; [discriminate|].
  rewrite loop_at_S.
  destruct (within_deadline w T i) eqn:Hd; [|discriminate].
  destruct (_ensure_format_type format_type) as [e|fs]; [discriminate|].
  destruct (obs i) as [r|e|] eqn:Hr; [|discriminate|discriminate].
  destruct (pending r) eqn:Hp.
  - destruct (time_sleep w _) eqn:Hs; [discriminate|].
    intros Hrun. destruct (IH _ _ _ Hrun) as (k & r' & Hk & Hs' & Hpre & Hrest).
    exists k, r'. split; [lia|]. split; [exact Hs'|]. split; [|exact Hrest].
    intros j Hj. destruct (decide (j = i)) as [->|Hne]; [|apply Hpre; lia].
    eauto.
  - intros [= <- Hv]. exists i, r. split; [lia|]. split; [reflexivity|].
    split; [intros j Hj; lia|]. auto.
Qed.

(** Once a check of the loop condition fails at iteration [n], a run
    started at or before it has ended, with no more than [n] queries. *)
Lemma loop_at_ends fuel :
  ∀ i n, within_deadline w T n = false → (i ≤ n)%nat → (n - i < fuel)%nat →
    snd (loop_at fuel i) ≠ OutOfFuel
    ∧ (requests_made (fst (loop_at fuel i)) ≤ n)%nat
    ∧ loop_at fuel i = loop_at (S (n - i)) i.
Proof.
  induction fuel as [|fuel IH]; intros i n Hn Hi Hfuel; [lia|].
  rewrite !loop_at_S.
  destruct (within_deadline w T i) eqn:Hd.
  2:{ cbn. repeat split; [discriminate|lia]. }
  assert (i < n)%nat as Hlt.
  { destruct (decide (i = n)) as [->|]; [congruence|lia]. }
  destruct (_ensure_format_type format_type) as [e|fs].
  { cbn. repeat split; [discriminate|lia]. }
  destruct (obs i) as [r|e|] eqn:Hr.
  - destruct (pending r).
    + destruct (time_sleep w _).
      * cbn. repeat split; [discriminate|lia].
      * destruct (IH (S i) n Hn ltac:(lia) ltac:(lia)) as (H1 & H2 & H3).
        repeat split; [exact H1|exact H2|].
        rewrite H3. replace (n - i)%nat with (S (n - S i)) by lia. reflexivity.
    + cbn. repeat split; [|lia].
      destruct r as [| | | | | |m]; cbn; try discriminate.
      destruct (eq_str _ "completed"); [|discriminate].
      destruct (if truthy _ then _ else _) as [?|[]]; try discriminate.
      destruct (py_getitem _ _); discriminate.
  - cbn. repeat split; [discriminate|lia].
  - exfalso. eapply poll_result_never_out_of_fuel, Hr.
Qed.

End Run.

End PollerMore.

(** ** The whole call, further *)

Lemma settle_return r v :
  settle r = Return v →
  ∃ m d, r = JObj m
    ∧ m !! "state" = Some (JStr "completed")
    ∧ m !! "data" = Some (JObj d)
    ∧ d !! "downloadURL" = Some v.
Proof.
  destruct r as [| | | | | |m]; cbn; try discriminate.
  destruct (m !! "state") as [[| | | |s| |]|] eqn:Hst; cbn; try discriminate.
  destruct (String.eqb_spec s "completed") as [->|]; [|discriminate].
  destruct (m !! "data") as [[| | | | | |d]|] eqn:Hdata; cbn;
    repeat match goal with
           | |- context [if ?b then _ else _] => destruct b
           end; try discriminate.
  destruct (d !! "downloadURL") as [x|] eqn:Hx; [|discriminate].
  intros [= <-]. eauto 10.
Qed.

Section PollerExtras.
Context {num : Type} `{!PyFloat num} `{!Enums num}.

Variables (w : World num) (self : PDFCraftClient) (task_id : string).
Variables (format_type : format_arg).
Variables (max_wait_ms check_interval_ms max_check_interval_ms : Z).
Variable (backoff_factor : backoff_arg num).

Local Abbreviation url := (result_url self task_id format_type).
Local Abbreviation obs := (poll_result w self task_id format_type).
Local Abbreviation run fuel :=
  (wait_for_completion fuel self task_id format_type max_wait_ms
     check_interval_ms max_check_interval_ms backoff_factor w initial).

Lemma run_settles T f c mx k r fuel :
  settings max_wait_ms check_interval_ms max_check_interval_ms backoff_factor
    = Some (T, f, c, mx) →
  pending_prefix w self task_id format_type T f c mx k →
  within_deadline w T k = true →
  obs k = Return r →
  pending r = false →
  (k < fuel)%nat →
  run fuel = (after_query url c f mx k, settle r).
Proof.
  intros Hset Hp Hd Hr Hnp Hk.
  replace fuel with (k + S (fuel - S k))%nat by lia.
  rewrite (wait_for_completion_reaches _ _ _ _ _ _ _ _ _ _ _ _ _ _ Hset Hp).
  exact (loop_settle w self task_id format_type (time_time w 0%nat) T f mx
           _ _ (at_iteration url c f mx k) r Hd Hr Hnp).
Qed.

(** X1.  A status query that fails ends the call at once.  When the [k]-th
    query, issued within the deadline after [k] pending polls, is not
    answered with a usable status, [wait_for_completion] raises right after
    that query, without suspending and without asking again: the exception
    of the transport itself; an [APIError] quoting the body when the body is
    not JSON (whatever the status code); an [APIError] with the status code
    when the status is a 4xx or 5xx one. *)
Theorem wait_for_completion_does_not_retry_a_failed_query T f c mx k fs fuel :
  settings max_wait_ms check_interval_ms max_check_interval_ms backoff_factor
    = Some (T, f, c, mx) →
  _ensure_format_type format_type = inr fs →
  pending_prefix w self task_id format_type T f c mx k →
  within_deadline w T k = true →
  (k < fuel)%nat →
  (∀ e, requests_get w k url = inl e →
     run fuel = (after_query url c f mx k, Raise e))
  ∧ (∀ resp, requests_get w k url = inr resp → json_body resp = None →
       run fuel =
       (after_query url c f mx k,
        Raise (mk_exn APIError ("Invalid JSON response: " +:+ text resp) None)))
  ∧ (∀ resp r, requests_get w k url = inr resp → json_body resp = Some r →
       ok resp = false →
       run fuel =
       (after_query url c f mx k,
        Raise (mk_exn APIError
                 ("HTTP " +:+ pretty (status_code resp) +:+ ": " +:+ text resp)
                 None))).
Proof.
  intros Hset Hf Hp Hd Hk.
  assert (∀ e, obs k = Raise e →
            run fuel = (after_query url c f mx k, Raise e)) as Hraise.
  { intros e He.
    replace fuel with (k + S (fuel - S k))%nat by lia.
    rewrite (wait_for_completion_reaches _ _ _ _ _ _ _ _ _ _ _ _ _ _ Hset Hp).
    exact (loop_raise w self task_id format_type (time_time w 0%nat) T f mx
             _ _ (at_iteration url c f mx k) fs e Hd Hf He). }
  pose proof (poll_result_transport w self task_id format_type k fs Hf) as Hobs.
  split; [|split].
  - intros e He. apply Hraise. rewrite Hobs, He. reflexivity.
  - intros resp Hresp Hbody. apply Hraise. rewrite Hobs, Hresp, Hbody.
    reflexivity.
  - intros resp r Hresp Hbody Hok. apply Hraise.
    rewrite Hobs, Hresp, Hbody, Hok. reflexivity.
Qed.

(** X2.  Whatever [wait_for_completion] returns is the [downloadURL] of a
    completed status it was served: a call that returns [v] has observed [k]
    pending statuses, each within the deadline and followed by a suspension
    that returned, and then, still within the deadline, a dictionary whose
    state is ["completed"] and whose ["data"] is a dictionary holding [v]
    under ["downloadURL"]; that query is its last event. *)
Theorem wait_for_completion_returns_only_a_served_download_url T f c mx fuel v :
  settings max_wait_ms check_interval_ms max_check_interval_ms backoff_factor
    = Some (T, f, c, mx) →
  snd (run fuel) = Return v →
  ∃ k m d,
    fst (run fuel) = after_query url c f mx k
    ∧ pending_prefix w self task_id format_type T f c mx k
    ∧ within_deadline w T k = true
    ∧ obs k = Return (JObj m)
    ∧ m !! "state" = Some (JStr "completed")
    ∧ m !! "data" = Some (JObj d)
    ∧ d !! "downloadURL" = Some v.
Proof.
  intros Hset. rewrite wait_for_completion_settings, Hset.
  destruct (poll_loop _ _ _ _ _ _ _ _ _ _ _) as [s' o] eqn:Hrun.
  cbn [snd fst]. intros ->.
  destruct (loop_at_return w self task_id format_type T f c mx fuel 0 s' v Hrun)
    as (k & r & _ & -> & Hpre & Hd & Hr & Hv).
  destruct (settle_return r v Hv) as (m & d & -> & Hst & Hdata & Hurl).
  exists k, m, d. repeat split; try assumption.
  - apply Hpre. lia.
  - apply Hpre. lia.
  - apply Hpre. lia.
Qed.

(** X3.  A status that is JSON but not an object (a list, a string, a
    number, [null]) makes the call raise [AttributeError] right after the
    query: [result.get] is the first thing done with it. *)
Theorem wait_for_completion_rejects_a_status_that_is_no_object
    T f c mx k r fuel :
  settings max_wait_ms check_interval_ms max_check_interval_ms backoff_factor
    = Some (T, f, c, mx) →
  pending_prefix w self task_id format_type T f c mx k →
  within_deadline w T k = true →
  obs k = Return r →
  (∀ m, r ≠ JObj m) →
  (k < fuel)%nat →
  run fuel =
  (after_query url c f mx k,
   Raise (mk_exn AttributeError "object has no attribute 'get'" None)).
Proof.
  intros Hset Hp Hd Hr Hno Hk.
  rewrite (run_settles T f c mx k r fuel Hset Hp Hd Hr); [|  |exact Hk].
  - destruct r; try reflexivity. exfalso. eapply Hno. reflexivity.
  - destruct r; try reflexivity. exfalso. eapply Hno. reflexivity.
Qed.

(** X4.  A completed status whose ["data"] is truthy but not a dictionary
    never yields a result.  The call raises right after the query: a
    [TypeError] when the data is a number or [true], or a string or list in
    which ["downloadURL"] occurs (the membership test passes, the subscript
    fails); the [APIError] of a missing payload otherwise. *)
Theorem wait_for_completion_completed_with_data_that_is_no_dictionary
    T f c mx k m d fuel :
  settings max_wait_ms check_interval_ms max_check_interval_ms backoff_factor
    = Some (T, f, c, mx) →
  pending_prefix w self task_id format_type T f c mx k →
  within_deadline w T k = true →
  obs k = Return (JObj m) →
  m !! "state" = Some (JStr "completed") →
  m !! "data" = Some d →
  truthy d = true →
  (∀ o, d ≠ JObj o) →
  (k < fuel)%nat →
  ∃ e,
    run fuel = (after_query url c f mx k, Raise e)
    ∧ exn_class_of e =
      match py_in "downloadURL" d with
      | inr false => APIError
      | _ => TypeError
      end.
Proof.
  intros Hset Hp Hd Hr Hst Hdata Htruthy Hno Hk.
  rewrite (run_settles T f c mx k (JObj m) fuel Hset Hp Hd Hr);
    [|cbn; rewrite Hst; reflexivity|exact Hk].
  cbn. rewrite Hst, Hdata. cbn. rewrite Htruthy.
  destruct d as [| | | | | |o]; cbn in *; try discriminate;
    try (eexists; split; reflexivity).
  - destruct (str_contains "downloadURL" s); eexists; split; reflexivity.
  - destruct (existsb _ l); eexists; split; reflexivity.
  - exfalso. eapply Hno. reflexivity.
Qed.

(** X5.  The call ends by the first failed check of the loop condition.  If
    the [n]-th evaluation of the loop condition finds the deadline passed,
    then every run with more than [n] iterations of fuel has ended (it
    returned or raised), has issued at most [n] queries, and all such runs
    coincide. *)
Theorem wait_for_completion_ends_by_the_first_failed_check T f c mx n fuel :
  settings max_wait_ms check_interval_ms max_check_interval_ms backoff_factor
    = Some (T, f, c, mx) →
  within_deadline w T n = false →
  (n < fuel)%nat →
  snd (run fuel) ≠ OutOfFuel
  ∧ (requests_made (fst (run fuel)) ≤ n)%nat
  ∧ run fuel = run (S n).
Proof.
  intros Hset Hn Hfuel. rewrite !wait_for_completion_settings, Hset.
  destruct (loop_at_ends w self task_id format_type T f c mx fuel 0 n Hn
              ltac:(lia) ltac:(lia)) as (H1 & H2 & H3).
  rewrite Nat.sub_0_r in H3. auto.
Qed.

(** X6.  Counters and endpoint.  In every run, every request is a GET of the
    one status URL of the task; the clock has been read once more than
    requests were made, or twice more when the last check stopped the call;
    and there are as many suspensions as requests, or one less. *)
Theorem wait_for_completion_polls_one_url fuel :
  let s := fst (run fuel) in
  queries_of (trace s) = replicate (requests_made s) url
  ∧ (requests_made s < clock_reads s ≤ requests_made s + 2)%nat
  ∧ (length (sleeps_of (trace s)) ≤ requests_made s
     ≤ S (length (sleeps_of (trace s))))%nat.
Proof.
  cbv zeta. rewrite wait_for_completion_settings.
  destruct (settings _ _ _ _) as [[[[T f] c] mx]|].
  2:{ cbn. split; [reflexivity|lia]. }
  destruct (loop_at_final w self task_id format_type T f c mx fuel 0)
    as (k & _ & [Hs|[Hs|Hs]]);
    cbn [interval_at] in Hs; rewrite Hs;
    cbn [trace requests_made clock_reads at_iteration after_query].
  - rewrite queries_of_cycles, sleeps_of_cycles, length_map, length_seq.
    split; [reflexivity|lia].
  - rewrite queries_of_cycles, sleeps_of_cycles, length_map, length_seq.
    split; [reflexivity|lia].
  - unfold queries_of, sleeps_of. rewrite !omap_app.
    fold (queries_of (cycles url c f mx k)).
    fold (sleeps_of (cycles url c f mx k)).
    rewrite queries_of_cycles, sleeps_of_cycles, length_app, length_map,
      length_seq.
    rewrite replicate_S_end. cbn. split; [reflexivity|lia].
Qed.

(** X7.  Arguments that cannot be used never reach the network.  An [int]
    argument too large for a float raises [OverflowError] right after the
    first reading of the clock.  A [format_type] string that is not a format
    is only noticed inside the loop: the call raises the [ValueError] if the
    deadline is ahead at the first check, and [TimeoutError] if it is not.
    Either way no request is made and nothing is suspended. *)
Theorem wait_for_completion_argument_errors :
  (settings max_wait_ms check_interval_ms max_check_interval_ms backoff_factor
     = None →
   ∀ fuel,
     run fuel =
     ({| clock_reads := 1; requests_made := 0; trace := [] |},
      Raise (mk_exn OverflowError "int too large to convert to float" None)))
  ∧ (∀ T f c mx e fuel,
       settings max_wait_ms check_interval_ms max_check_interval_ms
         backoff_factor = Some (T, f, c, mx) →
       _ensure_format_type format_type = inl e →
       (0 < fuel)%nat →
       run fuel =
       ({| clock_reads := 2; requests_made := 0; trace := [] |},
        Raise (if within_deadline w T 0 then e
               else mk_exn TimeoutError "Conversion timeout" None))).
Proof.
  split.
  - intros Hset fuel. rewrite wait_for_completion_settings, Hset. reflexivity.
  - intros T f c mx e fuel Hset Hf Hfuel.
    rewrite wait_for_completion_settings, Hset.
    destruct fuel as [|fuel]; [lia|].
    pose proof (loop_at_S w self task_id format_type T f c mx fuel 0) as Hstep.
    cbn [interval_at] in Hstep. rewrite Hstep, Hf.
    destruct (within_deadline w T 0); reflexivity.
Qed.

End PollerExtras.

(** ** The schedule of suspensions, further *)

(** With a comparison under which nothing is below itself, no interval
    after the initial one is above the maximum. *)
Lemma interval_at_capped {num : Type} `{!PyFloat num} (c f mx : num) (i : nat) :
  (∀ x : num, fltb x x = false) →
  fltb mx (interval_at c f mx (S i)) = false.
Proof.
  intros Hirr. cbn [interval_at]. unfold py_min.
  destruct (fltb mx (fmul (interval_at c f mx i) f)) eqn:E;
    [apply Hirr|exact E].
Qed.

Lemma SFcompare_refl x : SFltb x x = false.
Proof.
  unfold SFltb.
  destruct x as [s|s| |s m e]; cbn;
    try solve [ repeat match goal with s : bool |- _ => destruct s end;
                reflexivity ].
  rewrite Z.compare_refl.
  change (Pos.compare_cont Eq m m) with (Pos.compare m m).
  rewrite Pos.compare_refl. destruct s; reflexivity.
Qed.

Lemma Q_fltb_le (x y : Q) : @fltb Q Rational x y = false ↔ (y <= x)%Q.
Proof.
  cbn. rewrite negb_false_iff. apply Qle_bool_iff.
Qed.

(** X8.  No suspension after the first one is longer than
    [max_check_interval_ms / 1000.0] seconds: on binary64 floats none is
    above it, and on rationals each is at most that long.  (The first
    suspension lasts [check_interval_ms / 1000.0] whatever the maximum is.) *)
Theorem later_suspensions_are_capped :
  (∀ (E : Enums float) (w : World float) self task_id format_type
     max_wait_ms check_interval_ms max_check_interval_ms backoff_factor
     T f c mx fuel i d,
     settings max_wait_ms check_interval_ms max_check_interval_ms
       backoff_factor = Some (T, f, c, mx) →
     sleeps_of
       (trace (fst (wait_for_completion fuel self task_id format_type
                      max_wait_ms check_interval_ms max_check_interval_ms
                      backoff_factor w initial))) !! S i = Some d →
     (mx <? d)%float = false)
  ∧ (∀ (E : Enums Q) (w : World Q) self task_id format_type
       max_wait_ms check_interval_ms max_check_interval_ms backoff_factor
       T f c mx fuel i d,
       settings max_wait_ms check_interval_ms max_check_interval_ms
         backoff_factor = Some (T, f, c, mx) →
       sleeps_of
         (trace (fst (wait_for_completion fuel self task_id format_type
                        max_wait_ms check_interval_ms max_check_interval_ms
                        backoff_factor w initial))) !! S i = Some d →
       (d <= mx)%Q).
Proof.
  split.
  - intros E w self task_id format_type mw ci mci bf T f c mx fuel i d Hset.
    destruct (wait_for_completion_sleeps fuel self task_id format_type
                mw ci mci bf w T f c mx Hset) as [n ->].
    rewrite list_lookup_fmap.
    destruct (seq 0 n !! S i) as [j|] eqn:Hj; [|discriminate].
    apply lookup_seq in Hj as [-> _]. cbn [fmap option_fmap option_map].
    intros [= <-].
    apply (interval_at_capped (PyFloat0 := Float64)).
    intros x. cbn. rewrite FloatAxioms.ltb_spec. apply SFcompare_refl.
  - intros E w self task_id format_type mw ci mci bf T f c mx fuel i d Hset.
    destruct (wait_for_completion_sleeps fuel self task_id format_type
                mw ci mci bf w T f c mx Hset) as [n ->].
    rewrite list_lookup_fmap.
    destruct (seq 0 n !! S i) as [j|] eqn:Hj; [|discriminate].
    apply lookup_seq in Hj as [-> _]. cbn [fmap option_fmap option_map].
    intros [= <-].
    apply Q_fltb_le.
    apply (interval_at_capped (PyFloat0 := Rational)).
    intros x. apply Q_fltb_le. apply Qle_refl.
Qed.




(** * Properties of the other methods of [PDFCraftClient] *)

(** ** [_ensure_format_type] and [get_conversion_result] *)

(** X10.  [_ensure_format_type] accepts exactly the values of [FormatType]:
    what it returns is the value of a member; a member and its value string
    give the same result; what it returns is accepted again unchanged; and
    any other string (a different case, say) raises [ValueError]. *)
Theorem ensure_format_type_accepts_exactly_the_format_values :
  (∀ a s, _ensure_format_type a = inr s → ∃ t, s = FormatType_value t)
  ∧ (∀ t, _ensure_format_type (FormatEnum t) = inr (FormatType_value t)
          ∧ _ensure_format_type (FormatStr (FormatType_value t))
            = inr (FormatType_value t))
  ∧ (∀ a s, _ensure_format_type a = inr s →
            _ensure_format_type (FormatStr s) = inr s)
  ∧ (∀ s, (∀ t, s ≠ FormatType_value t) →
          ∃ e, _ensure_format_type (FormatStr s) = inl e
               ∧ exn_class_of e = ValueError).
Proof.
  assert (∀ s, _ensure_format_type (FormatStr s) = inr s
               ∨ (∃ e, _ensure_format_type (FormatStr s) = inl e
                       ∧ exn_class_of e = ValueError)) as Hstr.
  { intros s. cbn.
    destruct (bool_decide (s ∈ ["markdown"; "epub"])); cbn; eauto. }
  assert (∀ s s', _ensure_format_type (FormatStr s) = inr s' →
                  s' = s ∧ ∃ t, s = FormatType_value t) as Hinv.
  { intros s s'. cbn.
    destruct (bool_decide (s ∈ ["markdown"; "epub"])) eqn:E; cbn;
      [|discriminate].
    intros [= <-]. split; [reflexivity|].
    apply bool_decide_eq_true in E.
    apply elem_of_cons in E as [->|E]; [exists MARKDOWN; reflexivity|].
    apply elem_of_cons in E as [->|E]; [exists EPUB; reflexivity|].
    apply elem_of_nil in E. contradiction. }
  split; [|split; [|split]].
  - intros [t|s] s'.
    + intros [= <-]. eauto.
    + intros H. destruct (Hinv s s' H) as [-> Ht]. exact Ht.
  - intros []; split; reflexivity.
  - intros [t|s] s'.
    + intros [= <-]. destruct t; reflexivity.
    + intros H. destruct (Hinv s s' H) as [-> _]. exact H.
  - intros s Hno. destruct (Hstr s) as [H|H]; [|exact H].
    destruct (Hinv s s H) as [_ [t ->]]. exfalso. eapply Hno. reflexivity.
Qed.

(** X11.  One call of [get_conversion_result], in any state.  It never reads
    the clock and never suspends.  With a [format_type] that is not a format
    it raises the [ValueError] and sends nothing.  Otherwise it sends
    exactly one GET, to
    [{base_url}/pdf-transform-{format}/result/{task_id}], and it returns the
    decoded body exactly when the transport answered, the body is JSON and
    the status is not a 4xx or 5xx one; a body that is not JSON, or such a
    status, raises [APIError]. *)
Theorem get_conversion_result_sends_one_get {num : Type} `{!PyFloat num}
    `{!Enums num} (w : World num) self task_id format_type (s : Machine num) :
  let s' := fst (get_conversion_result self task_id format_type w s) in
  let o := snd (get_conversion_result self task_id format_type w s) in
  clock_reads s' = clock_reads s
  ∧ sleeps_of (trace s') = sleeps_of (trace s)
  ∧ match _ensure_format_type format_type with
    | inl e => s' = s ∧ o = Raise e ∧ exn_class_of e = ValueError
    | inr fs =>
        let url :=
          base_url self +:+ "/pdf-transform-" +:+ fs +:+ "/result/"
            +:+ task_id in
        requests_made s' = S (requests_made s)
        ∧ trace s' = trace s ++ [EGet url]
        ∧ (∀ r, o = Return r ↔
                ∃ resp, requests_get w (requests_made s) url = inr resp
                        ∧ json_body resp = Some r
                        ∧ ok resp = true)
        ∧ (∀ resp, requests_get w (requests_made s) url = inr resp →
                   json_body resp = None ∨ ok resp = false →
                   ∃ e, o = Raise e ∧ exn_class_of e = APIError)
    end.
Proof.
  cbv zeta. rewrite get_conversion_result_run.
  destruct (_ensure_format_type format_type) as [e|fs] eqn:Hf.
  { cbn. repeat split.
    destruct format_type as [t|x]; [discriminate|].
    cbn in Hf. destruct (bool_decide _) in Hf; cbn in Hf; [discriminate|].
    injection Hf as <-. reflexivity. }
  cbn [fst snd clock_reads requests_made trace].
  rewrite (poll_result_transport w self task_id format_type _ fs Hf).
  unfold result_url. rewrite Hf.
  split; [reflexivity|]. split.
  { unfold sleeps_of. rewrite omap_app. cbn. apply app_nil_r. }
  split; [reflexivity|]. split; [reflexivity|]. split.
  - intros r. split.
    + destruct (requests_get w _ _) as [e|resp]; [discriminate|].
      destruct (json_body resp) as [r'|] eqn:Hb; [|discriminate].
      destruct (ok resp) eqn:Hok; [|discriminate].
      intros [= <-]. eauto.
    + intros (resp & -> & -> & ->). reflexivity.
  - intros resp -> [Hb|Hok].
    + rewrite Hb. eauto.
    + destruct (json_body resp); [rewrite Hok|]; eauto.
Qed.

(** ** The constructor *)

Lemma string_app_cons (a : Ascii.ascii) (s t : string) :
  String a s +:+ t = String a (s +:+ t).
Proof. reflexivity. Qed.

Lemma string_app_nil (t : string) : "" +:+ t = t.
Proof. reflexivity. Qed.

Lemma run_of_app c n m : run_of c (n + m) = run_of c n +:+ run_of c m.
Proof.
  induction n as [|n IH]; [reflexivity|].
  cbn [run_of Nat.add]. rewrite string_app_cons, IH. reflexivity.
Qed.

Lemma string_app_assoc (a b c : string) : (a +:+ b) +:+ c = a +:+ (b +:+ c).
Proof.
  induction a as [|x a IH]; [reflexivity|].
  rewrite !string_app_cons, IH. reflexivity.
Qed.

Lemma rstrip_run_of c n : rstrip c (run_of c n) = "".
Proof.
  induction n as [|n IH]; cbn; [reflexivity|].
  rewrite IH, Ascii.eqb_refl. reflexivity.
Qed.

(** [rstrip] removes a run of [c] and leaves a string that does not end
    in [c]. *)
Lemma rstrip_spec c s :
  ends_with c (rstrip c s) = false ∧ ∃ n, s = rstrip c s +:+ run_of c n.
Proof.
  induction s as [|a s [IHe [n IHn]]]; cbn [rstrip].
  { split; [reflexivity|]. exists 0%nat. reflexivity. }
  destruct (rstrip c s) as [|b r] eqn:E.
  - rewrite string_app_nil in IHn.
    destruct (Ascii.eqb_spec a c) as [->|Hne].
    + split; [reflexivity|]. exists (S n). rewrite IHn. reflexivity.
    + split.
      * cbn. apply Ascii.eqb_neq. exact Hne.
      * exists n. rewrite IHn. reflexivity.
  - split; [exact IHe|]. exists n.
    rewrite string_app_cons, <- IHn. reflexivity.
Qed.

(** A string that does not end in [c], followed by a run of [c], is
    stripped back to itself. *)
Lemma rstrip_unique c p n :
  ends_with c p = false → rstrip c (p +:+ run_of c n) = p.
Proof.
  induction p as [|a p IH].
  { intros _. apply rstrip_run_of. }
  rewrite string_app_cons. cbn [rstrip].
  destruct p as [|b r].
  - cbn [ends_with]. intros Hne.
    rewrite string_app_nil, rstrip_run_of, Hne. reflexivity.
  - intros He. rewrite IH by exact He. reflexivity.
Qed.

Lemma rstrip_trailing c s n : rstrip c (s +:+ run_of c n) = rstrip c s.
Proof.
  destruct (rstrip_spec c s) as [He [m Hm]].
  rewrite Hm at 1. rewrite string_app_assoc, <- run_of_app.
  apply rstrip_unique, He.
Qed.

(** X12.  The URLs a client is built with never end in a slash.  [__init__]
    removes every trailing slash (and nothing else) from [base_url] and from
    [batch_base_url], so arguments that differ only in trailing slashes
    build the same client; an absent or empty [batch_base_url] is replaced
    by the default; but the default is chosen before the stripping, so a
    [batch_base_url] made of slashes only leaves an empty one. *)
Theorem init_strips_the_trailing_slashes (key u : string) (b : option string) :
  let self := __init__ key u b in
  ends_with "/" (base_url self) = false
  ∧ ends_with "/" (batch_base_url self) = false
  ∧ (∃ n, u = base_url self +:+ run_of "/" n)
  ∧ (∀ n, __init__ key (u +:+ run_of "/" n) b = self)
  ∧ (b = None ∨ b = Some "" →
     batch_base_url self = "https://pdf-server.oomol.com/api/v1/conversion")
  ∧ (∀ v, b = Some v → v ≠ "" →
       (∃ n, v = batch_base_url self +:+ run_of "/" n)
       ∧ ∀ n, __init__ key u (Some (v +:+ run_of "/" n)) = self)
  ∧ (∀ n, b = Some (run_of "/" (S n)) → batch_base_url self = "").
Proof.
  cbv zeta. unfold __init__. cbn [poller_view base_url batch_base_url].
  split; [apply rstrip_spec|]. split; [apply rstrip_spec|].
  split; [apply rstrip_spec|]. split.
  { intros n. rewrite rstrip_trailing. reflexivity. }
  split.
  { intros [->| ->]; reflexivity. }
  split.
  - intros v -> Hv.
    destruct (String.eqb_spec v "") as [->|_]; [congruence|].
    split; [apply rstrip_spec|].
    intros n.
    destruct (String.eqb_spec (v +:+ run_of "/" n) "") as [Hempty|_].
    + exfalso. destruct v; [congruence|].
      rewrite string_app_cons in Hempty. discriminate.
    + rewrite rstrip_trailing. reflexivity.
  - intros n ->. change (run_of "/" (S n) =? "")%string with false.
    apply rstrip_run_of.
Qed.

(** ** [submit_conversion] *)

Section Submission.
Variables (self : PDFCraftClientObject) (pdf_url : string).
Variables (format_type : format_arg) (model : string).
Variables (includes_footnotes ignore_pdf_errors ignore_ocr_errors : bool).

Local Abbreviation submit :=
  (submit_conversion self pdf_url format_type model includes_footnotes
     ignore_pdf_errors ignore_ocr_errors).
Local Abbreviation submission fs :=
  {| req_method := POST;
     req_url := base_url self +:+ "/pdf-transform-" +:+ fs +:+ "/submit";
     req_json :=
       Some (JObj {[ "pdfURL" := JStr pdf_url;
                     "model" := JStr model;
                     "includesFootnotes" := JBool includes_footnotes;
                     "ignorePDFErrors" := JBool ignore_pdf_errors;
                     "ignoreOCRErrors" := JBool ignore_ocr_errors ]});
     req_headers := headers self |}.

(** The call, read off the answer of the transport. *)
Lemma submit_conversion_run (requests : Transport) :
  submit requests [] =
  match _ensure_format_type format_type with
  | inl e => ([], inl e)
  | inr fs =>
      ([submission fs],
       match requests 0%nat (submission fs) with
       | inl e => inl e
       | inr resp =>
           match json_body resp with
           | None =>
               inl (mk_exn APIError
                      ("Invalid JSON response: " +:+ text resp) None)
           | Some result =>
               if ok resp then
                 match result with
                 | JObj m =>
                     if truthy (default JNull (m !! "success")) then
                       match m !! "sessionID" with
                       | Some v => inr v
                       | None => inl (mk_exn KeyError "sessionID" None)
                       end
                     else
                       inl (mk_exn APIError "Failed to submit task: "
                              (Some (default (JStr "Unknown error")
                                       (m !! "error"))))
                 | _ =>
                     inl (mk_exn AttributeError
                            "object has no attribute 'get'" None)
                 end
               else
                 inl (mk_exn APIError
                        ("HTTP " +:+ pretty (status_code resp) +:+ ": "
                           +:+ text resp) None)
           end
       end)
  end.
Proof.
  unfold submit_conversion, decoded.
  unfold R_bind, R_lift, requests_post, send, R_ret, R_raise.
  destruct (_ensure_format_type format_type) as [e|fs]; [reflexivity|].
  cbn [length app].
  destruct (requests 0%nat _) as [e|resp]; [reflexivity|].
  destruct (json_body resp) as [result|]; [|reflexivity].
  destruct (ok resp); cbn [negb]; [|reflexivity].
  destruct result as [| | | | | |m]; try reflexivity.
  cbn [py_get].
  destruct (truthy (default JNull (m !! "success"))); [|reflexivity].
  cbn [py_getitem]. destruct (m !! "sessionID"); reflexivity.
Qed.

(** X13.  [submit_conversion] validates before it sends, and sends once.
    With a [format_type] that is not a format it raises [ValueError] and
    sends nothing.  Otherwise, whatever the transport answers, it sends
    exactly one request: a POST to
    [{base_url}/pdf-transform-{format}/submit] with the headers of the
    client and a JSON body of exactly five entries that carry the arguments
    unchanged; and an exception of the transport is raised as it is. *)
Theorem submit_conversion_sends_one_post (requests : Transport) :
  match _ensure_format_type format_type with
  | inl e =>
      submit requests [] = ([], inl e) ∧ exn_class_of e = ValueError
  | inr fs =>
      fst (submit requests []) = [submission fs]
      ∧ (∃ body, req_json (submission fs) = Some (JObj body)
           ∧ base.size body = 5%nat
           ∧ body !! "pdfURL" = Some (JStr pdf_url)
           ∧ body !! "model" = Some (JStr model)
           ∧ body !! "includesFootnotes" = Some (JBool includes_footnotes)
           ∧ body !! "ignorePDFErrors" = Some (JBool ignore_pdf_errors)
           ∧ body !! "ignoreOCRErrors" = Some (JBool ignore_ocr_errors))
      ∧ (∀ e, requests 0%nat (submission fs) = inl e →
           snd (submit requests []) = inl e)
  end.
Proof.
  rewrite submit_conversion_run.
  destruct (_ensure_format_type format_type) as [e|fs] eqn:Hf.
  { split; [reflexivity|].
    destruct format_type as [t|x]; [discriminate|].
    cbn in Hf. destruct (bool_decide _) in Hf; cbn in Hf; [discriminate|].
    injection Hf as <-. reflexivity. }
  split; [reflexivity|]. split.
  - eexists. split; [reflexivity|].
    split; [|repeat split; reflexivity].
    rewrite !map_size_insert, map_size_singleton.
    repeat (rewrite lookup_insert_ne by discriminate).
    rewrite lookup_singleton_ne by discriminate.
    repeat (rewrite ?lookup_insert_ne, ?lookup_singleton_ne by discriminate).
    reflexivity.
  - intros e ->. reflexivity.
Qed.

(** X14.  What [submit_conversion] makes of the answer.  It returns [v]
    exactly when the status is not a 4xx or 5xx one and the body is a JSON
    object with a truthy ["success"] and [v] under ["sessionID"].  A truthy
    ["success"] without a ["sessionID"] raises [KeyError], not [APIError]; a
    ["success"] that is absent or falsy raises an [APIError] with the
    ["error"] of the body, ['Unknown error'] when it has none. *)
Theorem submit_conversion_outcome (requests : Transport) fs resp :
  _ensure_format_type format_type = inr fs →
  requests 0%nat (submission fs) = inr resp →
  (∀ v, snd (submit requests []) = inr v ↔
        ok resp = true
        ∧ ∃ m, json_body resp = Some (JObj m)
               ∧ truthy (default JNull (m !! "success")) = true
               ∧ m !! "sessionID" = Some v)
  ∧ (∀ m, json_body resp = Some (JObj m) → ok resp = true →
       truthy (default JNull (m !! "success")) = true →
       m !! "sessionID" = None →
       snd (submit requests []) = inl (mk_exn KeyError "sessionID" None))
  ∧ (∀ m, json_body resp = Some (JObj m) → ok resp = true →
       truthy (default JNull (m !! "success")) = false →
       snd (submit requests []) =
       inl (mk_exn APIError "Failed to submit task: "
              (Some (default (JStr "Unknown error") (m !! "error"))))).
Proof.
  intros Hf Hresp. rewrite submit_conversion_run, Hf. cbn [snd].
  rewrite Hresp. split; [|split].
  - intros v. split.
    + destruct (json_body resp) as [[| | | | | |m]|]; try discriminate;
        destruct (ok resp); try discriminate.
      destruct (truthy _) eqn:Ht; [|discriminate].
      destruct (m !! "sessionID") as [x|] eqn:Hx; [|discriminate].
      intros [= <-]. eauto 10.
    + intros (-> & m & -> & -> & ->). reflexivity.
  - intros m -> -> -> ->. reflexivity.
  - intros m -> -> ->. reflexivity.
Qed.

End Submission.

(** ** [convert] *)

(** Every request of a run of the poller is a GET of the status URL. *)
Lemma wait_for_completion_queries {num : Type} `{!PyFloat num} `{!Enums num}
    (w : World num) self task_id format_type max_wait_ms check_interval_ms
    max_check_interval_ms backoff_factor fuel :
  let s :=
    fst (wait_for_completion fuel self task_id format_type max_wait_ms
           check_interval_ms max_check_interval_ms backoff_factor w initial) in
  queries_of (trace s)
  = replicate (requests_made s) (result_url self task_id format_type).
Proof.
  cbv zeta. rewrite wait_for_completion_settings.
  destruct (settings _ _ _ _) as [[[[T f] c] mx]|]; [|reflexivity].
  destruct (loop_at_final w self task_id format_type T f c mx fuel 0)
    as (k & _ & [Hs|[Hs|Hs]]);
    cbn [interval_at] in Hs; rewrite Hs;
    cbn [trace requests_made at_iteration after_query].
  - apply queries_of_cycles.
  - apply queries_of_cycles.
  - unfold queries_of. rewrite omap_app.
    fold (queries_of (cycles (result_url self task_id format_type) c f mx k)).
    rewrite queries_of_cycles, replicate_S_end. reflexivity.
Qed.

(** On binary64 floats, a wait that is not positive is over at the first
    check. *)
Lemma non_positive_wait_float (E : Enums float) (w : World float)
    self task_id format_type max_wait_ms check_interval_ms
    max_check_interval_ms backoff_factor T f c mx fuel :
  max_wait_ms <= 0 →
  settings max_wait_ms check_interval_ms max_check_interval_ms backoff_factor
    = Some (T, f, c, mx) →
  (time_time w 0%nat <=? time_time w 1%nat)%float = true →
  (0 < fuel)%nat →
  wait_for_completion fuel self task_id format_type max_wait_ms
    check_interval_ms max_check_interval_ms backoff_factor w initial
  = ({| clock_reads := 2; requests_made := 0; trace := [] |},
     Raise (mk_exn TimeoutError "Conversion timeout" None)).
Proof.
  intros Hmw Hset Hclock Hfuel.
  rewrite wait_for_completion_settings, Hset.
  destruct (settings_inv _ _ _ _ _ _ _ _ Hset) as (HT & _ & _).
  change (@of_int float Float64) with float_of_int in HT.
  destruct (float_of_int max_wait_ms) as [x|] eqn:Hx; [|discriminate].
  cbn in HT. injection HT as <-.
  destruct fuel as [|fuel]; [lia|].
  apply (loop_timeout (PyFloat0 := Float64)).
  apply elapsed_not_below; [exact Hclock|].
  eapply float_of_int_not_positive; eassumption.
Qed.

Section Conversion.
Context {num : Type} `{!PyFloat num} `{!Enums num}.
Variable (py_str : json -> string).
Variables (self : PDFCraftClientObject) (pdf_url : string).
Variables (format_type : format_arg) (model : string).
Variables (includes_footnotes ignore_pdf_errors ignore_ocr_errors : bool).
Variables (max_wait_ms check_interval_ms max_check_interval_ms : Z).
Variable (backoff_factor : backoff_arg num).
Variables (requests : Transport) (w : World num).

Local Abbreviation submitted :=
  (submit_conversion self pdf_url format_type model includes_footnotes
     ignore_pdf_errors ignore_ocr_errors requests []).
Local Abbreviation conv fuel wait :=
  (convert py_str fuel self pdf_url format_type model includes_footnotes
     ignore_pdf_errors ignore_ocr_errors wait max_wait_ms check_interval_ms
     max_check_interval_ms backoff_factor requests w).
Local Abbreviation waited fuel task_id :=
  (wait_for_completion fuel self task_id format_type max_wait_ms
     check_interval_ms max_check_interval_ms backoff_factor w initial).


(** X16.  With [wait=True], [convert] waits for the job it submitted, and
    for no other.  When the submission returns an id, the call ends as
    [wait_for_completion] does for that id (a string as it is, any other
    value through [str()]) with the same [format_type] and polling
    arguments; and every status query goes to
    [{base_url}/pdf-transform-{format}/result/{id}], for the format the job
    was submitted with. *)
Theorem convert_waits_for_the_submitted_job fuel fs v :
  _ensure_format_type format_type = inr fs →
  snd submitted = inr v →
  let task_id := interpolate py_str v in
  conv fuel true
  = (fst submitted, fst (waited fuel task_id), snd (waited fuel task_id))
  ∧ (∀ s, v = JStr s → task_id = s)
  ∧ queries_of (trace (snd (fst (conv fuel true))))
    = replicate (requests_made (snd (fst (conv fuel true))))
        (base_url self +:+ "/pdf-transform-" +:+ fs +:+ "/result/"
           +:+ task_id)
  ∧ ∃ rq, fst submitted = [rq]
          ∧ req_url rq
            = base_url self +:+ "/pdf-transform-" +:+ fs +:+ "/submit".
Proof.
  intros Hf Hv task_id.
  assert (conv fuel true
          = (fst submitted, fst (waited fuel task_id),
             snd (waited fuel task_id))) as Hconv.
  { unfold convert. destruct submitted as [sent [e|v']]; cbn [fst snd] in *;
      [discriminate|].
    injection Hv as ->. fold task_id.
    destruct (waited fuel task_id); reflexivity. }
  split; [exact Hconv|]. split.
  { intros s ->. reflexivity. }
  split.
  - rewrite Hconv. cbn [fst snd].
    rewrite (wait_for_completion_queries w self task_id format_type).
    unfold result_url. rewrite Hf. reflexivity.
  - rewrite submit_conversion_run, Hf. eexists. split; reflexivity.
Qed.

End Conversion.

(** X17.  A conversion that is given no time still submits the job.  On
    binary64 floats, with [wait=True], [max_wait_ms <= 0], polling arguments
    that convert to floats and a clock that does not run backwards between
    its first two readings: when the submission succeeds, [convert] has sent
    its one POST and then raises [TimeoutError] without a single status
    query or suspension. *)
Theorem convert_without_time_submits_and_times_out (E : Enums float)
    (py_str : json -> string) (w : World float) (requests : Transport)
    self pdf_url format_type model includes_footnotes ignore_pdf_errors
    ignore_ocr_errors max_wait_ms check_interval_ms max_check_interval_ms
    backoff_factor T f c mx task_id fuel :
  max_wait_ms <= 0 →
  settings max_wait_ms check_interval_ms max_check_interval_ms backoff_factor
    = Some (T, f, c, mx) →
  (time_time w 0%nat <=? time_time w 1%nat)%float = true →
  (0 < fuel)%nat →
  snd (submit_conversion self pdf_url format_type model includes_footnotes
         ignore_pdf_errors ignore_ocr_errors requests []) = inr task_id →
  ∃ rq,
    convert py_str fuel self pdf_url format_type model includes_footnotes
      ignore_pdf_errors ignore_ocr_errors true max_wait_ms check_interval_ms
      max_check_interval_ms backoff_factor requests w
    = ([rq],
       {| clock_reads := 2; requests_made := 0; trace := [] |},
       Raise (mk_exn TimeoutError "Conversion timeout" None))
    ∧ req_method rq = POST.
Proof.
  intros Hmw Hset Hclock Hfuel Hsub.
  unfold convert. revert Hsub. rewrite submit_conversion_run.
  destruct (_ensure_format_type format_type) as [e|fs]; [discriminate|].
  cbn [snd]. intros ->.
  rewrite (non_positive_wait_float E w self (interpolate py_str task_id)
             format_type max_wait_ms check_interval_ms max_check_interval_ms
             backoff_factor T f c mx fuel Hmw Hset Hclock Hfuel).
  eexists. split; reflexivity.
Qed.

(** * Properties of the batch API *)

(** ** Code that sends nothing *)

Lemma sends_nothing_lift {A} (r : exn + A) : sends_nothing (R_lift r).
Proof. exists r. reflexivity. Qed.

Lemma sends_nothing_ret {A} (a : A) : sends_nothing (R_ret a).
Proof. exists (inr a). reflexivity. Qed.

Lemma sends_nothing_raise {A} (e : exn) : sends_nothing (@R_raise A e).
Proof. exists (inl e). reflexivity. Qed.

Lemma sends_nothing_bind {A B} (m : R A) (k : A → R B) :
  sends_nothing m → (∀ a, sends_nothing (k a)) → sends_nothing (R_bind m k).
Proof.
  intros [[e|a] Hm] Hk.
  - exists (inl e). intros requests sent. unfold R_bind. rewrite Hm.
    reflexivity.
  - destruct (Hk a) as [r Hr]. exists r. intros requests sent.
    unfold R_bind. rewrite Hm. apply Hr.
Qed.

Ltac sends_nothing_tac :=
  unfold pagination_of;
  repeat first
    [ apply sends_nothing_lift
    | apply sends_nothing_ret
    | apply sends_nothing_raise
    | apply sends_nothing_bind; [|intros ?] ].

(** A request, the decoding of its answer, and code that sends nothing. *)
Lemma one_request_intro {A} (rq : request) (k : json → R A) :
  (∀ result, sends_nothing (k result)) →
  one_request
    (R_bind (send rq) (fun response => R_bind (decoded response) k)) rq.
Proof.
  intros Hk requests.
  unfold decoded. unfold R_bind, send, R_ret, R_raise. cbn [length app].
  destruct (requests 0%nat rq) as [e|resp].
  { cbn. repeat split; try discriminate. intros e' [= <-]. reflexivity. }
  destruct (json_body resp) as [result|] eqn:Hb.
  2:{ cbn. split; [reflexivity|]. split; [discriminate|]. split.
      - intros resp' [= <-] _. reflexivity.
      - intros resp' r [= <-]. congruence. }
  destruct (ok resp) eqn:Hok; cbn [negb].
  - destruct (Hk result) as [r Hr]. rewrite !Hr. cbn.
    split; [reflexivity|]. split; [discriminate|]. split.
    + intros resp' [= <-]. congruence.
    + intros resp' r' [= <-]. congruence.
  - cbn. split; [reflexivity|]. split; [discriminate|]. split.
    + intros resp' [= <-]. congruence.
    + intros resp' r' [= <-] _ _. reflexivity.
Qed.

(** A method that begins by unwrapping the payload reads a wrapped payload
    as the bare one. *)
Lemma reads_wrapped_as_bare_intro {A} (rq : request) (k : json → R A) :
  (∀ data_result, sends_nothing (k data_result)) →
  reads_wrapped_as_bare
    (R_bind (send rq) (fun response =>
     R_bind (decoded response) (fun result =>
     R_bind (R_lift (py_get result "data" result)) k))).
Proof.
  intros Hk status d others Hd.
  unfold decoded.
  unfold R_bind, send, R_ret, R_raise, R_lift, answering, served.
  cbn [json_body length app].
  destruct (negb _); [reflexivity|].
  cbn [py_get]. rewrite lookup_insert_eq, Hd. cbn [default].
  destruct (Hk (JObj d)) as [r Hr]. rewrite !Hr. reflexivity.
Qed.

Ltac answered Hst :=
  unfold decoded, pagination_of;
  unfold R_bind, R_lift, R_ret, R_raise, requests_post, requests_get_, send,
    answering, served, ok;
  cbn [json_body status_code length app];
  rewrite Hst; cbn [negb].

Section BatchRequests.
Variable (self : PDFCraftClientObject).

Local Abbreviation post path json :=
  {| req_method := POST; req_url := batch_base_url self +:+ path;
     req_json := json; req_headers := headers self |}.
Local Abbreviation get path :=
  {| req_method := GET; req_url := batch_base_url self +:+ path;
     req_json := None; req_headers := headers self |}.

(** X18.  Every method of the batch API sends exactly one request, to its
    own endpoint under [batch_base_url], with the headers of the client, and
    passes on every failure of the exchange in the same way: an exception of
    the transport as it is, a body that is not JSON as an [APIError] quoting
    the body (whatever the status), a 4xx or 5xx status as an [APIError]
    with the status code.  Only [create_batch] sends a body; the other POSTs
    send none. *)
Theorem batch_methods_send_one_request :
  (∀ files output_format includes_footnotes fs l,
     _ensure_format_type output_format = inr fs →
     files_data_of files = inr l →
     one_request (create_batch self files output_format includes_footnotes)
       (post "/batches"
          (Some (JObj {[ "files" := JArr l;
                         "outputFormat" := JStr fs;
                         "includesFootnotes" := JBool includes_footnotes ]}))))
  ∧ (∀ batch_id,
       one_request (start_batch self batch_id)
         (post ("/batches/" +:+ batch_id +:+ "/start") None)
       ∧ one_request (get_batch self batch_id)
           (get ("/batches/" +:+ batch_id))
       ∧ one_request (cancel_batch self batch_id)
           (post ("/batches/" +:+ batch_id +:+ "/cancel") None)
       ∧ one_request (pause_batch self batch_id)
           (post ("/batches/" +:+ batch_id +:+ "/pause") None)
       ∧ one_request (resume_batch self batch_id)
           (post ("/batches/" +:+ batch_id +:+ "/resume") None)
       ∧ one_request (retry_failed_jobs self batch_id)
           (post ("/batches/" +:+ batch_id +:+ "/retry-failed?force=true")
              None))
  ∧ (∀ job_id,
       one_request (retry_job self job_id)
         (post ("/jobs/" +:+ job_id +:+ "/retry?force=true") None)
       ∧ one_request (cancel_job self job_id)
           (post ("/jobs/" +:+ job_id +:+ "/cancel") None))
  ∧ one_request (get_concurrent_status self) (get "/concurrent-status").
Proof.
  split; [|split; [|split]].
  - intros files output_format includes_footnotes fs l Hf Hl.
    unfold create_batch. rewrite Hf, Hl.
    apply (one_request_intro (post "/batches" _)). intros result.
    sends_nothing_tac.
  - intros batch_id. repeat split;
      (eapply one_request_intro; intros result; sends_nothing_tac).
  - intros job_id. repeat split;
      (eapply one_request_intro; intros result; sends_nothing_tac).
  - eapply one_request_intro; intros result; sends_nothing_tac.
Qed.

(** X19.  The two listing methods send one GET each, the arguments written
    into the query string as they are, in a fixed order.  [get_batches]
    leaves the status filter out only when it is [None] (an empty string is
    sent as [status=]); [get_batch_jobs] leaves it out when it is [None] or
    empty. *)
Theorem listing_methods_send_one_get :
  (∀ page page_size status sort_by sort_order,
     one_request (get_batches self page page_size status sort_by sort_order)
       (get ("/batches?page=" +:+ pretty page
               +:+ "&pageSize=" +:+ pretty page_size
               +:+ match status with
                   | Some st => "&status=" +:+ st
                   | None => ""
                   end
               +:+ "&sortBy=" +:+ sort_by
               +:+ "&sortOrder=" +:+ sort_order)))
  ∧ (∀ batch_id page page_size status,
       one_request (get_batch_jobs self batch_id page page_size status)
         (get ("/batches/" +:+ batch_id
                 +:+ "/jobs?page=" +:+ pretty page
                 +:+ "&pageSize="
                 +:+ match status with
                     | Some st =>
                         if String.eqb st "" then pretty page_size
                         else pretty page_size +:+ "&status=" +:+ st
                     | None => pretty page_size
                     end))).
Proof.
  split.
  - intros page page_size status sort_by sort_order.
    assert (∀ u, batch_base_url self +:+ "/batches?" +:+
                   query_string
                     [("page", Some (pretty page));
                      ("pageSize", Some (pretty page_size));
                      ("status", status);
                      ("sortBy", Some sort_by);
                      ("sortOrder", Some sort_order)] = u →
                 one_request
                   (get_batches self page page_size status sort_by sort_order)
                   {| req_method := GET; req_url := u; req_json := None;
                      req_headers := headers self |}) as Hone.
    { intros u <-. unfold get_batches.
      eapply one_request_intro; intros result; sends_nothing_tac. }
    apply Hone.
    destruct status as [st|];
      unfold query_string;
      cbn [omap list_omap fmap option_fmap option_map fst snd String.concat];
      rewrite ?string_app_assoc; reflexivity.
  - intros batch_id page page_size status.
    assert (∀ u, batch_base_url self +:+ "/batches/" +:+ batch_id +:+ "/jobs?"
                   +:+ query_string
                         ([("page", Some (pretty page));
                           ("pageSize", Some (pretty page_size))]
                          ++ match status with
                             | Some s =>
                                 if String.eqb s "" then []
                                 else [("status", Some s)]
                             | None => []
                             end) = u →
                 one_request
                   (get_batch_jobs self batch_id page page_size status)
                   {| req_method := GET; req_url := u; req_json := None;
                      req_headers := headers self |}) as Hone.
    { intros u <-. unfold get_batch_jobs.
      eapply one_request_intro; intros result; sends_nothing_tac. }
    apply Hone.
    destruct status as [st|]; [destruct (String.eqb st "")|];
      unfold query_string;
      cbn [app omap list_omap fmap option_fmap option_map fst snd
             String.concat];
      rewrite ?string_app_assoc; reflexivity.
Qed.

(** X20.  Every method of the batch API unwraps its payload first: an answer
    [{"data": payload, ...}] is read exactly as the bare [payload] is (for a
    payload that is an object without a ["data"] entry of its own). *)
Theorem batch_methods_read_wrapped_as_bare :
  (∀ files output_format includes_footnotes,
     reads_wrapped_as_bare
       (create_batch self files output_format includes_footnotes))
  ∧ (∀ batch_id,
       reads_wrapped_as_bare (start_batch self batch_id)
       ∧ reads_wrapped_as_bare (get_batch self batch_id)
       ∧ reads_wrapped_as_bare (cancel_batch self batch_id)
       ∧ reads_wrapped_as_bare (pause_batch self batch_id)
       ∧ reads_wrapped_as_bare (resume_batch self batch_id)
       ∧ reads_wrapped_as_bare (retry_failed_jobs self batch_id))
  ∧ (∀ job_id,
       reads_wrapped_as_bare (retry_job self job_id)
       ∧ reads_wrapped_as_bare (cancel_job self job_id))
  ∧ (∀ page page_size status sort_by sort_order,
       reads_wrapped_as_bare
         (get_batches self page page_size status sort_by sort_order))
  ∧ (∀ batch_id page page_size status,
       reads_wrapped_as_bare
         (get_batch_jobs self batch_id page page_size status))
  ∧ reads_wrapped_as_bare (get_concurrent_status self).
Proof.
  split; [|split; [|split; [|split; [|split]]]].
  - intros files output_format includes_footnotes status d others Hd.
    unfold create_batch.
    destruct (_ensure_format_type output_format) as [e|fs]; [reflexivity|].
    destruct (files_data_of files) as [e|l]; [reflexivity|].
    eapply (reads_wrapped_as_bare_intro (post "/batches" _));
      [|exact Hd].
    intros data_result; sends_nothing_tac.
  - intros batch_id. repeat split;
      (eapply reads_wrapped_as_bare_intro; intros data_result;
       sends_nothing_tac).
  - intros job_id. repeat split;
      (eapply reads_wrapped_as_bare_intro; intros data_result;
       sends_nothing_tac).
  - intros page page_size status sort_by sort_order.
    eapply reads_wrapped_as_bare_intro; intros data_result; sends_nothing_tac.
  - intros batch_id page page_size status.
    eapply reads_wrapped_as_bare_intro; intros data_result; sends_nothing_tac.
  - eapply reads_wrapped_as_bare_intro; intros data_result; sends_nothing_tac.
Qed.

(** X21.  The seven methods that act on a batch or a job read their answer
    with [.get] only.  Each returns an [OperationResponse] for every JSON
    object answered with a status other than 4xx and 5xx: exactly two
    attributes are passed, holding the two entries of the payload the method
    reads, or [None] for an entry that is missing; no key is required.  A
    payload that is [null] raises [AttributeError]. *)
Theorem operation_methods_require_no_field :
  (∀ batch_id,
     tolerant_operation (start_batch self batch_id)
       "batchId" OperationResponse.batch_id
       "queuedJobs" OperationResponse.queued_jobs
     ∧ tolerant_operation (cancel_batch self batch_id)
         "batchId" OperationResponse.batch_id
         "cancelledJobs" OperationResponse.cancelled_jobs
     ∧ tolerant_operation (pause_batch self batch_id)
         "batchId" OperationResponse.batch_id
         "pausedJobs" OperationResponse.paused_jobs
     ∧ tolerant_operation (resume_batch self batch_id)
         "batchId" OperationResponse.batch_id
         "resumedJobs" OperationResponse.resumed_jobs
     ∧ tolerant_operation (retry_failed_jobs self batch_id)
         "batchId" OperationResponse.batch_id
         "retriedJobs" OperationResponse.retried_jobs)
  ∧ (∀ job_id,
       tolerant_operation (retry_job self job_id)
         "jobId" OperationResponse.job_id
         "status" OperationResponse.status
       ∧ tolerant_operation (cancel_job self job_id)
           "jobId" OperationResponse.job_id
           "status" OperationResponse.status).
Proof.
  assert (∀ (method : R OperationResponse.t) key1 attr1 key2 attr2,
            (∀ status d, (400 <=? status) && (status <? 600) = false →
               (d !! "data" = None →
                ∃ r, method (answering status (JObj d)) [] = (r.1, inr r.2)
                     ∧ attr1 r.2 = Some (default JNull (d !! key1))
                     ∧ attr2 r.2 = Some (default JNull (d !! key2))
                     ∧ length (omap id (attributes r.2)) = 2%nat)
               ∧ (d !! "data" = Some JNull →
                  ∃ sent, method (answering status (JObj d)) [] =
                    (sent, inl (mk_exn AttributeError
                                  "object has no attribute 'get'" None)))) →
            tolerant_operation method key1 attr1 key2 attr2) as Hintro.
  { intros method key1 attr1 key2 attr2 H status d Hst.
    destruct (H status d Hst) as [H1 H2]. split.
    - intros Hd. destruct (H1 Hd) as ([sent r] & -> & ?). exists r. auto.
    - intros Hd. destruct (H2 Hd) as (sent & ->). reflexivity. }
  split.
  - intros batch_id. split; [|split; [|split; [|split]]];
      (apply Hintro; intros status d Hst; split; intros Hd;
       [ eexists (_, _);
         unfold start_batch, cancel_batch, pause_batch, resume_batch,
           retry_failed_jobs, retry_job, cancel_job;
         answered Hst; cbn [py_get]; rewrite Hd; cbn [default py_get fst snd];
         split; [reflexivity|]; repeat split
       | eexists;
         unfold start_batch, cancel_batch, pause_batch, resume_batch,
           retry_failed_jobs, retry_job, cancel_job;
         answered Hst; cbn [py_get]; rewrite Hd; cbn [default py_get];
         reflexivity ]).
  - intros job_id. split;
      (apply Hintro; intros status d Hst; split; intros Hd;
       [ eexists (_, _);
         unfold start_batch, cancel_batch, pause_batch, resume_batch,
           retry_failed_jobs, retry_job, cancel_job;
         answered Hst; cbn [py_get]; rewrite Hd; cbn [default py_get fst snd];
         split; [reflexivity|]; repeat split
       | eexists;
         unfold start_batch, cancel_batch, pause_batch, resume_batch,
           retry_failed_jobs, retry_job, cancel_job;
         answered Hst; cbn [py_get]; rewrite Hd; cbn [default py_get];
         reflexivity ]).
Qed.

End BatchRequests.

(** ** What the reading methods require of the payload *)

Ltac lookup_step d k :=
  destruct (d !! k); cbn; [|reflexivity].

(** X22.  [get_batch] requires every one of its eleven fields.  For a
    payload that is a JSON object, answered with a status other than 4xx and
    5xx, it raises [KeyError] for the first key, in the order the
    constructor is written, that the payload lacks; and when none is lacking
    it returns the [BatchDetail] that holds the eleven entries. *)
Theorem get_batch_requires_every_field self batch_id status d :
  (400 <=? status) && (status <? 600) = false →
  d !! "data" = None →
  snd (get_batch self batch_id (answering status (JObj d)) []) =
  match List.find (lacks d) batch_keys with
  | Some k => inl (mk_exn KeyError k None)
  | None =>
      inr {| BatchDetail.id := default JNull (d !! "id");
             BatchDetail.user_id := default JNull (d !! "userId");
             BatchDetail.status := default JNull (d !! "status");
             BatchDetail.output_format := default JNull (d !! "outputFormat");
             BatchDetail.includes_footnotes :=
               default JNull (d !! "includesFootnotes");
             BatchDetail.total_files := default JNull (d !! "totalFiles");
             BatchDetail.completed_files :=
               default JNull (d !! "completedFiles");
             BatchDetail.failed_files := default JNull (d !! "failedFiles");
             BatchDetail.progress := default JNull (d !! "progress");
             BatchDetail.created_at := default JNull (d !! "createdAt");
             BatchDetail.updated_at := default JNull (d !! "updatedAt") |}
  end.
Proof.
  intros Hst Hd. unfold get_batch. answered Hst.
  cbn [py_get]. rewrite Hd. cbn [default py_getitem].
  unfold batch_keys, lacks. cbn [List.find].
  lookup_step d "id". lookup_step d "userId". lookup_step d "status".
  lookup_step d "outputFormat". lookup_step d "includesFootnotes".
  lookup_step d "totalFiles". lookup_step d "completedFiles".
  lookup_step d "failedFiles". lookup_step d "progress".
  lookup_step d "createdAt". lookup_step d "updatedAt".
  reflexivity.
Qed.

(** X23.  One job of a listing: nine keys are required, eight are optional.
    For a job that is a JSON object, the [JobDetail] is built exactly when
    the nine required keys are present; the first of them that is missing,
    in the order the constructor is written, is the [KeyError]; and each of
    the eight optional attributes is [None] when its key is missing. *)
Theorem job_detail_required_and_optional_fields (m : gmap string json) :
  job_detail (JObj m) =
  match List.find (lacks m) job_keys with
  | Some k => inl (mk_exn KeyError k None)
  | None =>
      inr {| JobDetail.id := default JNull (m !! "id");
             JobDetail.batch_id := default JNull (m !! "batchId");
             JobDetail.user_id := default JNull (m !! "userId");
             JobDetail.output_format := default JNull (m !! "outputFormat");
             JobDetail.source_url := default JNull (m !! "sourceUrl");
             JobDetail.file_name := default JNull (m !! "fileName");
             JobDetail.file_size := default JNull (m !! "fileSize");
             JobDetail.status := default JNull (m !! "status");
             JobDetail.result_url := default JNull (m !! "resultUrl");
             JobDetail.error_message := default JNull (m !! "errorMessage");
             JobDetail.progress := default JNull (m !! "progress");
             JobDetail.retry_count := default JNull (m !! "retryCount");
             JobDetail.task_id := default JNull (m !! "taskId");
             JobDetail.started_at := default JNull (m !! "startedAt");
             JobDetail.completed_at := default JNull (m !! "completedAt");
             JobDetail.created_at := default JNull (m !! "createdAt");
             JobDetail.updated_at := default JNull (m !! "updatedAt") |}
  end.
Proof.
  unfold job_detail, job_keys, lacks. cbn [List.find py_getitem py_get].
  unfold mbind, exn_bind.
  lookup_step m "id". lookup_step m "batchId". lookup_step m "userId".
  lookup_step m "outputFormat". lookup_step m "sourceUrl".
  lookup_step m "fileName". lookup_step m "status".
  lookup_step m "createdAt". lookup_step m "updatedAt".
  reflexivity.
Qed.

(** X24.  [get_concurrent_status] requires two fields and prefers
    ["canStartNew"].  For a payload that is a JSON object, answered with a
    status other than 4xx and 5xx: it raises [KeyError] when
    ["maxConcurrentJobs"] or ["currentRunningJobs"] is missing (the former
    first); otherwise it returns, and [can_submit_new_job] is the value of
    ["canStartNew"] whenever that key is present (even when its value is
    [null]), else the value of ["canSubmitNewJob"], else [False]. *)
Theorem get_concurrent_status_prefers_canStartNew self status d :
  (400 <=? status) && (status <? 600) = false →
  d !! "data" = None →
  snd (get_concurrent_status self (answering status (JObj d)) []) =
  match List.find (lacks d) ["maxConcurrentJobs"; "currentRunningJobs"] with
  | Some k => inl (mk_exn KeyError k None)
  | None =>
      inr {| ConcurrentStatus.max_concurrent_jobs :=
               default JNull (d !! "maxConcurrentJobs");
             ConcurrentStatus.current_running_jobs :=
               default JNull (d !! "currentRunningJobs");
             ConcurrentStatus.can_submit_new_job :=
               match d !! "canStartNew" with
               | Some v => v
               | None =>
                   match d !! "canSubmitNewJob" with
                   | Some v => v
                   | None => JBool false
                   end
               end;
             ConcurrentStatus.available_slots :=
               default JNull (d !! "availableSlots");
             ConcurrentStatus.queued_jobs :=
               default JNull (d !! "queuedJobs") |}
  end.
Proof.
  intros Hst Hd. unfold get_concurrent_status. answered Hst.
  cbn [py_get]. rewrite Hd. cbn [default py_getitem].
  unfold lacks. cbn [List.find].
  lookup_step d "maxConcurrentJobs". lookup_step d "currentRunningJobs".
  destruct (d !! "canStartNew"), (d !! "canSubmitNewJob"); reflexivity.
Qed.

(** ** The jobs of a listing *)

Lemma job_details_inr l ds :
  job_details l = inr ds ↔ Forall2 (fun job j => job_detail job = inr j) l ds.
Proof.
  revert ds. induction l as [|job l IH]; intros ds; cbn.
  - split.
    + intros [= <-]. constructor.
    + intros H. inversion H. reflexivity.
  - destruct (job_detail job) as [e|j] eqn:Hj.
    + split; [discriminate|]. intros H. inversion H; congruence.
    + destruct (job_details l) as [e|js] eqn:Hjs.
      * split; [discriminate|]. intros H.
        inversion H as [|? j' ? js' Hj' Hrest]; subst.
        apply IH in Hrest. discriminate.
      * split.
        -- intros [= <-]. constructor; [exact Hj|]. apply IH. reflexivity.
        -- intros H. inversion H as [|? j' ? js' Hj' Hrest]; subst.
           apply IH in Hrest. congruence.
Qed.

Lemma job_details_first_failure l i job e :
  l !! i = Some job →
  job_detail job = inl e →
  (∀ i' job', (i' < i)%nat → l !! i' = Some job' →
     ∃ j, job_detail job' = inr j) →
  job_details l = inl e.
Proof.
  revert i. induction l as [|x l IH]; intros i Hi He Hpre; [discriminate|].
  destruct i as [|i]; cbn in Hi.
  - injection Hi as ->. cbn. rewrite He. reflexivity.
  - cbn. destruct (Hpre 0%nat x ltac:(lia) eq_refl) as [j ->].
    rewrite (IH i Hi He); [reflexivity|].
    intros i' job' Hlt Hl. apply (Hpre (S i') job'); [lia|exact Hl].
Qed.

(** X25.  [get_batch_jobs] lists all the jobs or none.  For a payload whose
    ["jobs"] is a JSON array, answered with a status other than 4xx and 5xx:
    when the call returns, its [jobs] are the [JobDetail]s of the elements
    of the array, as many and in the same order; and the first element from
    which no [JobDetail] can be built makes the whole call raise the
    exception of that element. *)
Theorem get_batch_jobs_lists_all_jobs_or_none self batch_id page page_size
    filter status d l :
  (400 <=? status) && (status <? 600) = false →
  d !! "data" = None →
  d !! "jobs" = Some (JArr l) →
  let out :=
    snd (get_batch_jobs self batch_id page page_size filter
           (answering status (JObj d)) []) in
  (∀ r, out = inr r →
     length (GetJobsResponse.jobs r) = length l
     ∧ ∀ i job, l !! i = Some job →
         ∃ j, GetJobsResponse.jobs r !! i = Some j ∧ job_detail job = inr j)
  ∧ (∀ i job e, l !! i = Some job → job_detail job = inl e →
       (∀ i' job', (i' < i)%nat → l !! i' = Some job' →
          ∃ j, job_detail job' = inr j) →
       out = inl e).
Proof.
  intros Hst Hd Hjobs out. subst out.
  unfold get_batch_jobs. answered Hst.
  cbn [py_get]. rewrite Hd. cbn [default py_getitem]. rewrite Hjobs.
  cbn [py_iter].
  split.
  - intros r. destruct (job_details l) as [e|js] eqn:Hjs; [discriminate|].
    apply job_details_inr in Hjs.
    unfold py_getitem2. cbn [py_getitem].
    intros Hr.
    assert (GetJobsResponse.jobs r = js) as ->.
    { revert Hr.
      repeat match goal with
             | |- context [match ?x with _ => _ end] =>
                 destruct x; cbn; try discriminate
             end.
      intros [= <-]. reflexivity. }
    split; [symmetry; eapply Forall2_length, Hjs|].
    intros i job Hi.
    destruct (Forall2_lookup_l _ _ _ _ _ Hjs Hi) as (j & Hj & Hdetail).
    eauto.
  - intros i job e Hi He Hpre.
    rewrite (job_details_first_failure l i job e Hi He Hpre). reflexivity.
Qed.

(** ** The files of a new batch *)

Lemma files_data_of_inl files e :
  files_data_of files = inl e →
  FileOther ∈ files
  ∧ e = mk_exn ValueError
          "Each file must be a BatchFile object or a dictionary" None.
Proof.
  induction files as [|file files IH]; cbn; [discriminate|].
  destruct file as [f|m|].
  - destruct (files_data_of files) as [e'|l]; [|discriminate].
    intros [= <-]. destruct (IH eq_refl) as [Hin ->].
    split; [right; exact Hin|reflexivity].
  - destruct (files_data_of files) as [e'|l]; [|discriminate].
    intros [= <-]. destruct (IH eq_refl) as [Hin ->].
    split; [right; exact Hin|reflexivity].
  - intros [= <-]. split; [left|reflexivity].
Qed.

Lemma files_data_of_inr files l :
  files_data_of files = inr l → FileOther ∉ files.
Proof.
  revert l. induction files as [|file files IH]; intros l; cbn.
  { intros _ H. inversion H. }
  destruct file as [f|m|]; cbn; [| |discriminate];
    (destruct (files_data_of files) as [e'|l']; [discriminate|]);
    intros _ Hin; apply elem_of_cons in Hin as [?|Hin]; try discriminate;
    exact (IH l' eq_refl Hin).
Qed.

Lemma create_batch_one_request self files output_format includes_footnotes
    fs l :
  _ensure_format_type output_format = inr fs →
  files_data_of files = inr l →
  one_request (create_batch self files output_format includes_footnotes)
    {| req_method := POST;
       req_url := batch_base_url self +:+ "/batches";
       req_json :=
         Some (JObj {[ "files" := JArr l;
                       "outputFormat" := JStr fs;
                       "includesFootnotes" := JBool includes_footnotes ]});
       req_headers := headers self |}.
Proof.
  intros Hf Hl. unfold create_batch. rewrite Hf, Hl.
  apply (one_request_intro
           {| req_method := POST;
              req_url := batch_base_url self +:+ "/batches";
              req_json := _; req_headers := headers self |}).
  intros result. sends_nothing_tac.
Qed.

(** X26.  [create_batch] validates all its arguments before it sends
    anything.  Nothing is sent exactly when [output_format] is not a format
    or some element of [files] is neither a [BatchFile] nor a dictionary;
    the call then raises [ValueError], that of the format when both are
    wrong; in every other case exactly one request is sent, whatever it is
    answered with. *)
Theorem create_batch_validates_before_it_sends self files output_format
    includes_footnotes (requests : Transport) :
  let sent :=
    fst (create_batch self files output_format includes_footnotes requests [])
  in
  let out :=
    snd (create_batch self files output_format includes_footnotes requests [])
  in
  (sent = [] ↔
     (∃ e, _ensure_format_type output_format = inl e) ∨ FileOther ∈ files)
  ∧ (sent = [] → ∃ e, out = inl e ∧ exn_class_of e = ValueError)
  ∧ (∀ e, _ensure_format_type output_format = inl e → out = inl e)
  ∧ (sent ≠ [] → length sent = 1%nat).
Proof.
  cbv zeta.
  destruct (_ensure_format_type output_format) as [e|fs] eqn:Hf.
  { assert (create_batch self files output_format includes_footnotes
              requests [] = ([], inl e)) as ->.
    { unfold create_batch. rewrite Hf. reflexivity. }
    cbn. split; [split; eauto|]. split; [|split; [|congruence]].
    - intros _. exists e. split; [reflexivity|].
      destruct output_format as [t|x]; [discriminate|].
      cbn in Hf. destruct (bool_decide _) in Hf; cbn in Hf; [discriminate|].
      injection Hf as <-. reflexivity.
    - intros e' [= <-]. reflexivity. }
  destruct (files_data_of files) as [e|l] eqn:Hl.
  { assert (create_batch self files output_format includes_footnotes
              requests [] = ([], inl e)) as ->.
    { unfold create_batch. rewrite Hf, Hl. reflexivity. }
    cbn. destruct (files_data_of_inl files e Hl) as [Hin ->].
    split; [split; eauto|]. split; [|split; [discriminate|congruence]].
    intros _. eexists. split; reflexivity. }
  pose proof (files_data_of_inr files l Hl) as Hnot.
  destruct (create_batch_one_request self files output_format
              includes_footnotes fs l Hf Hl requests) as (-> & _).
  split; [|split; [|split]].
  - split; [discriminate|].
    intros [[e He]|Hin]; [discriminate|contradiction].
  - discriminate.
  - intros e He. discriminate He.
  - intros _. reflexivity.
Qed.

(** X27.  The request of [create_batch] lists the files as given.  When
    every element of [files] is a [BatchFile] or a dictionary, the ["files"]
    of the body has as many entries, in the same order: a dictionary is sent
    unchanged; a [BatchFile] is sent as an object with its ["url"] and
    ["fileName"], and with ["fileSize"] exactly when [file_size] is not
    [None], and with no other key. *)
Theorem create_batch_lists_the_files_in_order files l :
  files_data_of files = inr l →
  length l = length files
  ∧ ∀ i file, files !! i = Some file →
      match file with
      | FileDict d => l !! i = Some (JObj d)
      | FileObject f =>
          ∃ d, l !! i = Some (JObj d)
               ∧ d !! "url" = Some (BatchFile.url f)
               ∧ d !! "fileName" = Some (BatchFile.file_name f)
               ∧ d !! "fileSize" =
                 match BatchFile.file_size f with
                 | JNull => None
                 | v => Some v
                 end
               ∧ ∀ k, is_Some (d !! k) →
                      k = "url" ∨ k = "fileName" ∨ k = "fileSize"
      | FileOther => False
      end.
Proof.
  revert l. induction files as [|file files IH]; intros l; cbn [files_data_of].
  { intros [= <-]. split; [reflexivity|]. intros i file Hi. discriminate. }
  assert (∀ f : BatchFile.t,
            let d : gmap string json :=
              match BatchFile.file_size f with
              | JNull =>
                  {[ "url" := BatchFile.url f;
                     "fileName" := BatchFile.file_name f ]}
              | size =>
                  <[ "fileSize" := size ]>
                    {[ "url" := BatchFile.url f;
                       "fileName" := BatchFile.file_name f ]}
              end in
            d !! "url" = Some (BatchFile.url f)
            ∧ d !! "fileName" = Some (BatchFile.file_name f)
            ∧ d !! "fileSize" =
              match BatchFile.file_size f with
              | JNull => None
              | v => Some v
              end
            ∧ ∀ k, is_Some (d !! k) →
                   k = "url" ∨ k = "fileName" ∨ k = "fileSize") as Hobj.
  { intros f d. subst d.
    assert (∀ k, is_Some (({[ "url" := BatchFile.url f;
                              "fileName" := BatchFile.file_name f ]}
                           : gmap string json) !! k) →
                 k = "url" ∨ k = "fileName") as Hdom.
    { intros k [x Hx].
      apply lookup_insert_Some in Hx as [[<- _]|[_ Hx]]; [auto|].
      apply lookup_singleton_Some in Hx as [<- _]. auto. }
    destruct (BatchFile.file_size f);
      (split; [reflexivity|]; split; [reflexivity|]; split; [reflexivity|]);
      intros k Hk;
      try (destruct (Hdom k Hk) as [->| ->]; auto; fail);
      (destruct Hk as [x Hx];
       apply lookup_insert_Some in Hx as [[<- _]|[_ Hx]]; [auto|];
       destruct (Hdom k (ex_intro _ x Hx)) as [->| ->]; auto). }
  destruct file as [f|m|]; cbn beta iota; [| |discriminate];
    (destruct (files_data_of files) as [e|l'] eqn:Hrest; [discriminate|]);
    intros [= <-]; destruct (IH l' eq_refl) as [Hlen Hall];
    (split; [cbn; rewrite Hlen; reflexivity|]);
    intros [|i] file Hi; cbn in Hi.
  - injection Hi as <-. eexists. split; [reflexivity|]. apply Hobj.
  - apply Hall, Hi.
  - injection Hi as <-. reflexivity.
  - apply Hall, Hi.
Qed.

(** X28.  [create_batch] and [get_batches] require every field they read.
    For a payload that is a JSON object, answered with a status other than
    4xx and 5xx: [create_batch] raises [KeyError] for the first of its five
    keys that is missing, and otherwise returns the [CreateBatchResponse]
    holding them; [get_batches] requires ["pagination"] (an object with its
    four keys, read first) and then ["batches"], which it returns as
    received. *)
Theorem create_batch_and_get_batches_require_every_field self status d :
  (400 <=? status) && (status <? 600) = false →
  d !! "data" = None →
  (∀ files output_format includes_footnotes fs l,
     _ensure_format_type output_format = inr fs →
     files_data_of files = inr l →
     snd (create_batch self files output_format includes_footnotes
            (answering status (JObj d)) []) =
     match List.find (lacks d)
             ["batchId"; "totalFiles"; "status"; "outputFormat"; "createdAt"]
     with
     | Some k => inl (mk_exn KeyError k None)
     | None =>
         inr {| CreateBatchResponse.batch_id := default JNull (d !! "batchId");
                CreateBatchResponse.total_files :=
                  default JNull (d !! "totalFiles");
                CreateBatchResponse.status := default JNull (d !! "status");
                CreateBatchResponse.output_format :=
                  default JNull (d !! "outputFormat");
                CreateBatchResponse.created_at :=
                  default JNull (d !! "createdAt") |}
     end)
  ∧ (∀ page page_size filter sort_by sort_order,
       snd (get_batches self page page_size filter sort_by sort_order
              (answering status (JObj d)) []) =
       match d !! "pagination" with
       | None => inl (mk_exn KeyError "pagination" None)
       | Some (JObj p) =>
           match List.find (lacks p)
                   ["page"; "pageSize"; "total"; "totalPages"] with
           | Some k => inl (mk_exn KeyError k None)
           | None =>
               match d !! "batches" with
               | None => inl (mk_exn KeyError "batches" None)
               | Some batches =>
                   inr {| GetBatchesResponse.batches := batches;
                          GetBatchesResponse.pagination :=
                            {| Pagination.page := default JNull (p !! "page");
                               Pagination.page_size :=
                                 default JNull (p !! "pageSize");
                               Pagination.total := default JNull (p !! "total");
                               Pagination.total_pages :=
                                 default JNull (p !! "totalPages") |} |}
               end
           end
       | Some _ => inl (mk_exn TypeError "indices must be integers" None)
       end).
Proof.
  intros Hst Hd. split.
  - intros files output_format includes_footnotes fs l Hf Hl.
    unfold create_batch. rewrite Hf, Hl. answered Hst.
    cbn [py_get]. rewrite Hd. cbn [default py_getitem].
    unfold lacks. cbn [List.find].
    lookup_step d "batchId". lookup_step d "totalFiles".
    lookup_step d "status". lookup_step d "outputFormat".
    lookup_step d "createdAt". reflexivity.
  - intros page page_size filter sort_by sort_order.
    unfold get_batches. answered Hst.
    cbn [py_get]. rewrite Hd. cbn [default]. unfold py_getitem2.
    cbn [py_getitem].
    destruct (d !! "pagination") as [[| | | | | |p]|]; try reflexivity.
    unfold lacks. cbn [List.find py_getitem].
    lookup_step p "page". lookup_step p "pageSize". lookup_step p "total".
    lookup_step p "totalPages".
    destruct (d !! "batches"); reflexivity.
Qed.

(** * The further properties at concrete inputs *)

(** A server error at the first status query. *)
Lemma wait_for_completion_does_not_retry_a_failed_query_witness :
  wait_for_completion (Enums0 := example_strategies_float) 9 client "task123"
    (FormatEnum MARKDOWN) 7200000 1000 5000 (BackoffStrategy EXPONENTIAL)
    server_error initial
  = (after_query
       (result_url client "task123" (FormatEnum MARKDOWN)) 1%float 2%float
       5%float 0,
     Raise (mk_exn APIError
              ("HTTP " +:+ pretty (status_code (served 500 (JObj ∅)))
                 +:+ ": " +:+ text (served 500 (JObj ∅))) None)).
Proof.
  apply (proj2 (proj2
           (wait_for_completion_does_not_retry_a_failed_query
              (PyFloat0 := Float64) (Enums0 := example_strategies_float)
              server_error client
              "task123" (FormatEnum MARKDOWN) 7200000 1000 5000
              (BackoffStrategy EXPONENTIAL) 7200%float 2%float 1%float
              5%float 0 "markdown" 9
              ltac:(vm_compute; reflexivity) eq_refl
              ltac:(intros i Hi; lia) ltac:(vm_compute; reflexivity)
              ltac:(lia)))
         (served 500 (JObj ∅)) (JObj ∅)); reflexivity.
Defined.

(** The exponential test: what is returned was served. *)
Lemma wait_for_completion_returns_only_a_served_download_url_witness :
  ∃ k m d,
    fst (wait_for_completion (Enums0 := example_strategies_float) 9 client
           "task123" (FormatEnum MARKDOWN) 7200000 1000 5000
           (BackoffStrategy EXPONENTIAL) test_exponential initial)
    = after_query (result_url client "task123" (FormatEnum MARKDOWN))
        1%float 2%float 5%float k
    ∧ pending_prefix test_exponential client "task123" (FormatEnum MARKDOWN)
        7200%float 2%float 1%float 5%float k
    ∧ within_deadline test_exponential 7200%float k = true
    ∧ poll_result test_exponential client "task123" (FormatEnum MARKDOWN) k
      = Return (JObj m)
    ∧ m !! "state" = Some (JStr "completed")
    ∧ m !! "data" = Some (JObj d)
    ∧ d !! "downloadURL" = Some (JStr "http://example.com/result.md").
Proof.
  apply (wait_for_completion_returns_only_a_served_download_url
           (PyFloat0 := Float64) (Enums0 := example_strategies_float)
           test_exponential client
           "task123" (FormatEnum MARKDOWN) 7200000 1000 5000
           (BackoffStrategy EXPONENTIAL) 7200%float 2%float 1%float 5%float 9
           (JStr "http://example.com/result.md")).
  - vm_compute. reflexivity.
  - vm_compute. reflexivity.
Defined.

(** A status that is a JSON list. *)
Lemma wait_for_completion_rejects_a_status_that_is_no_object_witness :
  wait_for_completion (Enums0 := example_strategies_float) 9 client "task123"
    (FormatEnum MARKDOWN) 7200000 1000 5000 (BackoffStrategy EXPONENTIAL)
    odd_status initial
  = (after_query (result_url client "task123" (FormatEnum MARKDOWN))
       1%float 2%float 5%float 0,
     Raise (mk_exn AttributeError "object has no attribute 'get'" None)).
Proof.
  apply (wait_for_completion_rejects_a_status_that_is_no_object
           (PyFloat0 := Float64) (Enums0 := example_strategies_float)
           odd_status client "task123"
           (FormatEnum MARKDOWN) 7200000 1000 5000
           (BackoffStrategy EXPONENTIAL) 7200%float 2%float 1%float 5%float
           0 (JArr []) 9).
  - vm_compute. reflexivity.
  - intros i Hi. lia.
  - vm_compute. reflexivity.
  - reflexivity.
  - intros m. discriminate.
  - lia.
Defined.

(** A completed status whose data is a text that mentions the key. *)
Lemma wait_for_completion_completed_with_data_that_is_no_dictionary_witness :
  ∃ e,
    wait_for_completion (Enums0 := example_strategies_float) 9 client
      "task123" (FormatEnum MARKDOWN) 7200000 1000 5000
      (BackoffStrategy EXPONENTIAL) odd_payload initial
    = (after_query (result_url client "task123" (FormatEnum MARKDOWN))
         1%float 2%float 5%float 0, Raise e)
    ∧ exn_class_of e =
      match py_in "downloadURL" (JStr "see downloadURL") with
      | inr false => APIError
      | _ => TypeError
      end.
Proof.
  apply (wait_for_completion_completed_with_data_that_is_no_dictionary
           (PyFloat0 := Float64) (Enums0 := example_strategies_float)
           odd_payload client "task123"
           (FormatEnum MARKDOWN) 7200000 1000 5000
           (BackoffStrategy EXPONENTIAL) 7200%float 2%float 1%float 5%float
           0 {[ "state" := JStr "completed";
                "data" := JStr "see downloadURL" ]}
           (JStr "see downloadURL") 9).
  - vm_compute. reflexivity.
  - intros i Hi. lia.
  - vm_compute. reflexivity.
  - reflexivity.
  - vm_compute. reflexivity.
  - vm_compute. reflexivity.
  - reflexivity.
  - intros o. discriminate.
  - lia.
Defined.

(** A job that stays in processing for longer than the three seconds it is
    given. *)
Lemma wait_for_completion_ends_by_the_first_failed_check_witness :
  snd (wait_for_completion (Enums0 := example_strategies_Q) 9 client "task123"
         (FormatEnum MARKDOWN) 3000 1000 5000 (BackoffStrategy FIXED)
         slow_job initial) ≠ OutOfFuel
  ∧ (requests_made
       (fst (wait_for_completion (Enums0 := example_strategies_Q) 9 client
               "task123" (FormatEnum MARKDOWN) 3000 1000 5000
               (BackoffStrategy FIXED) slow_job initial)) ≤ 2)%nat
  ∧ wait_for_completion (Enums0 := example_strategies_Q) 9 client "task123"
      (FormatEnum MARKDOWN) 3000 1000 5000 (BackoffStrategy FIXED)
      slow_job initial
    = wait_for_completion (Enums0 := example_strategies_Q) 3 client "task123"
        (FormatEnum MARKDOWN) 3000 1000 5000 (BackoffStrategy FIXED)
        slow_job initial.
Proof.
  apply (wait_for_completion_ends_by_the_first_failed_check
           (Enums0 := example_strategies_Q) slow_job client "task123"
           (FormatEnum MARKDOWN) 3000 1000 5000 (BackoffStrategy FIXED)
           3%Q 1%Q 1%Q 5%Q 2 9).
  - vm_compute. reflexivity.
  - vm_compute. reflexivity.
  - lia.
Defined.


(** A submission that is accepted. *)
Lemma submit_conversion_outcome_witness :
  (∀ v,
     snd (submit_conversion example_client "https://example.com/a.pdf"
            (FormatEnum MARKDOWN) "gundam" false true true
            (accepting "task123") []) = inr v ↔
     ok (served 200 (JObj {[ "success" := JBool true;
                             "sessionID" := JStr "task123" ]})) = true
     ∧ ∃ m, json_body
              (served 200 (JObj {[ "success" := JBool true;
                                   "sessionID" := JStr "task123" ]}))
            = Some (JObj m)
            ∧ truthy (default JNull (m !! "success")) = true
            ∧ m !! "sessionID" = Some v)
  ∧ (∀ m,
       json_body
         (served 200 (JObj {[ "success" := JBool true;
                              "sessionID" := JStr "task123" ]}))
       = Some (JObj m) →
       ok (served 200 (JObj {[ "success" := JBool true;
                               "sessionID" := JStr "task123" ]})) = true →
       truthy (default JNull (m !! "success")) = true →
       m !! "sessionID" = None →
       snd (submit_conversion example_client "https://example.com/a.pdf"
              (FormatEnum MARKDOWN) "gundam" false true true
              (accepting "task123") [])
       = inl (mk_exn KeyError "sessionID" None))
  ∧ (∀ m,
       json_body
         (served 200 (JObj {[ "success" := JBool true;
                              "sessionID" := JStr "task123" ]}))
       = Some (JObj m) →
       ok (served 200 (JObj {[ "success" := JBool true;
                               "sessionID" := JStr "task123" ]})) = true →
       truthy (default JNull (m !! "success")) = false →
       snd (submit_conversion example_client "https://example.com/a.pdf"
              (FormatEnum MARKDOWN) "gundam" false true true
              (accepting "task123") [])
       = inl (mk_exn APIError "Failed to submit task: "
                (Some (default (JStr "Unknown error") (m !! "error"))))).
Proof.
  apply (submit_conversion_outcome example_client "https://example.com/a.pdf"
           (FormatEnum MARKDOWN) "gundam" false true true
           (accepting "task123") "markdown"
           (served 200 (JObj {[ "success" := JBool true;
                                "sessionID" := JStr "task123" ]}))).
  - reflexivity.
  - reflexivity.
Defined.

(** A conversion that waits for the job it submitted. *)
Lemma convert_waits_for_the_submitted_job_witness :
  let task_id := interpolate (fun _ => "") (JStr "task123") in
  convert (Enums0 := example_strategies_float) (fun _ => "") 9 example_client
    "https://example.com/a.pdf" (FormatEnum MARKDOWN) "gundam" false true
    true true 7200000 1000 5000 (BackoffStrategy EXPONENTIAL)
    (accepting "task123") test_exponential
  = (fst (submit_conversion example_client "https://example.com/a.pdf"
            (FormatEnum MARKDOWN) "gundam" false true true
            (accepting "task123") []),
     fst (wait_for_completion (Enums0 := example_strategies_float) 9
            example_client task_id (FormatEnum MARKDOWN) 7200000 1000 5000
            (BackoffStrategy EXPONENTIAL) test_exponential initial),
     snd (wait_for_completion (Enums0 := example_strategies_float) 9
            example_client task_id (FormatEnum MARKDOWN) 7200000 1000 5000
            (BackoffStrategy EXPONENTIAL) test_exponential initial))
  ∧ (∀ s, JStr "task123" = JStr s → task_id = s)
  ∧ queries_of
      (trace
         (snd (fst (convert (Enums0 := example_strategies_float)
                      (fun _ => "") 9 example_client
                      "https://example.com/a.pdf" (FormatEnum MARKDOWN)
                      "gundam" false true true true 7200000 1000 5000
                      (BackoffStrategy EXPONENTIAL) (accepting "task123")
                      test_exponential))))
    = replicate
        (requests_made
           (snd (fst (convert (Enums0 := example_strategies_float)
                        (fun _ => "") 9 example_client
                        "https://example.com/a.pdf" (FormatEnum MARKDOWN)
                        "gundam" false true true true 7200000 1000 5000
                        (BackoffStrategy EXPONENTIAL) (accepting "task123")
                        test_exponential))))
        (base_url example_client +:+ "/pdf-transform-" +:+ "markdown"
           +:+ "/result/" +:+ task_id)
  ∧ ∃ rq,
      fst (submit_conversion example_client "https://example.com/a.pdf"
             (FormatEnum MARKDOWN) "gundam" false true true
             (accepting "task123") []) = [rq]
      ∧ req_url rq
        = base_url example_client +:+ "/pdf-transform-" +:+ "markdown"
            +:+ "/submit".
Proof.
  apply (convert_waits_for_the_submitted_job (PyFloat0 := Float64)
           (Enums0 := example_strategies_float) (fun _ => "") example_client
           "https://example.com/a.pdf" (FormatEnum MARKDOWN) "gundam" false
           true true 7200000 1000 5000 (BackoffStrategy EXPONENTIAL)
           (accepting "task123") test_exponential 9 "markdown"
           (JStr "task123")).
  - reflexivity.
  - reflexivity.
Defined.

(** A conversion that is given no time at all. *)
Lemma convert_without_time_submits_and_times_out_witness :
  ∃ rq,
    convert (Enums0 := example_strategies_float) (fun _ => "") 9
      example_client "https://example.com/a.pdf" (FormatEnum MARKDOWN)
      "gundam" false true true true 0 1000 5000 (BackoffStrategy EXPONENTIAL)
      (accepting "task123") test_exponential
    = ([rq],
       {| clock_reads := 2; requests_made := 0; trace := [] |},
       Raise (mk_exn TimeoutError "Conversion timeout" None))
    ∧ req_method rq = POST.
Proof.
  apply (convert_without_time_submits_and_times_out example_strategies_float
           (fun _ => "") test_exponential (accepting "task123")
           example_client "https://example.com/a.pdf" (FormatEnum MARKDOWN)
           "gundam" false true true 0 1000 5000 (BackoffStrategy EXPONENTIAL)
           0%float 2%float 1%float 5%float (JStr "task123") 9).
  - lia.
  - vm_compute. reflexivity.
  - vm_compute. reflexivity.
  - lia.
  - reflexivity.
Defined.

(** A batch whose details are empty. *)
Lemma get_batch_requires_every_field_witness :
  snd (get_batch example_client "b1" (answering 200 (JObj no_fields)) []) =
  match List.find (lacks no_fields) batch_keys with
  | Some k => inl (mk_exn KeyError k None)
  | None =>
      inr {| BatchDetail.id := default JNull (no_fields !! "id");
             BatchDetail.user_id := default JNull (no_fields !! "userId");
             BatchDetail.status := default JNull (no_fields !! "status");
             BatchDetail.output_format :=
               default JNull (no_fields !! "outputFormat");
             BatchDetail.includes_footnotes :=
               default JNull (no_fields !! "includesFootnotes");
             BatchDetail.total_files :=
               default JNull (no_fields !! "totalFiles");
             BatchDetail.completed_files :=
               default JNull (no_fields !! "completedFiles");
             BatchDetail.failed_files :=
               default JNull (no_fields !! "failedFiles");
             BatchDetail.progress := default JNull (no_fields !! "progress");
             BatchDetail.created_at := default JNull (no_fields !! "createdAt");
             BatchDetail.updated_at :=
               default JNull (no_fields !! "updatedAt") |}
  end.
Proof.
  apply (get_batch_requires_every_field example_client "b1" 200 no_fields).
  - reflexivity.
  - reflexivity.
Defined.

(** A concurrency status with both flags: ["canStartNew"] wins, though it
    is [null]. *)
Lemma get_concurrent_status_prefers_canStartNew_witness :
  snd (get_concurrent_status example_client
         (answering 200 (JObj both_flags)) []) =
  match List.find (lacks both_flags)
          ["maxConcurrentJobs"; "currentRunningJobs"] with
  | Some k => inl (mk_exn KeyError k None)
  | None =>
      inr {| ConcurrentStatus.max_concurrent_jobs :=
               default JNull (both_flags !! "maxConcurrentJobs");
             ConcurrentStatus.current_running_jobs :=
               default JNull (both_flags !! "currentRunningJobs");
             ConcurrentStatus.can_submit_new_job :=
               match both_flags !! "canStartNew" with
               | Some v => v
               | None =>
                   match both_flags !! "canSubmitNewJob" with
                   | Some v => v
                   | None => JBool false
                   end
               end;
             ConcurrentStatus.available_slots :=
               default JNull (both_flags !! "availableSlots");
             ConcurrentStatus.queued_jobs :=
               default JNull (both_flags !! "queuedJobs") |}
  end.
Proof.
  apply (get_concurrent_status_prefers_canStartNew example_client 200
           both_flags).
  - reflexivity.
  - vm_compute. reflexivity.
Defined.

(** A listing with a job that lacks its required keys. *)
Lemma get_batch_jobs_lists_all_jobs_or_none_witness :
  let out :=
    snd (get_batch_jobs example_client "b1" 1 20 (Some "failed")
           (answering 200 (JObj {[ "jobs" := JArr [JObj ∅] ]})) []) in
  (∀ r, out = inr r →
     length (GetJobsResponse.jobs r) = length [JObj ∅]
     ∧ ∀ i job, [JObj ∅] !! i = Some job →
         ∃ j, GetJobsResponse.jobs r !! i = Some j ∧ job_detail job = inr j)
  ∧ (∀ i job e, [JObj ∅] !! i = Some job → job_detail job = inl e →
       (∀ i' job', (i' < i)%nat → [JObj ∅] !! i' = Some job' →
          ∃ j, job_detail job' = inr j) →
       out = inl e).
Proof.
  apply (get_batch_jobs_lists_all_jobs_or_none example_client "b1" 1 20
           (Some "failed") 200 {[ "jobs" := JArr [JObj ∅] ]} [JObj ∅]).
  - reflexivity.
  - vm_compute. reflexivity.
  - vm_compute. reflexivity.
Defined.

(** Two files, one of each kind. *)
Lemma create_batch_lists_the_files_in_order_witness :
  let files :=
    [FileObject {| BatchFile.url := JStr "cache://abc.pdf";
                   BatchFile.file_name := JStr "document.pdf";
                   BatchFile.file_size := JNull |};
     FileDict {[ "url" := JStr "cache://def.pdf" ]}] in
  let l :=
    [JObj {[ "url" := JStr "cache://abc.pdf";
             "fileName" := JStr "document.pdf" ]};
     JObj {[ "url" := JStr "cache://def.pdf" ]}] in
  length l = length files
  ∧ ∀ i file, files !! i = Some file →
      match file with
      | FileDict d => l !! i = Some (JObj d)
      | FileObject f =>
          ∃ d, l !! i = Some (JObj d)
               ∧ d !! "url" = Some (BatchFile.url f)
               ∧ d !! "fileName" = Some (BatchFile.file_name f)
               ∧ d !! "fileSize" =
                 match BatchFile.file_size f with
                 | JNull => None
                 | v => Some v
                 end
               ∧ ∀ k, is_Some (d !! k) →
                      k = "url" ∨ k = "fileName" ∨ k = "fileSize"
      | FileOther => False
      end.
Proof.
  apply (create_batch_lists_the_files_in_order
           [FileObject {| BatchFile.url := JStr "cache://abc.pdf";
                          BatchFile.file_name := JStr "document.pdf";
                          BatchFile.file_size := JNull |};
            FileDict {[ "url" := JStr "cache://def.pdf" ]}]).
  reflexivity.
Defined.

(** Answers without any field. *)
Lemma create_batch_and_get_batches_require_every_field_witness :
  snd (create_batch example_client [] (FormatEnum MARKDOWN) false
         (answering 200 (JObj no_fields)) [])
  = inl (mk_exn KeyError "batchId" None)
  ∧ snd (get_batches example_client 1 20 (Some "all") "createdAt" "desc"
           (answering 200 (JObj no_fields)) [])
    = inl (mk_exn KeyError "pagination" None).
Proof.
  destruct (create_batch_and_get_batches_require_every_field example_client
              200 no_fields eq_refl eq_refl) as [Hcreate Hlist].
  split.
  - exact (Hcreate [] (FormatEnum MARKDOWN) false "markdown" [] eq_refl
             eq_refl).
  - exact (Hlist 1 20 (Some "all") "createdAt" "desc").
Defined.

(** An [int] too large for a float, and a format that is none. *)
Lemma wait_for_completion_argument_errors_witness :
  wait_for_completion (Enums0 := example_strategies_float) 9 client "task123"
    (FormatEnum MARKDOWN) (2 ^ 1024) 1000 5000 (BackoffStrategy EXPONENTIAL)
    test_exponential initial
  = ({| clock_reads := 1; requests_made := 0; trace := [] |},
     Raise (mk_exn OverflowError "int too large to convert to float" None))
  ∧ wait_for_completion (Enums0 := example_strategies_float) 9 client
      "task123" (FormatStr "pdf") 7200000 1000 5000
      (BackoffStrategy EXPONENTIAL) test_exponential initial
    = ({| clock_reads := 2; requests_made := 0; trace := [] |},
       Raise (if within_deadline test_exponential 7200%float 0
              then mk_exn ValueError
                     "format_type must be one of ['markdown', 'epub']" None
              else mk_exn TimeoutError "Conversion timeout" None)).
Proof.
  split.
  - apply (proj1 (wait_for_completion_argument_errors (PyFloat0 := Float64)
                    (Enums0 := example_strategies_float) test_exponential
                    client "task123" (FormatEnum MARKDOWN) (2 ^ 1024) 1000
                    5000 (BackoffStrategy EXPONENTIAL))).
    vm_compute. reflexivity.
  - apply (proj2 (wait_for_completion_argument_errors (PyFloat0 := Float64)
                    (Enums0 := example_strategies_float) test_exponential
                    client "task123" (FormatStr "pdf") 7200000 1000 5000
                    (BackoffStrategy EXPONENTIAL))
             7200%float 2%float 1%float 5%float).
    + vm_compute. reflexivity.
    + reflexivity.
    + lia.
Defined.

(** The fourth suspension of the exponential test is the maximum. *)
Lemma later_suspensions_are_capped_witness :
  (5 <? 5)%float = false.
Proof.
  apply (proj1 later_suspensions_are_capped example_strategies_float
           test_exponential client "task123" (FormatEnum MARKDOWN) 7200000
           1000 5000 (BackoffStrategy EXPONENTIAL) 7200%float 2%float 1%float
           5%float 9%nat 2%nat 5%float).
  - vm_compute. reflexivity.
  - vm_compute. reflexivity.
Defined.
